(** * Neptune DNS service: a shallow embedding and its checked properties

    The development follows the TypeScript sources
    [src/services/DNSProvider.ts], [CloudflareDNSProvider.ts],
    [AdaptiveCloudflareProvider.ts], [DigitalOceanDNSProvider.ts] and
    [DNSService.ts].  Provider classes become modules, their [async]
    methods become computations in a small state-and-exception monad, and
    the remote REST APIs become oracles that answer from the history of
    requests seen so far. *)

From Stdlib Require Import ZArith List String Ascii Bool Lia.
From stdpp Require Import base decidable option list strings gmap pretty.

Local Open Scope string_scope.
Local Open Scope Z_scope.

(** ** JavaScript string primitives used by the sources *)

Module Js.

(** [s.includes(sub)] *)
Fixpoint includes (s sub : string) : bool :=
  String.prefix sub s ||
  match s with
  | EmptyString => false
  | String _ s' => includes s' sub
  end.

(** [s.endsWith(suf)]: some tail of [s] is [suf]. *)
Fixpoint endsWith (s suf : string) : bool :=
  String.eqb s suf ||
  match s with
  | EmptyString => false
  | String _ s' => endsWith s' suf
  end.

(** [s.split(sep)] for a one-character separator; never empty. *)
Fixpoint split (sep : ascii) (s : string) : list string :=
  match s with
  | EmptyString => [EmptyString]
  | String c s' =>
      if Ascii.eqb c sep then EmptyString :: split sep s'
      else match split sep s' with
           | h :: t => String c h :: t
           | [] => [String c EmptyString]
           end
  end.

(** [parts.join(sep)] *)
Fixpoint join (sep : string) (parts : list string) : string :=
  match parts with
  | [] => EmptyString
  | [p] => p
  | p :: rest => p ++ sep ++ join sep rest
  end.

(** [parts.slice(-k)] *)
Definition slice_last {A} (k : nat) (parts : list A) : list A :=
  drop (length parts - k) parts.

(** Truthiness of a possibly absent string: [undefined], [null] and the
    empty string are falsy. *)
Definition truthy (o : option string) : bool :=
  match o with
  | Some s => negb (String.eqb s EmptyString)
  | None => false
  end.

(** [a || b] on possibly absent strings. *)
Definition or_else (a b : option string) : option string :=
  if truthy a then a else b.

(** [a || d] with a string default. *)
Definition or_default (a : option string) (d : string) : string :=
  match a with
  | Some s => if String.eqb s EmptyString then d else s
  | None => d
  end.

(** [n || d] on numbers: [0] and [undefined] are falsy. *)
Definition num_or (n : option Z) (d : Z) : Z :=
  match n with
  | Some v => if v =? 0 then d else v
  | None => d
  end.

(** [n || undefined] *)
Definition num_or_undefined (n : option Z) : option Z :=
  match n with
  | Some v => if v =? 0 then None else Some v
  | None => None
  end.

(** Property names every plain object inherits from [Object.prototype].
    A lookup [obj[key]] on an object literal finds them even when the
    object has no such own property. *)
Definition object_prototype_keys : list string :=
  [ "constructor"; "__defineGetter__"; "__defineSetter__"; "hasOwnProperty";
    "__lookupGetter__"; "__lookupSetter__"; "isPrototypeOf";
    "propertyIsEnumerable"; "toString"; "valueOf"; "__proto__";
    "toLocaleString" ].

Definition inherited (key : string) : bool :=
  bool_decide (key ∈ object_prototype_keys).

End Js.

(** ** Root-domain extraction *)

Module RootDomain.

(** [domain.split('.')] *)
Definition labels (domain : string) : list string := Js.split "." domain.

(** The recognised multi-part suffixes, as label pairs. *)
Definition specialSuffixLabels : list (list string) :=
  [ ["co"; "uk"]; ["com"; "au"]; ["co"; "nz"]; ["co"; "za"] ].

(** The claim's wording, for an arbitrary extraction function [f]:
    identity up to two labels, last three labels under a recognised
    suffix, and last two labels in every other case. *)
Definition extraction_as_claimed (f : string -> string) : Prop :=
  forall domain,
    let parts := labels domain in
    ((length parts <= 2)%nat -> f domain = domain) /\
    ((2 < length parts)%nat -> Js.slice_last 2 parts ∈ specialSuffixLabels ->
       f domain = Js.join "." (Js.slice_last 3 parts)) /\
    ((2 < length parts)%nat -> Js.slice_last 2 parts ∉ specialSuffixLabels ->
       f domain = Js.join "." (Js.slice_last 2 parts)).

End RootDomain.

(** ** Errors and completions *)

(** The part of an HTTP error response the sources read:
    [error.response.status], [error.response.data.errors[0].message]
    (Cloudflare) and [error.response.data.message] (DigitalOcean). *)
Record ErrorResponse := {
  status : Z;
  data_errors : list string;
  data_message : option string
}.

(** A thrown JavaScript error object.  [statusCode] and [provider] are the
    extra properties of [DNSProviderError]; [response] is set on errors
    raised by the HTTP client for an answered request. *)
Record JsError := {
  message : string;
  statusCode : option Z;
  provider : option string;
  response : option ErrorResponse
}.

(** [new Error(msg)] *)
Definition Error (msg : string) : JsError :=
  {| message := msg; statusCode := None; provider := None; response := None |}.

(** [new DNSProviderError(msg, statusCode = 500, provider?)] *)
Definition DNSProviderError (msg : string) (code : Z) (prov : option string) : JsError :=
  {| message := msg; statusCode := Some code; provider := prov; response := None |}.

(** [error.response?.status] *)
Definition response_status (e : JsError) : option Z :=
  match response e with
  | Some r => Some (status r)
  | None => None
  end.

(** [error.response?.status || 500] *)
Definition status_or_500 (e : JsError) : Z := Js.num_or (response_status e) 500.

(** [errors?.[0]?.message] of a Cloudflare envelope or error body. *)
Definition first_error (errors : list string) : option string := head errors.

(** [error.response?.data?.errors?.[0]?.message || error.message] *)
Definition cf_error_text (e : JsError) : string :=
  Js.or_default (match response e with
                 | Some r => first_error (data_errors r)
                 | None => None
                 end) (message e).

(** [error.response?.data?.message || error.message] *)
Definition do_error_text (e : JsError) : string :=
  Js.or_default (match response e with
                 | Some r => data_message r
                 | None => None
                 end) (message e).

(** How an [async] call ends.  [OutOfFuel] stands for a call that has not
    settled within the recursion budget given to the model. *)
Inductive Completion (A : Type) : Type :=
| Return (a : A)
| Throw (e : JsError)
| OutOfFuel.
Arguments Return {A} a.
Arguments Throw {A} e.
Arguments OutOfFuel {A}.

(** How an HTTP request ends.  The client is configured with a timeout, so
    every request settles: with a 2xx answer, or with an error. *)
Inductive HttpResult (A : Type) : Type :=
| Answer (data : A)
| Failed (e : JsError).
Arguments Answer {A} data.
Arguments Failed {A} e.

Definition settle {A} (r : HttpResult A) : Completion A :=
  match r with
  | Answer d => Return d
  | Failed e => Throw e
  end.

(** Computations over a state [S]. *)
Definition M (S A : Type) : Type := S -> Completion A * S.

Definition ret {S A} (a : A) : M S A := fun s => (Return a, s).
Definition throw {S A} (e : JsError) : M S A := fun s => (Throw e, s).
Definition out_of_fuel {S A} : M S A := fun s => (OutOfFuel, s).

Definition bind {S A B} (m : M S A) (k : A -> M S B) : M S B :=
  fun s =>
    match m s with
    | (Return a, s') => k a s'
    | (Throw e, s') => (Throw e, s')
    | (OutOfFuel, s') => (OutOfFuel, s')
    end.

(** [try { m } catch (error) { h error }] *)
Definition try_catch {S A} (m : M S A) (h : JsError -> M S A) : M S A :=
  fun s =>
    match m s with
    | (Throw e, s') => h e s'
    | other => other
    end.

Definition get {S} : M S S := fun s => (Return s, s).
Definition modify {S} (f : S -> S) : M S unit := fun s => (Return tt, f s).

Declare Scope js_scope.
Delimit Scope js_scope with js.
Notation "x <- m ;; k" := (bind m (fun x => k))
  (at level 100, m at next level, right associativity) : js_scope.
Notation "m ;;; k" := (bind m (fun _ => k))
  (at level 100, right associativity) : js_scope.
Local Open Scope js_scope.

(** ** The uniform record model ([DNSProvider.ts]) *)

Record DNSRecord := {
  rec_type : string;
  rec_name : string;
  rec_data : string;
  rec_ttl : Z;
  rec_priority : option Z
}.

(** [Partial<DNSRecord>]: every field may be [undefined]. *)
Record PartialRecord := {
  upd_name : option string;
  upd_data : option string;
  upd_ttl : option Z;
  upd_priority : option Z
}.

Record DNSRecordResult := {
  res_id : string;
  res_type : string;
  res_name : string;
  res_data : string;
  res_ttl : Z;
  res_priority : option Z
}.

(** The [DNSProvider] interface: providers are objects whose methods act
    on a world [W] (their own fields and the remote service). *)
Record DNSProvider (W : Type) := {
  provider_createRecord : string -> DNSRecord -> M W DNSRecordResult;
  provider_updateRecord : string -> string -> PartialRecord -> M W DNSRecordResult;
  provider_deleteRecord : string -> string -> M W unit;
  provider_listRecords : string -> option string -> M W (list DNSRecordResult);
  provider_verifyDomainOwnership : string -> M W bool
}.
Arguments provider_createRecord {W} _ _ _ _.
Arguments provider_updateRecord {W} _ _ _ _ _.
Arguments provider_deleteRecord {W} _ _ _ _.
Arguments provider_listRecords {W} _ _ _ _.
Arguments provider_verifyDomainOwnership {W} _ _ _.

(** ** Cloudflare REST API *)

Module Cf.

Record Account := { account_id : string; account_name : string }.

Record CloudflareZone := {
  zone_id : string;
  zone_name : string;
  zone_status : string;
  zone_account : option Account
}.

(** A DNS record as Cloudflare returns it. *)
Record CfRecord := {
  cf_id : string;
  cf_type : string;
  cf_name : string;
  cf_content : string;
  cf_ttl : Z;
  cf_priority : option Z
}.

(** Body of [POST /zones/{zoneId}/dns_records]. *)
Record CreateBody := {
  body_type : string;
  body_name : string;
  body_content : string;
  body_ttl : Z;
  body_priority : option Z;
  body_proxied : option bool
}.

(** The response envelope [{success, result, errors: [{message}]}]. *)
Record Envelope (A : Type) := {
  success : bool;
  result : A;
  errors : list string
}.
Arguments success {A} _.
Arguments result {A} _.
Arguments errors {A} _.

(** Requests the providers send. *)
Inductive Request :=
| GetZone (zoneId : string)
| GetZonesByName (name : string)
| GetZonesPage (per_page : Z)
| GetAccountZones (accountId name : string)
| GetTokenVerify
| GetUser
| PostRecord (zoneId : string) (body : CreateBody)
| GetRecords (zoneId : string) (per_page : Z) (type : option string).

(** What happens during a provider call, newest event first. *)
Inductive Event :=
| EvRequest (r : Request)
| EvCacheCleared.

Definition Trace := list Event.

(** The remote API: each endpoint answers from the events so far, with a
    payload of the shape the endpoint documents, or fails the way the
    HTTP client reports it (any non-2xx status, timeout, no route). *)
Record Api := {
  zone_detail : Trace -> string -> HttpResult (Envelope unit);
  zones_by_name : Trace -> string -> HttpResult (Envelope (list CloudflareZone));
  zones_page : Trace -> Z -> HttpResult (Envelope (list CloudflareZone));
  account_zones : Trace -> string -> string -> HttpResult (Envelope (list CloudflareZone));
  token_verify : Trace -> HttpResult (Envelope unit);
  (** [result.accounts] of [GET /user], possibly absent *)
  user : Trace -> HttpResult (Envelope (option (list Account)));
  post_record : Trace -> string -> CreateBody -> HttpResult (Envelope CfRecord);
  get_records : Trace -> string -> Z -> option string -> HttpResult (Envelope (list CfRecord))
}.

Definition is_cache_clear (e : Event) : bool :=
  match e with EvCacheCleared => true | EvRequest _ => false end.

Definition cache_clears (t : Trace) : nat := length (List.filter is_cache_clear t).

(** The record-result mapping shared by the Cloudflare providers. *)
Definition toResult (keep_zero_priority : bool) (r : CfRecord) : DNSRecordResult :=
  {| res_id := cf_id r;
     res_type := cf_type r;
     res_name := cf_name r;
     res_data := cf_content r;
     res_ttl := cf_ttl r;
     res_priority := if keep_zero_priority then cf_priority r
                     else Js.num_or_undefined (cf_priority r) |}.

End Cf.

(** ** [AdaptiveCloudflareProvider] *)

Module Adaptive.
Import Cf.

Definition specialTlds : list string := ["co.uk"; "com.au"; "co.nz"; "co.za"].

(** [extractRootDomain]; the [for] loop returns at the first suffix that
    matches. *)
Definition extractRootDomain (domain : string) : string :=
  let parts := RootDomain.labels domain in
  if (length parts <=? 2)%nat then domain
  else
    let lastThree := Js.join "." (Js.slice_last 3 parts) in
    if existsb (fun tld => Js.endsWith lastThree tld) specialTlds
    then Js.join "." (Js.slice_last 3 parts)
    else Js.join "." (Js.slice_last 2 parts).

Record ZoneCacheEntry := {
  zoneId : string;
  (** [discoveredAt], a wall-clock stamp that is written and never read,
      is left out. *)
  method : string
}.

(** Constructor options and the process environment the class reads. *)
Record Options := {
  opt_accountId : option string;
  opt_zoneId : option string;
  opt_debug : option bool
}.

Record Env := {
  CLOUDFLARE_ACCOUNT_ID : option string;
  CLOUDFLARE_ZONE_ID : option string
}.

(** The private fields of an instance, and the trace of what it did. *)
Record State := {
  zoneCache : gmap string ZoneCacheEntry;
  accountId : option string;
  discoveryAttempts : nat;
  trace : Trace
}.

Definition set_zoneCache (c : gmap string ZoneCacheEntry) (st : State) : State :=
  {| zoneCache := c; accountId := accountId st;
     discoveryAttempts := discoveryAttempts st; trace := trace st |}.

Definition set_accountId (a : option string) (st : State) : State :=
  {| zoneCache := zoneCache st; accountId := a;
     discoveryAttempts := discoveryAttempts st; trace := trace st |}.

Definition set_discoveryAttempts (n : nat) (st : State) : State :=
  {| zoneCache := zoneCache st; accountId := accountId st;
     discoveryAttempts := n; trace := trace st |}.

Definition record_event (e : Event) (st : State) : State :=
  {| zoneCache := zoneCache st; accountId := accountId st;
     discoveryAttempts := discoveryAttempts st; trace := e :: trace st |}.

(** [this.zoneCache[key]?.zoneId] as it reads on a plain object, rendered
    the way the callers use it (inside URL templates): a key inherited
    from [Object.prototype] is found, and its [zoneId] is [undefined]. *)
Definition zoneCache_get (c : gmap string ZoneCacheEntry) (key : string) : option string :=
  match c !! key with
  | Some entry => Some (zoneId entry)
  | None => if Js.inherited key then Some "undefined" else None
  end.

Section Instance.
Variable api : Api.
Variable options : Options.
Variable env : Env.

(** The constructor: [accountId = options.accountId || env || null],
    empty cache, no attempts. *)
Definition new : State :=
  let a := Js.or_else (opt_accountId options) (CLOUDFLARE_ACCOUNT_ID env) in
  {| zoneCache := ∅;
     accountId := if Js.truthy a then a else None;
     discoveryAttempts := 0%nat;
     trace := [] |}.

(** One request through [this.client]. *)
Definition http {A} (req : Request) (endpoint : Trace -> HttpResult A) : M State A :=
  fun st => (settle (endpoint (trace st)), record_event (EvRequest req) st).

Definition cacheZoneId (domain zone how : string) : M State unit :=
  modify (fun st =>
    set_zoneCache (<[domain := {| zoneId := zone; method := how |}]> (zoneCache st)) st).

(** Strategy 1: the zone id from the options or the environment,
    checked with a zone-detail call.  [None] falls through. *)
Definition strategy1 (rootDomain : string) : M State (option string) :=
  let provided := Js.or_else (opt_zoneId options) (CLOUDFLARE_ZONE_ID env) in
  if Js.truthy provided then
    let zone := default EmptyString provided in
    try_catch
      (response <- http (GetZone zone) (fun t => zone_detail api t zone) ;;
       if success response
       then cacheZoneId rootDomain zone "provided" ;;; ret (Some zone)
       else ret None)
      (fun error =>
         if bool_decide (response_status error = Some 404) then ret None
         else cacheZoneId rootDomain zone "provided_unverified" ;;; ret (Some zone))
  else ret None.

(** Strategy 2: zone list filtered by the root-domain name. *)
Definition strategy2 (rootDomain : string) : M State (option string) :=
  try_catch
    (response <- http (GetZonesByName rootDomain)
                      (fun t => zones_by_name api t rootDomain) ;;
     if success response then
       match result response with
       | zone :: _ =>
           cacheZoneId rootDomain (zone_id zone) "direct_lookup" ;;;
           ret (Some (zone_id zone))
       | [] => ret None
       end
     else ret None)
    (fun _ => ret None).

(** Strategy 3: scan the first page of all zones. *)
Definition strategy3 (domain rootDomain : string) : M State (option string) :=
  try_catch
    (response <- http (GetZonesPage 100) (fun t => zones_page api t 100) ;;
     if success response then
       let zones := result response in
       let exact := find (fun z => String.eqb (zone_name z) rootDomain) zones in
       let zone :=
         match exact with
         | Some z => Some z
         | None =>
             if negb (String.eqb domain rootDomain)
             then find (fun z => Js.endsWith domain (zone_name z)) zones
             else None
         end in
       match zone with
       | Some z =>
           st <- get ;;
           (if Js.truthy (account_id <$> zone_account z) && negb (Js.truthy (accountId st))
            then modify (set_accountId (account_id <$> zone_account z))
            else ret tt) ;;;
           cacheZoneId rootDomain (zone_id z) "full_list_scan" ;;;
           ret (Some (zone_id z))
       | None => ret None
       end
     else ret None)
    (fun _ => ret None).

(** Strategy 4: the account-scoped zone list, when an account id is known. *)
Definition strategy4 (rootDomain : string) : M State (option string) :=
  st <- get ;;
  if Js.truthy (accountId st) then
    let account := default EmptyString (accountId st) in
    try_catch
      (response <- http (GetAccountZones account rootDomain)
                        (fun t => account_zones api t account rootDomain) ;;
       if success response then
         match result response with
         | zone :: _ =>
             cacheZoneId rootDomain (zone_id zone) "account_endpoint" ;;;
             ret (Some (zone_id zone))
         | [] => ret None
         end
       else ret None)
      (fun _ => ret None)
  else ret None.

(** Strategy 5: find an account id through the token; [true] asks for
    the recursive retry of the whole discovery. *)
Definition strategy5 : M State bool :=
  st <- get ;;
  if negb (Js.truthy (accountId st)) then
    try_catch
      (verifyResponse <- http GetTokenVerify (token_verify api) ;;
       if success verifyResponse then
         userResponse <- http GetUser (user api) ;;
         if success userResponse then
           match result userResponse with
           | Some (account :: _) =>
               modify (set_accountId (Some (account_id account))) ;;;
               ret true
           | _ => ret false
           end
         else ret false
       else ret false)
      (fun _ => ret false)
  else ret false.

Definition zone_not_found (rootDomain : string) (attempts : nat) : JsError :=
  DNSProviderError
    ("Unable to find zone for " ++ rootDomain ++ " after trying " ++
     pretty (attempts + 1)%nat ++ " strategies. " ++
     "Please ensure the domain is added to Cloudflare and the API token has proper permissions.")
    404 (Some "cloudflare").

(** The strategies after the first, in order, ending in the recursive
    retry [again] or in the zone-not-found error. *)
Definition later_strategies (again : M State string) (domain rootDomain : string)
  : M State string :=
  r2 <- strategy2 rootDomain ;;
  match r2 with
  | Some zone => ret zone
  | None =>
      r3 <- strategy3 domain rootDomain ;;
      match r3 with
      | Some zone => ret zone
      | None =>
          r4 <- strategy4 rootDomain ;;
          match r4 with
          | Some zone => ret zone
          | None =>
              retry <- strategy5 ;;
              if retry : bool then again
              else
                st <- get ;;
                throw (zone_not_found rootDomain (discoveryAttempts st))
          end
      end
  end.

(** [discoverZoneId]; [fuel] bounds the depth of its self-recursion. *)
Fixpoint discoverZoneId (fuel : nat) (domain : string) : M State string :=
  match fuel with
  | O => out_of_fuel
  | S fuel' =>
      let rootDomain := extractRootDomain domain in
      st <- get ;;
      match zoneCache_get (zoneCache st) rootDomain with
      | Some zone => ret zone
      | None =>
          r1 <- strategy1 rootDomain ;;
          match r1 with
          | Some zone => ret zone
          | None => later_strategies (discoverZoneId fuel' domain) domain rootDomain
          end
      end
  end.

(** What every strategy guarantees: it settles without raising, leaves
    the retry counter alone, and a zone it returns is in the cache under
    the root domain. *)
Definition strategy_post (rootDomain : string) (st : State)
           (r : Completion (option string) * State) : Prop :=
  discoveryAttempts (snd r) = discoveryAttempts st /\
  match fst r with
  | Return (Some zone) => zoneCache_get (zoneCache (snd r)) rootDomain = Some zone
  | Return None => True
  | Throw _ | OutOfFuel => False
  end.

(** What a discovery guarantees: a zone it returns is in the cache
    under the root domain, and the one error it raises is the
    zone-not-found error. *)
Definition discover_post (domain : string) (st : State)
           (r : Completion string * State) : Prop :=
  discoveryAttempts (snd r) = discoveryAttempts st /\
  match fst r with
  | Return zone =>
      zoneCache_get (zoneCache (snd r)) (extractRootDomain domain) = Some zone
  | Throw e =>
      e = zone_not_found (extractRootDomain domain) (discoveryAttempts st)
  | OutOfFuel => True
  end.

(** The service names its accounts: the first account listed by
    [GET /user] never has an empty id. *)
Definition accounts_named : Prop :=
  forall t response account rest,
    user api t = Answer response ->
    result response = Some (account :: rest) ->
    account_id account <> EmptyString.

(** [record.name === '@' ? domain : record.name.includes(domain) ? ...] *)
Definition fullName (domain : string) (record : DNSRecord) : string :=
  if String.eqb (rec_name record) "@" then domain
  else if Js.includes (rec_name record) domain then rec_name record
  else rec_name record ++ "." ++ domain.

Definition createBody (domain : string) (record : DNSRecord) : CreateBody :=
  {| body_type := rec_type record;
     body_name := fullName domain record;
     body_content := rec_data record;
     body_ttl := Js.num_or (Some (rec_ttl record)) 3600;
     body_priority := rec_priority record;
     body_proxied := Some false |}.

(** [createRecord]; [fuel] bounds the depth of its retry recursion and
    [discovery] the depth of each zone discovery it starts. *)
Fixpoint createRecord (fuel discovery : nat) (domain : string) (record : DNSRecord)
  : M State DNSRecordResult :=
  match fuel with
  | O => out_of_fuel
  | S fuel' =>
      try_catch
        (modify (set_discoveryAttempts 0) ;;;
         zone <- discoverZoneId discovery domain ;;
         let body := createBody domain record in
         response <- http (PostRecord zone body) (fun t => post_record api t zone body) ;;
         if negb (success response)
         then throw (Error (Js.or_default (first_error (errors response))
                                          "Failed to create DNS record"))
         else ret (toResult true (result response)))
        (fun error =>
           st <- get ;;
           if Js.includes (message error) "zone" && (discoveryAttempts st <? 2)%nat
           then
             modify (fun s => set_discoveryAttempts (S (discoveryAttempts s)) s) ;;;
             modify (fun s => record_event EvCacheCleared (set_zoneCache ∅ s)) ;;;
             createRecord fuel' discovery domain record
           else
             throw (DNSProviderError
                      ("Failed to create DNS record: " ++ cf_error_text error)
                      (status_or_500 error) (Some "cloudflare")))
  end.

Definition listRecords (fuel : nat) (domain : string) (type : option string)
  : M State (list DNSRecordResult) :=
  try_catch
    (zone <- discoverZoneId fuel domain ;;
     (** [params.type] is set whenever [type] is truthy *)
     let type_param := if Js.truthy type then type else None in
     response <- http (GetRecords zone 100 type_param)
                      (fun t => get_records api t zone 100 type_param) ;;
     if negb (success response)
     then throw (Error (Js.or_default (first_error (errors response))
                                      "Failed to list DNS records"))
     else ret (map (toResult true) (result response)))
    (fun error =>
       throw (DNSProviderError
                ("Failed to list DNS records: " ++ cf_error_text error)
                (status_or_500 error) (Some "cloudflare"))).

Definition verifyDomainOwnership (fuel : nat) (domain : string) : M State bool :=
  try_catch
    (discoverZoneId fuel domain ;;; ret true)
    (fun _ => ret false).

End Instance.

End Adaptive.

(** ** [CloudflareDNSProvider] *)

Module Cloudflare.
Import Cf.

(** [extractRootDomain]: the last two labels. *)
Definition extractRootDomain (domain : string) : string :=
  let parts := RootDomain.labels domain in
  if (length parts <=? 2)%nat then domain
  else Js.join "." (Js.slice_last 2 parts).

(** An answer of the DNS-over-HTTPS resolver ([dns.google/resolve]). *)
Record DohAnswer := { ans_type : Z; ans_data : string }.

Record DohData := {
  doh_Status : option Z;
  doh_Answer : option (list DohAnswer)
}.

(** The resolver, asked for [(name, type)]; the third argument names the
    server whose query the exchange belongs to. *)
Definition Doh := string -> string -> string -> HttpResult DohData.

Definition dnsServers : list string := ["8.8.8.8"; "1.1.1.1"; "208.67.222.222"].

(** [types[recordType] || 1].  [None] is a value that is not a number:
    what the lookup finds for a key inherited from [Object.prototype]. *)
Definition getRecordTypeNumber (recordType : string) : option Z :=
  if String.eqb recordType "A" then Some 1
  else if String.eqb recordType "AAAA" then Some 28
  else if String.eqb recordType "CNAME" then Some 5
  else if String.eqb recordType "MX" then Some 15
  else if String.eqb recordType "TXT" then Some 16
  else if Js.inherited recordType then None
  else Some 1.

Section Instance.
Variable api : Api.
Variable doh : Doh.

(** One request through [this.client]; the state is the trace. *)
Definition http {A} (req : Request) (endpoint : Trace -> HttpResult A) : M Trace A :=
  fun t => (settle (endpoint t), EvRequest req :: t).

Definition getZoneId (domain : string) : M Trace string :=
  try_catch
    (let rootDomain := extractRootDomain domain in
     response <- http (GetZonesByName rootDomain)
                      (fun t => zones_by_name api t rootDomain) ;;
     if negb (success response)
     then throw (Error (Js.or_default (first_error (errors response))
                                      "Unknown Cloudflare API error"))
     else
       match result response with
       | [] =>
           (** the listing below only feeds a log line *)
           try_catch
             (http (GetZonesPage 50) (fun t => zones_page api t 50) ;;; ret tt)
             (fun _ => ret tt) ;;;
           throw (Error ("Zone not found for domain: " ++ rootDomain ++
                         ". Make sure the domain is added to your Cloudflare account."))
       | zone :: _ => ret (zone_id zone)
       end)
    (fun error =>
       throw (DNSProviderError
                ("Failed to get zone ID for " ++ domain ++ ": " ++ message error)
                (status_or_500 error) (Some "cloudflare"))).

Definition listRecords (domain : string) (type : option string)
  : M Trace (list DNSRecordResult) :=
  try_catch
    (zone <- getZoneId domain ;;
     let type_param :=
       if Js.truthy type && negb (bool_decide (type = Some "ALL")) then type else None in
     response <- http (GetRecords zone 100 type_param)
                      (fun t => get_records api t zone 100 type_param) ;;
     if negb (success response)
     then throw (Error (Js.or_default (first_error (errors response))
                                      "Unknown Cloudflare API error"))
     else ret (map (toResult false) (result response)))
    (fun error =>
       throw (DNSProviderError
                ("Failed to list DNS records: " ++ cf_error_text error)
                (status_or_500 error) (Some "cloudflare"))).

Definition verifyDomainOwnership (domain : string) : M Trace bool :=
  try_catch
    (getZoneId domain ;;; ret true)
    (fun error =>
       if Js.includes (message error) "Zone not found" then ret false
       else throw (DNSProviderError
                     ("Failed to verify domain ownership: " ++ message error)
                     500 (Some "cloudflare"))).

(** [queryDNSServer]: the value of the first answer of the requested
    numeric type, or a rejection.  Its [catch] logs and rethrows. *)
Definition queryDNSServer (domain recordType server : string) : Completion string :=
  match doh domain recordType server with
  | Failed e => Throw e
  | Answer data =>
      let no_record := Error ("No " ++ recordType ++ " record found for " ++ domain) in
      if bool_decide (doh_Status data = Some 0)
         && (0 <? length (default [] (doh_Answer data)))%nat
      then
        match find (fun a => bool_decide (Some (ans_type a) = getRecordTypeNumber recordType))
                   (default [] (doh_Answer data)) with
        | Some answer => Return (ans_data answer)
        | None => Throw no_record
        end
      else Throw no_record
  end.

(** The values of the fulfilled entries of [Promise.allSettled]. *)
Definition fulfilled_values {A} (settled : list (Completion A)) : list A :=
  omap (fun c => match c with Return v => Some v | _ => None end) settled.

(** How many of the resolver queries were fulfilled with exactly the
    expected value. *)
Definition matching_queries (domain recordType expectedValue : string) : nat :=
  length (List.filter
            (fun server =>
               match queryDNSServer domain recordType server with
               | Return value => bool_decide (value = expectedValue)
               | _ => false
               end) dnsServers).

Definition checkPropagation {S} (domain recordType expectedValue : string) : M S bool :=
  try_catch
    (let propagationChecks :=
       map (fun server => queryDNSServer domain recordType server) dnsServers in
     let successfulChecks :=
       filter (fun value => value = expectedValue) (fulfilled_values propagationChecks) in
     ret (2 <=? length successfulChecks)%nat)
    (fun _ => ret false).

End Instance.

End Cloudflare.

(** ** [DigitalOceanDNSProvider] *)

Module DigitalOcean.

(** A domain record as DigitalOcean returns it; [name] may be missing
    or empty for the root. *)
Record DoRecord := {
  do_id : Z;
  do_type : string;
  do_name : option string;
  do_data : string;
  do_ttl : Z;
  do_priority : option Z
}.

(** Body of [POST /domains/{domain}/records]; an absent priority is
    sent as [null]. *)
Record CreateBody := {
  body_type : string;
  body_name : string;
  body_data : string;
  body_ttl : Z;
  body_priority : option Z
}.

(** Body of [PUT /domains/{domain}/records/{id}]: only the keys set. *)
Record UpdateBody := {
  put_name : option string;
  put_data : option string;
  put_ttl : option Z;
  put_priority : option Z
}.

Inductive Request :=
| PostRecord (domain : string) (body : CreateBody)
| PutRecord (domain recordId : string) (body : UpdateBody)
| DeleteRecord (domain recordId : string)
| GetRecords (domain : string) (per_page : Z) (type : option string)
| GetDomain (domain : string).

Definition Trace := list Request.

Record Api := {
  post_record : Trace -> string -> CreateBody -> HttpResult DoRecord;
  put_record : Trace -> string -> string -> UpdateBody -> HttpResult DoRecord;
  delete_record : Trace -> string -> string -> HttpResult unit;
  get_records : Trace -> string -> Z -> option string -> HttpResult (list DoRecord);
  get_domain : Trace -> string -> HttpResult unit
}.

(** DO uses the empty string for the root. *)
Definition toProviderName (name : string) : string :=
  if String.eqb name "@" then EmptyString else name.

Definition toResult (r : DoRecord) : DNSRecordResult :=
  {| res_id := pretty (do_id r);
     res_type := do_type r;
     res_name := Js.or_default (do_name r) "@";
     res_data := do_data r;
     res_ttl := do_ttl r;
     res_priority := Js.num_or_undefined (do_priority r) |}.

Definition createBody (record : DNSRecord) : CreateBody :=
  {| body_type := rec_type record;
     body_name := toProviderName (rec_name record);
     body_data := rec_data record;
     body_ttl := Js.num_or (Some (rec_ttl record)) 1800;
     body_priority := Js.num_or_undefined (rec_priority record) |}.

Definition updateBody (record : PartialRecord) : UpdateBody :=
  {| put_name := toProviderName <$> upd_name record;
     put_data := upd_data record;
     put_ttl := upd_ttl record;
     put_priority := upd_priority record |}.

Section Instance.
Variable api : Api.

Definition http {A} (req : Request) (endpoint : Trace -> HttpResult A) : M Trace A :=
  fun t => (settle (endpoint t), req :: t).

Definition wrap {A} (what : string) (m : M Trace A) : M Trace A :=
  try_catch m
    (fun error =>
       throw (DNSProviderError (what ++ do_error_text error)
                               (status_or_500 error) (Some "digitalocean"))).

Definition createRecord (domain : string) (record : DNSRecord) : M Trace DNSRecordResult :=
  wrap "Failed to create DNS record: "
    (let body := createBody record in
     doRecord <- http (PostRecord domain body) (fun t => post_record api t domain body) ;;
     ret (toResult doRecord)).

Definition updateRecord (domain recordId : string) (record : PartialRecord)
  : M Trace DNSRecordResult :=
  wrap "Failed to update DNS record: "
    (let body := updateBody record in
     doRecord <- http (PutRecord domain recordId body)
                      (fun t => put_record api t domain recordId body) ;;
     ret (toResult doRecord)).

Definition deleteRecord (domain recordId : string) : M Trace unit :=
  wrap "Failed to delete DNS record: "
    (http (DeleteRecord domain recordId) (fun t => delete_record api t domain recordId)).

Definition listRecords (domain : string) (type : option string)
  : M Trace (list DNSRecordResult) :=
  wrap "Failed to list DNS records: "
    (let type_param :=
       if Js.truthy type && negb (bool_decide (type = Some "ALL")) then type else None in
     records <- http (GetRecords domain 200 type_param)
                     (fun t => get_records api t domain 200 type_param) ;;
     ret (map toResult records)).

Definition verifyDomainOwnership (domain : string) : M Trace bool :=
  try_catch
    (http (GetDomain domain) (fun t => get_domain api t domain) ;;; ret true)
    (fun error =>
       if bool_decide (response_status error = Some 404) then ret false
       else throw (DNSProviderError
                     ("Failed to verify domain ownership: " ++ do_error_text error)
                     (status_or_500 error) (Some "digitalocean"))).

(** The class as an implementation of the [DNSProvider] interface. *)
Definition as_provider : DNSProvider Trace :=
  {| provider_createRecord := createRecord;
     provider_updateRecord := updateRecord;
     provider_deleteRecord := deleteRecord;
     provider_listRecords := listRecords;
     provider_verifyDomainOwnership := verifyDomainOwnership |}.

End Instance.

End DigitalOcean.

(** ** [DNSService], the record-operations façade *)

Module Service.

(** Provider methods the façade invokes, newest first in a log. *)
Inductive Call :=
| CallCreate (domain : string) (record : DNSRecord)
| CallUpdate (domain recordId : string) (updates : PartialRecord)
| CallDelete (domain recordId : string)
| CallList (domain : string) (type : option string)
| CallVerify (domain : string).

Definition mutating (c : Call) : bool :=
  match c with
  | CallCreate _ _ | CallUpdate _ _ _ | CallDelete _ _ => true
  | CallList _ _ | CallVerify _ => false
  end.

(** [{ ttl?, priority? }] *)
Record CreateOptions := {
  opt_ttl : option Z;
  opt_priority : option Z
}.

(** The test the façade applies to a caught error:
    [statusCode === 404 || message.includes('not found') ||
     message.includes('does not exist')]. *)
Definition not_found (error : JsError) : bool :=
  bool_decide (statusCode error = Some 404)
  || Js.includes (message error) "not found"
  || Js.includes (message error) "does not exist".

Section Facade.
Variable W : Type.

(** [getDNSProvider(provider, jwtToken)]: credential retrieval and the
    instance cache, an external collaborator of the façade.  It builds
    or finds the provider object and calls none of its methods. *)
Variable getDNSProvider : string -> string -> M W (DNSProvider W).

Record State := {
  world : W;
  calls : list Call
}.

(** Run a computation of the world inside the façade. *)
Definition lift {A} (m : M W A) : M State A :=
  fun st =>
    let '(c, w) := m (world st) in
    (c, {| world := w; calls := calls st |}).

(** Invoke a provider method, logging the call. *)
Definition invoke {A} (c : Call) (m : M W A) : M State A :=
  fun st => lift m {| world := world st; calls := c :: calls st |}.

(** The state after one listing call of the façade. *)
Definition after_listing (st : State) (domain : string) (type : option string) (w : W)
  : State :=
  {| world := w; calls := CallList domain type :: calls st |}.

Definition validateDomain (domain provider jwtToken : string) : M State bool :=
  try_catch
    (dnsProvider <- lift (getDNSProvider provider jwtToken) ;;
     try_catch
       (invoke (CallList domain None) (provider_listRecords dnsProvider domain None) ;;;
        ret true)
       (fun error => if not_found error then ret false else throw error))
    (fun error => throw error).

Definition domain_missing (domain provider hint : string) : JsError :=
  DNSProviderError ("Domain " ++ domain ++ " does not exist with " ++ provider ++ ". " ++ hint)
                   404 (Some provider).

Definition createRecord (domain recordType name content provider jwtToken : string)
           (options : CreateOptions) : M State DNSRecordResult :=
  try_catch
    (domainExists <- validateDomain domain provider jwtToken ;;
     if negb domainExists
     then throw (domain_missing domain provider "Please create the domain first.")
     else
       dnsProvider <- lift (getDNSProvider provider jwtToken) ;;
       let record :=
         {| rec_type := recordType;
            rec_name := name;
            rec_data := content;
            rec_ttl := Js.num_or (opt_ttl options) 300;
            rec_priority := opt_priority options |} in
       invoke (CallCreate domain record) (provider_createRecord dnsProvider domain record))
    (fun error => throw error).

Definition updateRecord (domain recordId provider jwtToken : string)
           (updates : PartialRecord) : M State DNSRecordResult :=
  try_catch
    (domainExists <- validateDomain domain provider jwtToken ;;
     if negb domainExists
     then throw (domain_missing domain provider
                   "Cannot update records for non-existent domain.")
     else
       dnsProvider <- lift (getDNSProvider provider jwtToken) ;;
       invoke (CallUpdate domain recordId updates)
              (provider_updateRecord dnsProvider domain recordId updates))
    (fun error => throw error).

Definition deleteRecord (domain recordId provider jwtToken : string) : M State unit :=
  try_catch
    (domainExists <- validateDomain domain provider jwtToken ;;
     if negb domainExists
     then throw (domain_missing domain provider
                   "Cannot delete records for non-existent domain.")
     else
       dnsProvider <- lift (getDNSProvider provider jwtToken) ;;
       invoke (CallDelete domain recordId)
              (provider_deleteRecord dnsProvider domain recordId))
    (fun error => throw error).

Definition listRecords (domain provider jwtToken : string) (recordType : option string)
  : M State (list DNSRecordResult) :=
  try_catch
    (dnsProvider <- lift (getDNSProvider provider jwtToken) ;;
     try_catch
       (invoke (CallList domain recordType)
               (provider_listRecords dnsProvider domain recordType))
       (fun error => if not_found error then ret [] else throw error))
    (fun error => throw error).

End Facade.

Arguments world {W} _.
Arguments calls {W} _.
Arguments after_listing {W} _ _ _ _.

End Service.

(** ** Scenarios: concrete remote services and inputs *)

Module Scenario.
Import Cf.

(** The error the HTTP client raises for an answered non-2xx request. *)
Definition http_error (code : Z) : JsError :=
  {| message := "Request failed with status code " ++ pretty code;
     statusCode := None;
     provider := None;
     response := Some {| status := code; data_errors := []; data_message := None |} |}.

Definition ok {A} (r : A) : HttpResult (Envelope A) :=
  Answer {| success := true; result := r; errors := [] |}.

Definition example_zone : CloudflareZone :=
  {| zone_id := "zone-1"; zone_name := "example.com"; zone_status := "active";
     zone_account := None |}.

Definition example_record : CfRecord :=
  {| cf_id := "rec-1"; cf_type := "A"; cf_name := "www.example.com";
     cf_content := "203.0.113.5"; cf_ttl := 300; cf_priority := None |}.

(** An account that holds no zone: every listing answers with an empty
    result, and the token may not be verified. *)
Definition api_no_zone : Api :=
  {| zone_detail := fun _ _ => Failed (http_error 404);
     zones_by_name := fun _ _ => ok [];
     zones_page := fun _ _ => ok [];
     account_zones := fun _ _ _ => ok [];
     token_verify := fun _ => Failed (http_error 401);
     user := fun _ => Failed (http_error 401);
     post_record := fun _ _ _ => Failed (http_error 404);
     get_records := fun _ _ _ _ => Failed (http_error 404) |}.

(** A token without permissions: every request is answered 403. *)
Definition api_forbidden : Api :=
  {| zone_detail := fun _ _ => Failed (http_error 403);
     zones_by_name := fun _ _ => Failed (http_error 403);
     zones_page := fun _ _ => Failed (http_error 403);
     account_zones := fun _ _ _ => Failed (http_error 403);
     token_verify := fun _ => Failed (http_error 403);
     user := fun _ => Failed (http_error 403);
     post_record := fun _ _ _ => Failed (http_error 403);
     get_records := fun _ _ _ _ => Failed (http_error 403) |}.

(** An account with the zone example.com and one record in it. *)
Definition api_example : Api :=
  {| zone_detail := fun _ _ => ok tt;
     zones_by_name := fun _ name =>
       if String.eqb name "example.com" then ok [example_zone] else ok [];
     zones_page := fun _ _ => ok [example_zone];
     account_zones := fun _ _ _ => ok [];
     token_verify := fun _ => ok tt;
     user := fun _ => ok None;
     post_record := fun _ _ body =>
       ok {| cf_id := "rec-2"; cf_type := body_type body; cf_name := body_name body;
             cf_content := body_content body; cf_ttl := body_ttl body;
             cf_priority := body_priority body |};
     get_records := fun _ _ _ _ => ok [example_record] |}.

Definition no_options : Adaptive.Options :=
  {| Adaptive.opt_accountId := None; Adaptive.opt_zoneId := None;
     Adaptive.opt_debug := None |}.

Definition with_zone (zone : string) : Adaptive.Options :=
  {| Adaptive.opt_accountId := None; Adaptive.opt_zoneId := Some zone;
     Adaptive.opt_debug := None |}.

Definition no_env : Adaptive.Env :=
  {| Adaptive.CLOUDFLARE_ACCOUNT_ID := None; Adaptive.CLOUDFLARE_ZONE_ID := None |}.

(** An instance with an empty cache and no account id. *)
Definition no_zone_state (attempts : nat) (t : Trace) : Adaptive.State :=
  {| Adaptive.zoneCache := ∅; Adaptive.accountId := None;
     Adaptive.discoveryAttempts := attempts; Adaptive.trace := t |}.

(** A DigitalOcean account that stores what it is sent and answers with
    the stored record; nothing is listed for any other request. *)
Definition do_echo : DigitalOcean.Api :=
  {| DigitalOcean.post_record := fun _ _ body =>
       Answer {| DigitalOcean.do_id := 42;
                 DigitalOcean.do_type := DigitalOcean.body_type body;
                 DigitalOcean.do_name := Some (DigitalOcean.body_name body);
                 DigitalOcean.do_data := DigitalOcean.body_data body;
                 DigitalOcean.do_ttl := DigitalOcean.body_ttl body;
                 DigitalOcean.do_priority := DigitalOcean.body_priority body |};
     DigitalOcean.put_record := fun _ _ _ _ => Failed (http_error 404);
     DigitalOcean.delete_record := fun _ _ _ => Failed (http_error 404);
     DigitalOcean.get_records := fun _ _ _ _ => Answer [];
     DigitalOcean.get_domain := fun _ _ => Answer tt |}.

(** A DigitalOcean account that does not hold the domain. *)
Definition do_missing : DigitalOcean.Api :=
  {| DigitalOcean.post_record := fun _ _ _ => Failed (http_error 404);
     DigitalOcean.put_record := fun _ _ _ _ => Failed (http_error 404);
     DigitalOcean.delete_record := fun _ _ _ => Failed (http_error 404);
     DigitalOcean.get_records := fun _ _ _ _ => Failed (http_error 404);
     DigitalOcean.get_domain := fun _ _ => Failed (http_error 404) |}.

(** A resolver seen by two of the three queries; the third times out. *)
Definition doh_two_of_three : Cloudflare.Doh :=
  fun _ _ server =>
    if String.eqb server "208.67.222.222"
    then Failed (Error "timeout of 5000ms exceeded")
    else Answer {| Cloudflare.doh_Status := Some 0;
                   Cloudflare.doh_Answer :=
                     Some [ {| Cloudflare.ans_type := 1;
                               Cloudflare.ans_data := "203.0.113.5" |} ] |}.

Definition www_record : DNSRecord :=
  {| rec_type := "A"; rec_name := "www"; rec_data := "203.0.113.5";
     rec_ttl := 300; rec_priority := None |}.

Definition root_record : DNSRecord :=
  {| rec_type := "A"; rec_name := "@"; rec_data := "203.0.113.5";
     rec_ttl := 300; rec_priority := None |}.

End Scenario.

(** ** Labels *)

(** A label without a dot splits into itself. *)
Definition dotfree_label (l : string) : Prop := Js.split "." l = [l].

(** ** Record updates and deletions at Cloudflare *)

Module CfWrite.
Import Cf.

(** Body of [PATCH /zones/{zoneId}/dns_records/{recordId}]: only the keys
    that were set. *)
Record UpdateBody := {
  patch_name : option string;
  patch_content : option string;
  patch_ttl : option Z;
  patch_priority : option Z
}.

(** The write requests, logged newest first beside the trace. *)
Inductive Write :=
| PatchRecord (zoneId recordId : string) (body : UpdateBody)
| DeleteRecord (zoneId recordId : string).

(** The write endpoints answer from the trace and the writes so far; the
    endpoints of [Cf.Api] keep answering from the trace alone. *)
Record Api := {
  patch_record : Trace -> list Write -> string -> string -> UpdateBody
                 -> HttpResult (Envelope CfRecord);
  delete_record : Trace -> list Write -> string -> string -> HttpResult (Envelope unit)
}.

(** [updateData]: a key is copied when it is not [undefined]. *)
Definition updateData (record : PartialRecord) : UpdateBody :=
  {| patch_name := upd_name record;
     patch_content := upd_data record;
     patch_ttl := upd_ttl record;
     patch_priority := upd_priority record |}.

(** Run a computation on the first component of a paired state. *)
Definition on_fst {S T A} (m : M S A) : M (S * T) A :=
  fun st => let '(c, s') := m (fst st) in (c, (s', snd st)).

End CfWrite.

(** ** [AdaptiveCloudflareProvider], the remaining methods *)

Module AdaptiveOps.
Import Cf CfWrite Adaptive.

(** The instance together with the log of its write requests. *)
Definition World : Type := State * list Write.

(** [setupDeploymentDNS]'s options. *)
Record SetupOptions := {
  includeWWW : option bool;
  includeMail : option bool;
  customSubdomains : option (list string)
}.

Section Instance.
Variable api : Cf.Api.
Variable wapi : CfWrite.Api.
Variable options : Options.
Variable env : Env.

(** One write request through [this.client]. *)
Definition write {A} (w : Write) (endpoint : Trace -> list Write -> HttpResult A)
  : M World A :=
  fun st => (settle (endpoint (trace (fst st)) (snd st)), (fst st, w :: snd st)).

Definition updateRecord (fuel : nat) (domain recordId : string) (record : PartialRecord)
  : M World DNSRecordResult :=
  try_catch
    (zone <- on_fst (discoverZoneId api options env fuel domain) ;;
     let body := updateData record in
     response <- write (PatchRecord zone recordId body)
                       (fun t ws => patch_record wapi t ws zone recordId body) ;;
     if negb (success response)
     then throw (Error (Js.or_default (first_error (errors response))
                                      "Failed to update DNS record"))
     else ret (toResult true (result response)))
    (fun error =>
       throw (DNSProviderError
                ("Failed to update DNS record: " ++ cf_error_text error)
                (status_or_500 error) (Some "cloudflare"))).

Definition deleteRecord (fuel : nat) (domain recordId : string) : M World unit :=
  try_catch
    (zone <- on_fst (discoverZoneId api options env fuel domain) ;;
     response <- write (DeleteRecord zone recordId)
                       (fun t ws => delete_record wapi t ws zone recordId) ;;
     if negb (success response)
     then throw (Error (Js.or_default (first_error (errors response))
                                      "Failed to delete DNS record"))
     else ret tt)
    (fun error =>
       throw (DNSProviderError
                ("Failed to delete DNS record: " ++ cf_error_text error)
                (status_or_500 error) (Some "cloudflare"))).

(** The class as an implementation of the [DNSProvider] interface, for
    given recursion budgets. *)
Definition as_provider (fuel discovery : nat) : DNSProvider World :=
  {| provider_createRecord := fun domain record =>
       on_fst (createRecord api options env fuel discovery domain record);
     provider_updateRecord := updateRecord discovery;
     provider_deleteRecord := deleteRecord discovery;
     provider_listRecords := fun domain type =>
       on_fst (listRecords api options env discovery domain type);
     provider_verifyDomainOwnership := fun domain =>
       on_fst (verifyDomainOwnership api options env discovery domain) |}.

(** The A record [setupDeploymentDNS] creates for [name]. *)
Definition deploymentRecord (name targetIP : string) : DNSRecord :=
  {| rec_type := "A"; rec_name := name; rec_data := targetIP;
     rec_ttl := 300; rec_priority := None |}.

(** One guarded creation of [setupDeploymentDNS]: the record is pushed on
    success, the labelled message on failure. *)
Definition tryCreate (fuel discovery : nat) (domain targetIP name label : string)
           (acc : list DNSRecordResult * list string)
  : M State (list DNSRecordResult * list string) :=
  try_catch
    (created <- createRecord api options env fuel discovery domain
                             (deploymentRecord name targetIP) ;;
     ret ((fst acc ++ [created])%list, snd acc))
    (fun error => ret (fst acc, (snd acc ++ [(label ++ message error)%string])%list)).

(** The [for] loop over [customSubdomains]. *)
Fixpoint tryCreateAll (fuel discovery : nat) (domain targetIP : string)
         (subdomains : list string) (acc : list DNSRecordResult * list string)
  : M State (list DNSRecordResult * list string) :=
  match subdomains with
  | [] => ret acc
  | subdomain :: rest =>
      acc' <- tryCreate fuel discovery domain targetIP subdomain
                        (subdomain ++ " record: ") acc ;;
      tryCreateAll fuel discovery domain targetIP rest acc'
  end.

(** The creations of [setupDeploymentDNS], in order: root, www, custom. *)
Definition deploymentCreations (fuel discovery : nat) (domain targetIP : string)
           (opts : option SetupOptions)
  : M State (list DNSRecordResult * list string) :=
  acc1 <- tryCreate fuel discovery domain targetIP "@" "Root A record: " ([], []) ;;
  acc2 <- (if default false (opts ≫= includeWWW)
           then tryCreate fuel discovery domain targetIP "www" "WWW record: " acc1
           else ret acc1) ;;
  match opts ≫= customSubdomains with
  | Some subdomains => tryCreateAll fuel discovery domain targetIP subdomains acc2
  | None => ret acc2
  end.

Definition deploymentSummary (domain targetIP : string)
           (acc : list DNSRecordResult * list string) : string :=
  "Created " ++ pretty (length (fst acc)) ++ " DNS records for " ++ domain ++
  " pointing to " ++ targetIP ++ "." ++
  (if (0 <? length (snd acc))%nat then " Errors: " ++ Js.join ", " (snd acc)
   else EmptyString).

Definition setupDeploymentDNS (fuel discovery : nat) (domain targetIP : string)
           (opts : option SetupOptions) : M State (list DNSRecordResult * string) :=
  try_catch
    (acc <- deploymentCreations fuel discovery domain targetIP opts ;;
     ret (fst acc, deploymentSummary domain targetIP acc))
    (fun error =>
       throw (DNSProviderError ("Failed to setup deployment DNS: " ++ message error)
                               500 (Some "cloudflare"))).


End Instance.

End AdaptiveOps.

(** ** [CloudflareDNSProvider], the remaining methods *)

Module CloudflareOps.
Import Cf CfWrite Cloudflare.

(** The trace together with the log of write requests. *)
Definition World : Type := Trace * list Write.

Section Instance.
Variable api : Cf.Api.
Variable wapi : CfWrite.Api.

Definition write {A} (w : Write) (endpoint : Trace -> list Write -> HttpResult A)
  : M World A :=
  fun st => (settle (endpoint (fst st) (snd st)), (fst st, w :: snd st)).

(** Body of the create request: the record's own name and ttl, and a
    falsy priority left out. *)
Definition createBody (record : DNSRecord) : CreateBody :=
  {| body_type := rec_type record;
     body_name := rec_name record;
     body_content := rec_data record;
     body_ttl := rec_ttl record;
     body_priority := Js.num_or_undefined (rec_priority record);
     body_proxied := None |}.

Definition createRecord (domain : string) (record : DNSRecord) : M Trace DNSRecordResult :=
  try_catch
    (zone <- getZoneId api domain ;;
     let body := createBody record in
     response <- http (PostRecord zone body) (fun t => post_record api t zone body) ;;
     if negb (success response)
     then throw (Error (Js.or_default (first_error (errors response))
                                      "Unknown Cloudflare API error"))
     else ret (toResult false (result response)))
    (fun error =>
       throw (DNSProviderError
                ("Failed to create DNS record: " ++ cf_error_text error)
                (status_or_500 error) (Some "cloudflare"))).

Definition updateRecord (domain recordId : string) (record : PartialRecord)
  : M World DNSRecordResult :=
  try_catch
    (zone <- on_fst (getZoneId api domain) ;;
     let body := updateData record in
     response <- write (PatchRecord zone recordId body)
                       (fun t ws => patch_record wapi t ws zone recordId body) ;;
     if negb (success response)
     then throw (Error (Js.or_default (first_error (errors response))
                                      "Unknown Cloudflare API error"))
     else ret (toResult false (result response)))
    (fun error =>
       throw (DNSProviderError
                ("Failed to update DNS record: " ++ cf_error_text error)
                (status_or_500 error) (Some "cloudflare"))).

Definition deleteRecord (domain recordId : string) : M World unit :=
  try_catch
    (zone <- on_fst (getZoneId api domain) ;;
     response <- write (DeleteRecord zone recordId)
                       (fun t ws => delete_record wapi t ws zone recordId) ;;
     if negb (success response)
     then throw (Error (Js.or_default (first_error (errors response))
                                      "Unknown Cloudflare API error"))
     else ret tt)
    (fun error =>
       throw (DNSProviderError
                ("Failed to delete DNS record: " ++ cf_error_text error)
                (status_or_500 error) (Some "cloudflare"))).

(** [getZoneInfo]; the zone object it returns is opaque here. *)
Definition getZoneInfo (domain : string) : M Trace unit :=
  try_catch
    (zone <- getZoneId api domain ;;
     response <- http (GetZone zone) (fun t => zone_detail api t zone) ;;
     if negb (success response)
     then throw (Error (Js.or_default (first_error (errors response))
                                      "Unknown Cloudflare API error"))
     else ret (result response))
    (fun error =>
       throw (DNSProviderError ("Failed to get zone info: " ++ message error)
                               (status_or_500 error) (Some "cloudflare"))).

Definition as_provider : DNSProvider World :=
  {| provider_createRecord := fun domain record => on_fst (createRecord domain record);
     provider_updateRecord := updateRecord;
     provider_deleteRecord := deleteRecord;
     provider_listRecords := fun domain type => on_fst (listRecords api domain type);
     provider_verifyDomainOwnership := fun domain =>
       on_fst (verifyDomainOwnership api domain) |}.

End Instance.

End CloudflareOps.

(** ** [DigitalOceanDNSProvider], the remaining methods *)

Module DigitalOceanOps.
Import DigitalOcean.

(** The resolver, asked for [(name, type)]. *)
Definition Doh := string -> string -> HttpResult Cloudflare.DohData.

(** [types[recordType] || 1], the provider's own copy of the table. *)
Definition getRecordTypeNumber (recordType : string) : option Z :=
  if String.eqb recordType "A" then Some 1
  else if String.eqb recordType "AAAA" then Some 28
  else if String.eqb recordType "CNAME" then Some 5
  else if String.eqb recordType "MX" then Some 15
  else if String.eqb recordType "TXT" then Some 16
  else if Js.inherited recordType then None
  else Some 1.

Section Instance.
Variable api : Api.
Variable doh : Doh.

(** [getDomainInfo]; the domain object it returns is opaque here. *)
Definition getDomainInfo (domain : string) : M Trace unit :=
  wrap "Failed to get domain info: "
    (http (GetDomain domain) (fun t => get_domain api t domain)).

(** The answers [checkPropagation] keeps: of the requested type and with
    the expected value. *)
Definition matchingAnswers (recordType expectedValue : string)
           (answers : list Cloudflare.DohAnswer) : list Cloudflare.DohAnswer :=
  List.filter
    (fun a => bool_decide (Some (Cloudflare.ans_type a) = getRecordTypeNumber recordType)
              && String.eqb (Cloudflare.ans_data a) expectedValue)
    answers.

Definition checkPropagation {S} (domain recordType expectedValue : string) : M S bool :=
  try_catch
    (data <- (fun s => (settle (doh domain recordType), s)) ;;
     if bool_decide (Cloudflare.doh_Status data = Some 0)
        && (0 <? length (default [] (Cloudflare.doh_Answer data)))%nat
     then
       let answers := matchingAnswers recordType expectedValue
                        (default [] (Cloudflare.doh_Answer data)) in
       ret (0 <? length answers)%nat
     else ret false)
    (fun _ => ret false).

End Instance.

End DigitalOceanOps.

(** ** [DNSService], the remaining operations *)

Module ServiceOps.
Import Service.

(** [{ success, validationRecords? }] *)
Record SSLResult := {
  ssl_success : bool;
  validationRecords : option (list DNSRecordResult)
}.

(** [{ propagated, details }] *)
Record PropagationResult := {
  propagated : bool;
  details : string
}.

Section Facade.
Variable W : Type.
Variable getDNSProvider : string -> string -> M W (DNSProvider W).

(** The optional [checkPropagation] method of a provider object: present
    on some classes, absent on others ([ 'checkPropagation' in dnsProvider ]). *)
Variable checkPropagationOf :
  DNSProvider W -> option (string -> string -> string -> M W bool).

(** The validation token; [now] is the clock reading and [suffix] the
    random base-36 fragment. *)
Definition validationToken (now : Z) (suffix : string) : string :=
  "controlvector-ssl-" ++ pretty now ++ "-" ++ suffix.

Definition configureSSL (now : Z) (suffix : string)
           (domain provider jwtToken method : string) : M (State W) SSLResult :=
  try_catch
    ((if String.eqb method "dns" then
        domainExists <- validateDomain W getDNSProvider domain provider jwtToken ;;
        if negb domainExists
        then throw (domain_missing domain provider
                      "Please create the domain before configuring SSL.")
        else ret tt
      else ret tt) ;;;
     if negb (String.eqb method "dns")
     then throw (DNSProviderError "Only DNS validation is currently supported" 400 None)
     else
       txtRecord <- createRecord W getDNSProvider domain "TXT" "_acme-challenge"
                      (validationToken now suffix) provider jwtToken
                      {| opt_ttl := Some 60; opt_priority := None |} ;;
       ret {| ssl_success := true; validationRecords := Some [txtRecord] |})
    (fun error => throw error).

Definition verifyPropagation (domain recordType expectedValue provider jwtToken : string)
  : M (State W) PropagationResult :=
  try_catch
    (dnsProvider <- lift W (getDNSProvider provider jwtToken) ;;
     match checkPropagationOf dnsProvider with
     | Some checkPropagation =>
         (** not an interface method, so it is not entered in the call log *)
         result <- lift W (checkPropagation domain recordType expectedValue) ;;
         ret {| propagated := result;
                details := if result : bool
                           then "DNS record has propagated globally"
                           else "DNS record is still propagating - may take 5-10 minutes" |}
     | None =>
         records <- invoke W (CallList domain (Some recordType))
                      (provider_listRecords dnsProvider domain (Some recordType)) ;;
         match find (fun r => String.eqb (res_data r) expectedValue) records with
         | Some _ =>
             ret {| propagated := true;
                    details := "DNS record found in provider - propagation in progress" |}
         | None =>
             ret {| propagated := false;
                    details := "DNS record not found or value mismatch" |}
         end
     end)
    (fun error =>
       ret {| propagated := false;
              details := "Propagation check failed: " ++ message error |}).

End Facade.

End ServiceOps.

(** ** What a zone discovery may touch *)

Module AdaptiveSpec.
Import Cf Adaptive.

(** A step of discovery caches at most the zone it returns, under the root
    domain; it issues at most [budget] requests and clears no cache. *)
Definition strategy_frame (rootDomain : string) (budget : nat) (st : State)
           (r : Completion (option string) * State) : Prop :=
  match fst r with
  | Return (Some zone) =>
      exists how, zoneCache (snd r)
                  = <[rootDomain := {| zoneId := zone; method := how |}]> (zoneCache st)
  | _ => zoneCache (snd r) = zoneCache st
  end /\
  (length (trace (snd r)) <= length (trace st) + budget)%nat /\
  cache_clears (trace (snd r)) = cache_clears (trace st).

(** The same for a whole discovery: the cache is as before, or has gained
    the returned zone under the root domain. *)
Definition discover_frame (domain : string) (st : State)
           (r : Completion string * State) : Prop :=
  match fst r with
  | Return zone =>
      zoneCache (snd r) = zoneCache st \/
      exists how, zoneCache (snd r)
                  = <[extractRootDomain domain := {| zoneId := zone; method := how |}]>
                      (zoneCache st)
  | _ => zoneCache (snd r) = zoneCache st
  end /\
  cache_clears (trace (snd r)) = cache_clears (trace st).

(** No zone is ever listed: every zone listing fails, is refused, or is
    empty. *)
Definition lists_nothing (r : HttpResult (Envelope (list CloudflareZone))) : Prop :=
  match r with
  | Answer response => success response = false \/ result response = []
  | Failed _ => True
  end.

Definition no_zone_listed (api : Api) : Prop :=
  forall t,
    (forall name, lists_nothing (zones_by_name api t name)) /\
    (forall n, lists_nothing (zones_page api t n)) /\
    (forall account name, lists_nothing (account_zones api t account name)).

(** The token verifies, and the first account the service lists has an
    empty id. *)
Definition unnamed_account (api : Api) : Prop :=
  forall t,
    (exists verified, token_verify api t = Answer verified /\ success verified = true) /\
    (exists response account rest,
        user api t = Answer response /\ success response = true /\
        result response = Some (account :: rest) /\
        account_id account = EmptyString).

(** The state from which [createRecord] starts over. *)
Definition restarted (st : State) : State :=
  record_event EvCacheCleared (set_zoneCache ∅ (set_discoveryAttempts 1 st)).

(** What the [catch] of [createRecord] does with an error raised after the
    counter was reset. *)
Definition caught (api : Api) (options : Options) (env : Env)
    (fuel discovery : nat) (domain : string) (record : DNSRecord)
    (error : JsError) (st : State) : Completion DNSRecordResult * State :=
  if Js.includes (message error) "zone"
  then createRecord api options env fuel discovery domain record (restarted st)
  else (Throw (DNSProviderError ("Failed to create DNS record: " ++ cf_error_text error)
                                (status_or_500 error) (Some "cloudflare")), st).

End AdaptiveSpec.

(** ** More concrete remote services *)

Module Cases.
Import Cf.

Definition example_account (id : string) : Account :=
  {| account_id := id; account_name := "Example" |}.

(** The zone is only visible through the account-scoped listing, and the
    account is only known through [GET /user]. *)
Definition api_account_only : Api :=
  {| zone_detail := fun _ _ => Failed (Scenario.http_error 404);
     zones_by_name := fun _ _ => Scenario.ok [];
     zones_page := fun _ _ => Scenario.ok [];
     account_zones := fun _ account name =>
       if String.eqb account "acc-1" && String.eqb name "example.com"
       then Scenario.ok [Scenario.example_zone] else Scenario.ok [];
     token_verify := fun _ => Scenario.ok tt;
     user := fun _ => Scenario.ok (Some [example_account "acc-1"]);
     post_record := fun _ _ _ => Failed (Scenario.http_error 404);
     get_records := fun _ _ _ _ => Scenario.ok [] |}.

(** No zone anywhere, and a first account without an id. *)
Definition api_unnamed_account : Api :=
  {| zone_detail := fun _ _ => Failed (Scenario.http_error 404);
     zones_by_name := fun _ _ => Scenario.ok [];
     zones_page := fun _ _ => Scenario.ok [];
     account_zones := fun _ _ _ => Scenario.ok [];
     token_verify := fun _ => Scenario.ok tt;
     user := fun _ => Scenario.ok (Some [example_account EmptyString]);
     post_record := fun _ _ _ => Failed (Scenario.http_error 404);
     get_records := fun _ _ _ _ => Scenario.ok [] |}.

(** The zone exists, record creation is refused with a validation
    message. *)
Definition api_rejects_record : Api :=
  {| zone_detail := fun _ _ => Scenario.ok tt;
     zones_by_name := fun _ _ => Scenario.ok [Scenario.example_zone];
     zones_page := fun _ _ => Scenario.ok [Scenario.example_zone];
     account_zones := fun _ _ _ => Scenario.ok [];
     token_verify := fun _ => Scenario.ok tt;
     user := fun _ => Scenario.ok None;
     post_record := fun _ _ _ =>
       Failed {| message := "Request failed with status code 400";
                 statusCode := None; provider := None;
                 response := Some {| status := 400;
                                     data_errors := ["Invalid IP address"];
                                     data_message := None |} |};
     get_records := fun _ _ _ _ => Failed (Scenario.http_error 403) |}.

(** Write endpoints that refuse everything. *)
Definition writes_refused : CfWrite.Api :=
  {| CfWrite.patch_record := fun _ _ _ _ _ => Failed (Scenario.http_error 403);
     CfWrite.delete_record := fun _ _ _ _ => Failed (Scenario.http_error 403) |}.

(** A resolver that answers every exchange alike. *)
Definition doh_constant : Cloudflare.Doh :=
  fun _ _ _ =>
    Answer {| Cloudflare.doh_Status := Some 0;
              Cloudflare.doh_Answer :=
                Some [ {| Cloudflare.ans_type := 5;
                          Cloudflare.ans_data := "alias.example.net." |};
                       {| Cloudflare.ans_type := 1;
                          Cloudflare.ans_data := "203.0.113.5" |};
                       {| Cloudflare.ans_type := 1;
                          Cloudflare.ans_data := "203.0.113.6" |} ] |}.

Definition doh_single : DigitalOceanOps.Doh := fun name type => doh_constant name type "".

(** A service whose provider object is already at hand: [getDNSProvider]
    answers every request with [p] and touches nothing. *)
Definition provided {W} (p : DNSProvider W) : string -> string -> M W (DNSProvider W) :=
  fun _ _ => ret p.

(** No optional [checkPropagation] method on the provider object. *)
Definition no_checkPropagation {W}
  : DNSProvider W -> option (string -> string -> string -> M W bool) :=
  fun _ => None.

(** A record whose name already carries the domain. *)
Definition api_record : DNSRecord :=
  {| rec_type := "A"; rec_name := "api.example.com"; rec_data := "203.0.113.5";
     rec_ttl := 300; rec_priority := None |}.

Definition no_updates : PartialRecord :=
  {| upd_name := None; upd_data := None; upd_ttl := None; upd_priority := None |}.

Definition no_create_options : Service.CreateOptions :=
  {| Service.opt_ttl := None; Service.opt_priority := None |}.

End Cases.

(** ** What a DigitalOcean operation leaves behind *)

Module DigitalOceanSpec.
Import DigitalOcean.

(** The operation sent exactly the request [req] and settled as the
    service's [answer] to it decides: an answer is returned through [f]; a
    failure is raised as a DNSProviderError of the DigitalOcean provider
    whose message is [what] followed by the failure's text and whose status
    is the failure's upstream status, or 500 when there is none or it is
    0. *)
Definition one_request {A B} (what : string) (req : Request) (answer : HttpResult A)
           (f : A -> B) (t : Trace) (r : Completion B * Trace) : Prop :=
  r = (match answer with
       | Answer payload => Return (f payload)
       | Failed cause =>
           Throw (DNSProviderError
                    (what ++ Js.or_default (match response cause with
                                            | Some body => data_message body
                                            | None => None
                                            end) (message cause))
                    (match response cause with
                     | Some body => if status body =? 0 then 500 else status body
                     | None => 500
                     end)
                    (Some "digitalocean"))
       end,
       req :: t).

End DigitalOceanSpec.

(** * Properties *)

(** ** Strings *)

Lemma append_assoc (a b c : string) : (a ++ (b ++ c) = (a ++ b) ++ c)%string.
Proof.
  induction a as [|x a IH]; [reflexivity|].
  change (String x (a ++ (b ++ c)) = String x ((a ++ b) ++ c))%string.
  by f_equal.
Qed.

Lemma append_cons (x : ascii) (a b : string) : (String x a ++ b = String x (a ++ b))%string.
Proof. reflexivity. Qed.

Lemma endsWith_refl s : Js.endsWith s s = true.
Proof. destruct s; simpl; [reflexivity|]. by rewrite Ascii.eqb_refl, String.eqb_refl. Qed.

Lemma endsWith_app a b : Js.endsWith (a ++ b) b = true.
Proof.
  induction a as [|c a IH].
  - apply endsWith_refl.
  - rewrite append_cons. simpl. rewrite IH. apply orb_true_r.
Qed.

Lemma includes_prefix a b : Js.includes (a ++ b) a = true.
Proof.
  assert (String.prefix a (a ++ b) = true) as Hp.
  { induction a as [|c a IH]; [by destruct b|].
    rewrite append_cons. simpl. by rewrite IH; destruct (ascii_dec c c). }
  destruct a; [by destruct b|].
  rewrite append_cons in *. simpl in *. by rewrite Hp.
Qed.

Lemma includes_app_r a b sub : Js.includes b sub = true -> Js.includes (a ++ b) sub = true.
Proof.
  intros Hb. induction a as [|c a IH]; [done|].
  rewrite append_cons. simpl. rewrite IH. apply orb_true_r.
Qed.

Lemma slice_last_step {A} (parts : list A) (k : nat) :
  (k < length parts)%nat ->
  exists x, Js.slice_last (S k) parts = x :: Js.slice_last k parts.
Proof.
  intros Hk. unfold Js.slice_last.
  destruct (lookup_lt_is_Some_2 parts (length parts - S k)) as [x Hx]; [lia|].
  exists x. rewrite (drop_S _ _ _ Hx). f_equal. f_equal. lia.
Qed.

(** ** Root-domain extraction (C5) *)

Section RootDomainFacts.
Import RootDomain.

Lemma extract_identity domain :
  (length (labels domain) <= 2)%nat ->
  Adaptive.extractRootDomain domain = domain /\ Cloudflare.extractRootDomain domain = domain.
Proof.
  intros H. unfold Adaptive.extractRootDomain, Cloudflare.extractRootDomain.
  apply Nat.leb_le in H. by rewrite H.
Qed.

Lemma extract_basic_two domain :
  (2 < length (labels domain))%nat ->
  Cloudflare.extractRootDomain domain = Js.join "." (Js.slice_last 2 (labels domain)).
Proof.
  intros H. unfold Cloudflare.extractRootDomain.
  apply Nat.leb_gt in H. by rewrite H.
Qed.

Lemma extract_special domain :
  (2 < length (labels domain))%nat ->
  Js.slice_last 2 (labels domain) ∈ specialSuffixLabels ->
  Adaptive.extractRootDomain domain = Js.join "." (Js.slice_last 3 (labels domain)).
Proof.
  intros Hlen Hin. unfold Adaptive.extractRootDomain.
  pose proof Hlen as Hlt. apply Nat.leb_gt in Hlt. rewrite Hlt.
  destruct (slice_last_step (labels domain) 2 Hlen) as [x Hx].
  rewrite Hx.
  assert (existsb (fun tld => Js.endsWith
            (Js.join "." (x :: Js.slice_last 2 (labels domain))) tld) Adaptive.specialTlds = true)
    as ->; [|done].
  assert (forall a b tld, (a ++ "." ++ b)%string = tld ->
            Js.endsWith (Js.join "." [x; a; b]) tld = true) as Hjoin.
  { intros a b tld <-. cbn [Js.join].
    rewrite (append_assoc x "." (a ++ "." ++ b)). apply endsWith_app. }
  unfold specialSuffixLabels in Hin. unfold Adaptive.specialTlds. cbn [existsb].
  repeat (apply elem_of_cons in Hin as [-> | Hin]);
    [ | | | | by apply elem_of_nil in Hin ].
  - by rewrite (Hjoin "co" "uk" "co.uk" eq_refl).
  - rewrite (Hjoin "com" "au" "com.au" eq_refl). by rewrite !orb_true_r.
  - rewrite (Hjoin "co" "nz" "co.nz" eq_refl). by rewrite !orb_true_r.
  - rewrite (Hjoin "co" "za" "co.za" eq_refl). by rewrite !orb_true_r.
Qed.

Lemma extract_default domain :
  (2 < length (labels domain))%nat ->
  (forall tld, tld ∈ Adaptive.specialTlds ->
     Js.endsWith (Js.join "." (Js.slice_last 3 (labels domain))) tld = false) ->
  Adaptive.extractRootDomain domain = Js.join "." (Js.slice_last 2 (labels domain)).
Proof.
  intros Hlen Hno. unfold Adaptive.extractRootDomain.
  apply Nat.leb_gt in Hlen. rewrite Hlen.
  assert (existsb (fun tld => Js.endsWith
            (Js.join "." (Js.slice_last 3 (labels domain))) tld) Adaptive.specialTlds = false)
    as ->; [|done].
  apply not_true_is_false. intros Hex.
  apply existsb_exists in Hex as (tld & Hin & Hends).
  apply list_elem_of_In in Hin. rewrite (Hno tld Hin) in Hends. done.
Qed.

End RootDomainFacts.

(** C5 (as amended).  Root-domain extraction is the identity on every
    domain with at most two dot-separated labels, in both Cloudflare
    providers.  On longer domains the adaptive provider returns the last
    three labels whenever the last two labels are one of the recognised
    suffixes co.uk, com.au, co.nz, co.za, and the last two labels whenever
    the dot-joined last three labels do not end with one of these suffix
    strings; the basic provider has no suffix table and always returns the
    last two labels. *)
Theorem C5_root_domain_extraction (domain : string) :
  let parts := RootDomain.labels domain in
  ((length parts <= 2)%nat ->
     Adaptive.extractRootDomain domain = domain /\
     Cloudflare.extractRootDomain domain = domain) /\
  ((2 < length parts)%nat ->
     Js.slice_last 2 parts ∈ RootDomain.specialSuffixLabels ->
     Adaptive.extractRootDomain domain = Js.join "." (Js.slice_last 3 parts)) /\
  ((2 < length parts)%nat ->
     (forall tld, tld ∈ Adaptive.specialTlds ->
        Js.endsWith (Js.join "." (Js.slice_last 3 parts)) tld = false) ->
     Adaptive.extractRootDomain domain = Js.join "." (Js.slice_last 2 parts)) /\
  ((2 < length parts)%nat ->
     Cloudflare.extractRootDomain domain = Js.join "." (Js.slice_last 2 parts)).
Proof.
  cbv zeta. split; [apply extract_identity|].
  split; [apply extract_special|].
  split; [apply extract_default | apply extract_basic_two].
Qed.

Lemma C5_root_domain_extraction_witness :
  (Adaptive.extractRootDomain "example.com" = "example.com" /\
   Cloudflare.extractRootDomain "example.com" = "example.com") /\
  Adaptive.extractRootDomain "a.b.co.uk" = "b.co.uk" /\
  Adaptive.extractRootDomain "api.eu.example.com" = "example.com" /\
  Cloudflare.extractRootDomain "api.eu.example.com" = "example.com".
Proof.
  split; [|split; [|split]].
  - apply (C5_root_domain_extraction "example.com"). vm_compute. lia.
  - apply (proj1 (proj2 (C5_root_domain_extraction "a.b.co.uk"))).
    + vm_compute. lia.
    + change (["co"; "uk"] ∈ RootDomain.specialSuffixLabels). apply list_elem_of_here.
  - apply (proj1 (proj2 (proj2 (C5_root_domain_extraction "api.eu.example.com")))).
    + vm_compute. lia.
    + intros tld Hin. unfold Adaptive.specialTlds in Hin.
      repeat (apply elem_of_cons in Hin as [-> | Hin]); try reflexivity.
      by apply elem_of_nil in Hin.
  - apply (proj2 (proj2 (proj2 (C5_root_domain_extraction "api.eu.example.com")))).
    vm_compute. lia.
Defined.

(** C5 as stated fails for the basic Cloudflare provider: under co.uk it
    returns the bare suffix, not the last three labels. *)
Lemma C5_counterexample :
  Cloudflare.extractRootDomain "a.b.co.uk" = "co.uk" /\
  ~ RootDomain.extraction_as_claimed Cloudflare.extractRootDomain.
Proof.
  split; [reflexivity|].
  intros H. destruct (H "a.b.co.uk") as (_ & H3 & _).
  assert (Cloudflare.extractRootDomain "a.b.co.uk" = "b.co.uk") as Habs.
  { apply H3.
    - vm_compute. lia.
    - change (["co"; "uk"] ∈ RootDomain.specialSuffixLabels). apply list_elem_of_here. }
  vm_compute in Habs. discriminate Habs.
Qed.

(** The adaptive provider matches suffixes as strings, not as labels: a
    second-level name that merely ends in "co" is taken for a suffix. *)
Lemma extract_adaptive_string_suffix :
  Adaptive.extractRootDomain "www.shop.tesco.uk" = "shop.tesco.uk" /\
  ~ RootDomain.extraction_as_claimed Adaptive.extractRootDomain.
Proof.
  split; [reflexivity|].
  intros H. destruct (H "www.shop.tesco.uk") as (_ & _ & H2).
  assert (Adaptive.extractRootDomain "www.shop.tesco.uk" = "tesco.uk") as Habs.
  { apply H2.
    - vm_compute. lia.
    - change (["tesco"; "uk"] ∉ RootDomain.specialSuffixLabels).
      unfold RootDomain.specialSuffixLabels. intros Hin.
      repeat (apply elem_of_cons in Hin as [Hin | Hin]); try discriminate Hin.
      by apply elem_of_nil in Hin. }
  vm_compute in Habs. discriminate Habs.
Qed.

(** ** Propagation quorum (C3) *)

Section Propagation.
Import Cloudflare.
Variable api : Cf.Api.
Variable doh : Doh.

Lemma checkPropagation_count {S} domain recordType expected (s : S) :
  checkPropagation doh domain recordType expected s
  = (Return (2 <=? matching_queries doh domain recordType expected)%nat, s).
Proof.
  unfold checkPropagation, matching_queries, try_catch, ret, fulfilled_values, dnsServers.
  cbn [map List.filter omap list_omap].
  destruct (queryDNSServer doh domain recordType "8.8.8.8") as [v1| |];
    destruct (queryDNSServer doh domain recordType "1.1.1.1") as [v2| |];
    destruct (queryDNSServer doh domain recordType "208.67.222.222") as [v3| |];
    cbn [filter list_filter];
    repeat case_decide; repeat case_bool_decide; try done.
Qed.

End Propagation.

(** C3.  A propagation check over the three fixed resolvers always returns
    (it never raises), and it returns true exactly when at least two of the
    three queries were fulfilled with the expected value.  A rejected query
    counts on neither side: two matches and one failure give true, a single
    match gives false. *)
Theorem C3_propagation_quorum (doh : Cloudflare.Doh) (S : Type)
    (domain recordType expected : string) (s : S) :
  exists propagated : bool,
    Cloudflare.checkPropagation doh domain recordType expected s = (Return propagated, s) /\
    (propagated = true <->
       (2 <= Cloudflare.matching_queries doh domain recordType expected)%nat) /\
    (forall e,
       Cloudflare.queryDNSServer doh domain recordType "8.8.8.8" = Return expected ->
       Cloudflare.queryDNSServer doh domain recordType "1.1.1.1" = Return expected ->
       Cloudflare.queryDNSServer doh domain recordType "208.67.222.222" = Throw e ->
       propagated = true) /\
    (Cloudflare.matching_queries doh domain recordType expected = 1%nat ->
       propagated = false).
Proof.
  eexists. split; [apply checkPropagation_count|].
  split; [|split].
  - rewrite Nat.leb_le. done.
  - intros e H1 H2 H3. unfold Cloudflare.matching_queries, Cloudflare.dnsServers.
    cbn [List.filter]. rewrite H1, H2, H3.
    rewrite bool_decide_eq_true_2 by done. reflexivity.
  - intros ->. reflexivity.
Qed.

(** ** The façade's existence check (C2, C4) *)

Section FacadeFacts.
Import Service.
Variable W : Type.
Variable getDNSProvider : string -> string -> M W (DNSProvider W).


Lemma validateDomain_listing_fails domain provider jwt st p w1 e w2 :
  getDNSProvider provider jwt (world st) = (Return p, w1) ->
  provider_listRecords p domain None w1 = (Throw e, w2) ->
  validateDomain W getDNSProvider domain provider jwt st
  = (if not_found e then Return false else Throw e, after_listing st domain None w2).
Proof.
  intros Hp Hl.
  unfold validateDomain, try_catch, bind, lift, invoke, after_listing. simpl.
  rewrite Hp. simpl. unfold lift. simpl. rewrite Hl. simpl.
  destruct (not_found e); reflexivity.
Qed.

Lemma validateDomain_listing_succeeds domain provider jwt st p w1 records w2 :
  getDNSProvider provider jwt (world st) = (Return p, w1) ->
  provider_listRecords p domain None w1 = (Return records, w2) ->
  validateDomain W getDNSProvider domain provider jwt st = (Return true, after_listing st domain None w2).
Proof.
  intros Hp Hl.
  unfold validateDomain, try_catch, bind, lift, invoke, after_listing. simpl.
  rewrite Hp. simpl. unfold lift. simpl. rewrite Hl. reflexivity.
Qed.

Lemma validateDomain_provider_fails domain provider jwt st e w1 :
  getDNSProvider provider jwt (world st) = (Throw e, w1) ->
  validateDomain W getDNSProvider domain provider jwt st = (Throw e, {| world := w1; calls := calls st |}).
Proof.
  intros Hp.
  unfold validateDomain, try_catch, bind, lift. rewrite Hp. reflexivity.
Qed.

(** A mutation guarded by the existence check, as the three mutating
    operations are written. *)
Lemma guarded_missing {A} domain provider jwt st hint (k : M (State W) A) st' :
  validateDomain W getDNSProvider domain provider jwt st = (Return false, st') ->
  try_catch
    (domainExists <- validateDomain W getDNSProvider domain provider jwt ;;
     if negb domainExists then throw (domain_missing domain provider hint) else k)%js
    (fun error => throw error) st
  = (Throw (domain_missing domain provider hint), st').
Proof. intros Hv. unfold try_catch, bind. rewrite Hv. reflexivity. Qed.

Lemma guarded_error {A} domain provider jwt st hint (k : M (State W) A) e st' :
  validateDomain W getDNSProvider domain provider jwt st = (Throw e, st') ->
  try_catch
    (domainExists <- validateDomain W getDNSProvider domain provider jwt ;;
     if negb domainExists then throw (domain_missing domain provider hint) else k)%js
    (fun error => throw error) st
  = (Throw e, st').
Proof. intros Hv. unfold try_catch, bind. rewrite Hv. reflexivity. Qed.

Lemma mutating_after_listing (st : State W) domain type w :
  List.filter mutating (calls (after_listing st domain type w))
  = List.filter mutating (calls st).
Proof. reflexivity. Qed.

(** When the check passes, the mutation is the next provider call. *)
Lemma createRecord_after_validation
      domain recordType name content provider jwt options st p w1 records w2 p' w3 :
  getDNSProvider provider jwt (world st) = (Return p, w1) ->
  provider_listRecords p domain None w1 = (Return records, w2) ->
  getDNSProvider provider jwt w2 = (Return p', w3) ->
  let record := {| rec_type := recordType; rec_name := name; rec_data := content;
                   rec_ttl := Js.num_or (opt_ttl options) 300;
                   rec_priority := opt_priority options |} in
  exists c w4,
    provider_createRecord p' domain record w3 = (c, w4) /\
    createRecord W getDNSProvider domain recordType name content provider jwt options st
    = (c, {| world := w4;
             calls := CallCreate domain record :: CallList domain None :: calls st |}).
Proof.
  intros Hp Hl Hp' record.
  destruct (provider_createRecord p' domain record w3) as [c w4] eqn:Hc.
  exists c, w4. split; [reflexivity|].
  unfold createRecord. unfold try_catch at 1. unfold bind at 1.
  rewrite (validateDomain_listing_succeeds _ _ _ _ _ _ _ _ Hp Hl).
  cbn [negb]. unfold bind, lift, invoke, after_listing. simpl.
  rewrite Hp'. simpl. unfold lift. simpl. fold record. rewrite Hc.
  destruct c; reflexivity.
Qed.

End FacadeFacts.

(** C2.  With a provider at hand whose record listing fails, each of the
    façade's createRecord, updateRecord and deleteRecord ends after that one
    listing call, having issued no mutating provider call.  When the
    listing error is of the not-found class (status 404, or a message
    containing "not found" or "does not exist") the operation fails with the
    façade's own 404 error for the missing domain; any other listing error
    is raised unchanged. *)
Theorem C2_mutations_need_existing_domain
    (W : Type) (getDNSProvider : string -> string -> M W (DNSProvider W))
    (domain provider jwt : string) (st : Service.State W)
    (p : DNSProvider W) (w1 w2 : W) (e : JsError)
    (recordType name content recordId : string)
    (options : Service.CreateOptions) (updates : PartialRecord) :
  getDNSProvider provider jwt (Service.world st) = (Return p, w1) ->
  provider_listRecords p domain None w1 = (Throw e, w2) ->
  let st' := Service.after_listing st domain None w2 in
  List.filter Service.mutating (Service.calls st')
  = List.filter Service.mutating (Service.calls st) /\
  (Service.not_found e = true ->
     exists e1 e2 e3,
       statusCode e1 = Some 404 /\ statusCode e2 = Some 404 /\ statusCode e3 = Some 404 /\
       Service.createRecord W getDNSProvider domain recordType name content provider jwt options st
       = (Throw e1, st') /\
       Service.updateRecord W getDNSProvider domain recordId provider jwt updates st
       = (Throw e2, st') /\
       Service.deleteRecord W getDNSProvider domain recordId provider jwt st
       = (Throw e3, st')) /\
  (Service.not_found e = false ->
     Service.createRecord W getDNSProvider domain recordType name content provider jwt options st
     = (Throw e, st') /\
     Service.updateRecord W getDNSProvider domain recordId provider jwt updates st
     = (Throw e, st') /\
     Service.deleteRecord W getDNSProvider domain recordId provider jwt st
     = (Throw e, st')).
Proof.
  intros Hp Hl st'.
  pose proof (validateDomain_listing_fails W getDNSProvider _ _ _ _ _ _ _ _ Hp Hl) as Hv.
  split; [apply mutating_after_listing|]. split; intros Hnf; rewrite Hnf in Hv.
  - eexists _, _, _. split; [|split; [|split; [|split; [|split]]]].
    4: { unfold Service.createRecord. apply (guarded_missing W getDNSProvider). exact Hv. }
    4: { unfold Service.updateRecord. apply (guarded_missing W getDNSProvider). exact Hv. }
    4: { unfold Service.deleteRecord. apply (guarded_missing W getDNSProvider). exact Hv. }
    all: reflexivity.
  - split; [|split].
    + unfold Service.createRecord. apply (guarded_error W getDNSProvider). exact Hv.
    + unfold Service.updateRecord. apply (guarded_error W getDNSProvider). exact Hv.
    + unfold Service.deleteRecord. apply (guarded_error W getDNSProvider). exact Hv.
Qed.

(** C4.  The façade's listRecords goes straight to the provider's listing,
    with the caller's type filter and no existence check before it.  A
    listing failure of the not-found class (status 404, or a message
    containing "not found" or "does not exist") becomes the empty list; any
    other listing error is raised unchanged. *)
Theorem C4_listRecords_missing_domain
    (W : Type) (getDNSProvider : string -> string -> M W (DNSProvider W))
    (domain provider jwt : string) (recordType : option string) (st : Service.State W)
    (p : DNSProvider W) (w1 w2 : W) (e : JsError) :
  getDNSProvider provider jwt (Service.world st) = (Return p, w1) ->
  provider_listRecords p domain recordType w1 = (Throw e, w2) ->
  let st' := Service.after_listing st domain recordType w2 in
  (Service.not_found e = true ->
     Service.listRecords W getDNSProvider domain provider jwt recordType st = (Return [], st')) /\
  (Service.not_found e = false ->
     Service.listRecords W getDNSProvider domain provider jwt recordType st = (Throw e, st')).
Proof.
  intros Hp Hl st'.
  assert (Service.listRecords W getDNSProvider domain provider jwt recordType st
          = (if Service.not_found e then Return [] else Throw e, st')) as Heq.
  { unfold Service.listRecords, try_catch, bind, Service.lift, Service.invoke. simpl.
    rewrite Hp. simpl. unfold Service.lift. simpl. rewrite Hl. simpl.
    destruct (Service.not_found e); reflexivity. }
  split; intros Hnf; rewrite Hnf in Heq; exact Heq.
Qed.

(** ** Zone discovery in the adaptive provider (C7, C8) *)

Section AdaptiveFacts.
Import Cf Adaptive.
Variable api : Api.
Variable options : Options.
Variable env : Env.

Lemma zoneCache_get_insert c root zone how :
  zoneCache_get (<[root := {| zoneId := zone; method := how |}]> c) root = Some zone.
Proof. unfold zoneCache_get. by rewrite lookup_insert_eq. Qed.

Lemma strategy1_post rootDomain st :
  strategy_post rootDomain st (strategy1 api options env rootDomain st).
Proof.
  unfold strategy1, strategy_post.
  destruct (Js.truthy _); [|by simpl].
  unfold try_catch, bind, http, cacheZoneId, modify, ret.
  destruct (zone_detail api (trace st) _) as [response|error]; simpl.
  - destruct (success response); simpl; [|done].
    split; [done|]. apply zoneCache_get_insert.
  - case_bool_decide; simpl; [done|].
    split; [done|]. apply zoneCache_get_insert.
Qed.

Lemma strategy2_post rootDomain st :
  strategy_post rootDomain st (strategy2 api rootDomain st).
Proof.
  unfold strategy2, strategy_post.
  unfold try_catch, bind, http, cacheZoneId, modify, ret.
  destruct (zones_by_name api (trace st) _) as [response|error]; simpl; [|done].
  destruct (success response); simpl; [|done].
  destruct (result response) as [|zone zones]; simpl; [done|].
  split; [done|]. apply zoneCache_get_insert.
Qed.

Lemma strategy3_post domain rootDomain st :
  strategy_post rootDomain st (strategy3 api domain rootDomain st).
Proof.
  unfold strategy3, strategy_post.
  unfold try_catch, bind, http, cacheZoneId, modify, ret, get.
  destruct (zones_page api (trace st) _) as [response|error]; simpl; [|done].
  destruct (success response); simpl; [|done].
  destruct (find _ (result response)) as [zone|]; simpl.
  - destruct (_ && _); simpl; (split; [done|]); apply zoneCache_get_insert.
  - destruct (negb _); simpl; [|done].
    destruct (find _ (result response)) as [zone|]; simpl; [|done].
    destruct (_ && _); simpl; (split; [done|]); apply zoneCache_get_insert.
Qed.

Lemma strategy4_post rootDomain st :
  strategy_post rootDomain st (strategy4 api rootDomain st).
Proof.
  unfold strategy4, strategy_post.
  unfold try_catch, bind, http, cacheZoneId, modify, ret, get.
  destruct (Js.truthy (accountId st)); simpl; [|done].
  destruct (account_zones api (trace st) _ _) as [response|error]; simpl; [|done].
  destruct (success response); simpl; [|done].
  destruct (result response) as [|zone zones]; simpl; [done|].
  split; [done|]. apply zoneCache_get_insert.
Qed.

(** Strategy 5 settles with a verdict and leaves the retry counter alone. *)
Lemma strategy5_post st :
  exists retry st', strategy5 api st = (Return retry, st') /\
                    discoveryAttempts st' = discoveryAttempts st.
Proof.
  unfold strategy5.
  unfold try_catch, bind, http, modify, ret, get.
  destruct (negb _); simpl; [|by eauto].
  destruct (token_verify api (trace st)) as [verify|error]; simpl; [|by eauto].
  destruct (success verify); simpl; [|by eauto].
  destruct (user api _) as [userResponse|error]; simpl; [|by eauto].
  destruct (success userResponse); simpl; [|by eauto].
  destruct (result userResponse) as [[|account accounts]|]; simpl; by eauto.
Qed.

Lemma later_strategies_post again domain st :
  (forall st1, discover_post domain st1 (again st1)) ->
  discover_post domain st
    (later_strategies api again domain (Adaptive.extractRootDomain domain) st).
Proof.
  intros Hagain. unfold later_strategies, discover_post.
  set (root := Adaptive.extractRootDomain domain).
  unfold bind, get, throw, ret.
  pose proof (strategy2_post root st) as [H2a H2].
  destruct (strategy2 api root st) as [[[zone|]| |] st2]; simpl in *;
    try done; try (split; [congruence|done]).
  pose proof (strategy3_post domain root st2) as [H3a H3].
  destruct (strategy3 api domain root st2) as [[[zone|]| |] st3]; simpl in *;
    try done; try (split; [congruence|done]).
  pose proof (strategy4_post root st3) as [H4a H4].
  destruct (strategy4 api root st3) as [[[zone|]| |] st4]; simpl in *;
    try done; try (split; [congruence|done]).
  destruct (strategy5_post st4) as (retry & st5 & -> & H5a).
  destruct retry; simpl.
  - destruct (Hagain st5) as [Ha Hr]. fold root in Hr.
    destruct (again st5) as [[zone|e|] st6]; simpl in *.
    + split; [congruence|done].
    + split; [congruence|]. rewrite Hr. f_equal. congruence.
    + split; [congruence|done].
  - split; [congruence|]. f_equal. congruence.
Qed.

Lemma discoverZoneId_post fuel domain st :
  discover_post domain st (discoverZoneId api options env fuel domain st).
Proof.
  revert st. induction fuel as [|fuel IH]; intros st; [by split|].
  cbn [discoverZoneId]. unfold discover_post.
  set (root := Adaptive.extractRootDomain domain).
  unfold bind, get, ret.
  destruct (zoneCache_get (zoneCache st) root) as [zone|] eqn:Hhit; [by split|].
  pose proof (strategy1_post root st) as [H1a H1].
  destruct (strategy1 api options env root st) as [[[zone|]| |] st1]; simpl in *;
    try done.
  pose proof (later_strategies_post (discoverZoneId api options env fuel domain)
                domain st1 IH) as [Ha Hr].
  fold root in Ha, Hr |- *.
  destruct (later_strategies _ _ _ _ st1) as [[zone|e|] st2]; simpl in *.
  - split; [congruence|done].
  - split; [congruence|]. rewrite Hr. f_equal. congruence.
  - split; [congruence|done].
Qed.

(** *** Discovery settles *)

Lemma strategy1_account rootDomain st :
  accountId (snd (strategy1 api options env rootDomain st)) = accountId st.
Proof.
  unfold strategy1.
  destruct (Js.truthy _); [|done].
  unfold try_catch, bind, http, cacheZoneId, modify, ret.
  destruct (zone_detail api (trace st) _) as [response|error]; simpl.
  - by destruct (success response).
  - by case_bool_decide.
Qed.

Lemma strategy2_account rootDomain st :
  accountId (snd (strategy2 api rootDomain st)) = accountId st.
Proof.
  unfold strategy2, try_catch, bind, http, cacheZoneId, modify, ret.
  destruct (zones_by_name api (trace st) _) as [response|error]; simpl; [|done].
  destruct (success response); simpl; [|done].
  by destruct (result response).
Qed.

Lemma strategy3_account domain rootDomain st :
  Js.truthy (accountId st) = true ->
  accountId (snd (strategy3 api domain rootDomain st)) = accountId st.
Proof.
  intros Hknown.
  unfold strategy3, try_catch, bind, http, cacheZoneId, modify, ret, get.
  destruct (zones_page api (trace st) _) as [response|error]; simpl; [|done].
  destruct (success response); simpl; [|done].
  destruct (find _ (result response)) as [zone|]; simpl.
  - rewrite Hknown, andb_false_r. done.
  - destruct (negb _); simpl; [|done].
    destruct (find _ (result response)) as [zone|]; simpl; [|done].
    rewrite Hknown, andb_false_r. done.
Qed.

Lemma strategy4_account rootDomain st :
  accountId (snd (strategy4 api rootDomain st)) = accountId st.
Proof.
  unfold strategy4, try_catch, bind, http, cacheZoneId, modify, ret, get.
  destruct (Js.truthy (accountId st)); simpl; [|done].
  destruct (account_zones api (trace st) _ _) as [response|error]; simpl; [|done].
  destruct (success response); simpl; [|done].
  by destruct (result response).
Qed.

(** With an account id at hand strategy 5 does nothing. *)
Lemma strategy5_known st :
  Js.truthy (accountId st) = true -> strategy5 api st = (Return false, st).
Proof. intros Hknown. unfold strategy5, bind, get. by rewrite Hknown. Qed.

(** When strategy 5 asks for the retry, it has stored an account id. *)
Lemma strategy5_discovers st st' :
  accounts_named api ->
  strategy5 api st = (Return true, st') ->
  Js.truthy (accountId st') = true.
Proof.
  intros Hnamed. unfold strategy5, try_catch, bind, http, modify, ret, get.
  destruct (negb _); simpl; [|done].
  destruct (token_verify api (trace st)) as [verify|error]; simpl; [|done].
  destruct (success verify); simpl; [|done].
  destruct (user api _) as [userResponse|error] eqn:Huser; simpl; [|done].
  destruct (success userResponse); simpl; [|done].
  destruct (result userResponse) as [[|account accounts]|] eqn:Haccounts; simpl;
    [done| |done].
  intros [= <-]. simpl. apply negb_true_iff, String.eqb_neq.
  by apply (Hnamed _ _ _ _ Huser Haccounts).
Qed.

Lemma later_strategies_settle again domain rootDomain st :
  Js.truthy (accountId st) = true \/
  (accounts_named api /\
   forall st1, Js.truthy (accountId st1) = true -> fst (again st1) <> OutOfFuel) ->
  fst (later_strategies api again domain rootDomain st) <> OutOfFuel.
Proof.
  intros Hcase. unfold later_strategies, bind, get, throw, ret.
  pose proof (strategy2_post rootDomain st) as [_ H2].
  pose proof (strategy2_account rootDomain st) as A2.
  destruct (strategy2 api rootDomain st) as [[[zone|]| |] st2]; simpl in *; try done.
  pose proof (strategy3_post domain rootDomain st2) as [_ H3].
  pose proof (strategy3_account domain rootDomain st2) as A3.
  destruct (strategy3 api domain rootDomain st2) as [[[zone|]| |] st3]; simpl in *;
    try done.
  pose proof (strategy4_post rootDomain st3) as [_ H4].
  pose proof (strategy4_account rootDomain st3) as A4.
  destruct (strategy4 api rootDomain st3) as [[[zone|]| |] st4]; simpl in *; try done.
  destruct Hcase as [Hknown | [Hnamed Hagain]].
  - rewrite strategy5_known; [done|]. rewrite A4, A3, A2; [done|]. by rewrite A2.
  - destruct (strategy5_post st4) as (retry & st5 & Hrun & _). rewrite Hrun.
    destruct retry; simpl; [|done].
    apply Hagain. by apply (strategy5_discovers st4).
Qed.

(** One level of discovery is enough once an account id is known, two
    levels are enough when the service names its accounts. *)
Lemma discoverZoneId_settles_known fuel domain st :
  Js.truthy (accountId st) = true ->
  fst (discoverZoneId api options env (S fuel) domain st) <> OutOfFuel.
Proof.
  intros Hknown. cbn [discoverZoneId]. unfold bind, get, ret.
  destruct (zoneCache_get _ _); [done|].
  pose proof (strategy1_post (extractRootDomain domain) st) as [_ H1].
  pose proof (strategy1_account (extractRootDomain domain) st) as A1.
  destruct (strategy1 api options env _ st) as [[[zone|]| |] st1]; simpl in *; try done.
  apply later_strategies_settle. left. by rewrite A1.
Qed.

Lemma discoverZoneId_settles fuel domain st :
  accounts_named api ->
  fst (discoverZoneId api options env (S (S fuel)) domain st) <> OutOfFuel.
Proof.
  intros Hnamed. cbn [discoverZoneId]. unfold bind at 1, get, ret.
  destruct (zoneCache_get _ _); [done|].
  unfold bind at 1.
  pose proof (strategy1_post (extractRootDomain domain) st) as [_ H1].
  destruct (strategy1 api options env _ st) as [[[zone|]| |] st1]; simpl in *; try done.
  apply later_strategies_settle. right. split; [done|].
  intros st2 Hknown. by apply discoverZoneId_settles_known.
Qed.

(** A cache hit answers at once and touches nothing. *)
Lemma discoverZoneId_hit fuel domain st zone :
  zoneCache_get (zoneCache st) (Adaptive.extractRootDomain domain) = Some zone ->
  discoverZoneId api options env (S fuel) domain st = (Return zone, st).
Proof.
  intros Hhit. cbn [discoverZoneId]. unfold bind, get. by rewrite Hhit.
Qed.

End AdaptiveFacts.

(** C8.  Once a zone discovery has returned a zone id, a further discovery
    for any domain with the same root domain returns that id from the cache
    and leaves the provider as it was: its trace gains no request.  The
    two resolutions together issue exactly the requests of the first. *)
Theorem C8_zone_resolution_cached
    (api : Cf.Api) (options : Adaptive.Options) (env : Adaptive.Env)
    (fuel fuel' : nat) (domain domain' zone : string) (st st' : Adaptive.State) :
  Adaptive.discoverZoneId api options env fuel domain st = (Return zone, st') ->
  Adaptive.extractRootDomain domain' = Adaptive.extractRootDomain domain ->
  Adaptive.discoverZoneId api options env (S fuel') domain' st' = (Return zone, st') /\
  Adaptive.trace (snd (Adaptive.discoverZoneId api options env (S fuel') domain' st'))
  = Adaptive.trace st'.
Proof.
  intros Hfirst Hroot.
  pose proof (discoverZoneId_post api options env fuel domain st) as [_ Hcached].
  rewrite Hfirst in Hcached. simpl in Hcached.
  rewrite <- Hroot in Hcached.
  rewrite (discoverZoneId_hit api options env fuel' domain' st' zone Hcached).
  by split.
Qed.

(** C7.  On a cache miss with a zone id supplied by the options or the
    environment, the resolver asks for the zone's detail.  If that request
    fails with status 404 the resolver goes on to the next strategies with
    nothing cached for the root domain; if it fails in any other way (401,
    403, no answer at all) the supplied id is cached for the root domain as
    unverified and returned. *)
Theorem C7_presupplied_zone_id
    (api : Cf.Api) (options : Adaptive.Options) (env : Adaptive.Env)
    (fuel : nat) (domain zone : string) (st : Adaptive.State) (e : JsError) :
  let root := Adaptive.extractRootDomain domain in
  let asked := Adaptive.record_event (Cf.EvRequest (Cf.GetZone zone)) st in
  Adaptive.zoneCache_get (Adaptive.zoneCache st) root = None ->
  Js.or_else (Adaptive.opt_zoneId options) (Adaptive.CLOUDFLARE_ZONE_ID env) = Some zone ->
  zone <> EmptyString ->
  Cf.zone_detail api (Adaptive.trace st) zone = Failed e ->
  (response_status e = Some 404 ->
     Adaptive.zoneCache_get (Adaptive.zoneCache asked) root = None /\
     Adaptive.discoverZoneId api options env (S fuel) domain st
     = Adaptive.later_strategies api (Adaptive.discoverZoneId api options env fuel domain)
         domain root asked) /\
  (response_status e <> Some 404 ->
     Adaptive.discoverZoneId api options env (S fuel) domain st
     = (Return zone,
        Adaptive.set_zoneCache
          (<[root := {| Adaptive.zoneId := zone; Adaptive.method := "provided_unverified" |}]>
             (Adaptive.zoneCache st))
          asked)).
Proof.
  intros root asked Hmiss Hzone Hne Hdetail.
  assert (Js.truthy (Some zone) = true) as Htruthy.
  { simpl. apply negb_true_iff. by apply String.eqb_neq. }
  assert (Adaptive.discoverZoneId api options env (S fuel) domain st
          = if bool_decide (response_status e = Some 404)
            then Adaptive.later_strategies api
                   (Adaptive.discoverZoneId api options env fuel domain) domain root asked
            else (Return zone,
                  Adaptive.set_zoneCache
                    (<[root := {| Adaptive.zoneId := zone;
                                  Adaptive.method := "provided_unverified" |}]>
                       (Adaptive.zoneCache st))
                    asked)) as Heq.
  { cbn [Adaptive.discoverZoneId]. fold root.
    unfold bind, get. rewrite Hmiss.
    unfold Adaptive.strategy1. rewrite Hzone, Htruthy. simpl default.
    unfold try_catch, bind, Adaptive.http. rewrite Hdetail. cbn [settle].
    case_bool_decide; reflexivity. }
  split; intros Hstatus.
  - rewrite bool_decide_eq_true_2 in Heq by done. split; [exact Hmiss|exact Heq].
  - rewrite bool_decide_eq_false_2 in Heq by done. exact Heq.
Qed.

(** ** The retry of the adaptive createRecord (C1) *)

Lemma prefix_app_l p a b :
  String.prefix p a = true -> String.prefix p (a ++ b)%string = true.
Proof.
  revert a. induction p as [|c p IH]; intros a Hp;
    [by destruct (a ++ b)%string|].
  destruct a as [|c' a]; [done|].
  rewrite append_cons. simpl in *.
  destruct (ascii_dec c c'); [by apply IH | done].
Qed.

Lemma includes_app_l a b sub :
  Js.includes a sub = true -> Js.includes (a ++ b)%string sub = true.
Proof.
  induction a as [|c a IH]; intros Ha.
  - simpl in Ha. rewrite orb_false_r in Ha.
    destruct sub; [|done]. change (Js.includes b "" = true). by destruct b.
  - rewrite append_cons. cbn [Js.includes] in *.
    apply orb_true_iff in Ha as [Ha | Ha].
    + pose proof (prefix_app_l sub (String c a) b Ha) as Hp.
      rewrite append_cons in Hp. by rewrite Hp.
    + rewrite (IH Ha). apply orb_true_r.
Qed.

Section RetryFacts.
Import Cf Adaptive.
Variable api : Api.
Variable options : Options.
Variable env : Env.

Lemma zone_not_found_mentions_zone rootDomain attempts :
  Js.includes (message (zone_not_found rootDomain attempts)) "zone" = true.
Proof.
  unfold zone_not_found, DNSProviderError. cbn [message].
  by apply includes_app_l.
Qed.

(** The guard [discoveryAttempts < 2] cannot stop a retry after a failed
    discovery: the call resets the counter before it discovers, and the
    discovery leaves the counter alone. *)
Lemma createRecord_retries_after_failed_discovery fuel discovery domain record st e st1 :
  discoverZoneId api options env discovery domain (set_discoveryAttempts 0 st)
  = (Throw e, st1) ->
  createRecord api options env (S fuel) discovery domain record st
  = createRecord api options env fuel discovery domain record
      (record_event EvCacheCleared (set_zoneCache ∅ (set_discoveryAttempts 1 st1))).
Proof.
  intros Hthrow.
  pose proof (discoverZoneId_post api options env discovery domain
                (set_discoveryAttempts 0 st)) as [Hattempts Herror].
  rewrite Hthrow in Hattempts, Herror. simpl in Hattempts, Herror.
  cbn [createRecord]. unfold try_catch at 1. unfold bind at 1 2, modify at 1.
  rewrite Hthrow. unfold bind at 1, get. rewrite Hattempts, Herror.
  rewrite zone_not_found_mentions_zone. cbn [andb Nat.ltb Nat.leb].
  unfold bind, modify. simpl. rewrite Hattempts. reflexivity.
Qed.

Lemma createRecord_out_of_fuel discovery domain record st :
  createRecord api options env 0 discovery domain record st = (OutOfFuel, st).
Proof. reflexivity. Qed.

End RetryFacts.

Section NoZone.
Import Cf Adaptive Scenario.

(** In an account without zones every discovery fails, after three
    requests, and caches nothing. *)
Lemma discover_no_zone discovery attempts t :
  discoverZoneId api_no_zone no_options no_env (S discovery) "example.com"
    (no_zone_state attempts t)
  = (Throw (zone_not_found "example.com" attempts),
     no_zone_state attempts
       (EvRequest GetTokenVerify :: EvRequest (GetZonesPage 100)
        :: EvRequest (GetZonesByName "example.com") :: t)).
Proof. reflexivity. Qed.

Lemma createRecord_no_zone fuel discovery record attempts t :
  exists t',
    createRecord api_no_zone no_options no_env fuel (S discovery) "example.com" record
      (no_zone_state attempts t)
    = (OutOfFuel, no_zone_state (if fuel is O then attempts else 1%nat) t') /\
    cache_clears t' = (fuel + cache_clears t)%nat.
Proof.
  revert attempts t. induction fuel as [|fuel IH]; intros attempts t.
  - exists t. by split.
  - erewrite createRecord_retries_after_failed_discovery
      by apply (discover_no_zone discovery 0 t).
    destruct (IH 1%nat (EvCacheCleared :: EvRequest GetTokenVerify
                        :: EvRequest (GetZonesPage 100)
                        :: EvRequest (GetZonesByName "example.com") :: t))
      as (t' & Hrun & Hclears).
    exists t'. split.
    + etrans; [exact Hrun|]. by destruct fuel.
    + rewrite Hclears. unfold cache_clears. simpl. lia.
Qed.

End NoZone.

(** C1 (what the code does instead).  For a domain whose zone cannot be
    found, the adaptive createRecord never settles: whatever retry budget
    it is given, it uses all of it, clearing the cache and starting over
    once per unit of budget, so the number of cache-clear-and-retry rounds
    is unbounded rather than at most one. *)
Theorem C1_createRecord_retries_without_bound (fuel discovery : nat) :
  let run := Adaptive.createRecord Scenario.api_no_zone Scenario.no_options Scenario.no_env
               fuel (S discovery) "example.com" Scenario.www_record
               (Adaptive.new Scenario.no_options Scenario.no_env) in
  fst run = OutOfFuel /\
  Cf.cache_clears (Adaptive.trace (snd run)) = fuel.
Proof.
  cbv zeta.
  destruct (createRecord_no_zone fuel discovery Scenario.www_record 0 []) as (t' & Hrun & Hclears).
  change (Adaptive.new Scenario.no_options Scenario.no_env) with (Scenario.no_zone_state 0 []).
  rewrite Hrun. simpl. split; [done|]. rewrite Hclears.
  change (Cf.cache_clears []) with 0%nat. lia.
Qed.

(** ** Domain ownership (C6) *)

Section OwnershipFacts.

(** The basic Cloudflare provider: what the zone lookup did decides. *)
Lemma cloudflare_verify_by_lookup (api : Cf.Api) domain t :
  match Cloudflare.getZoneId api domain t with
  | (Return _, t') =>
      Cloudflare.verifyDomainOwnership api domain t = (Return true, t')
  | (Throw e, t') =>
      Cloudflare.verifyDomainOwnership api domain t
      = if Js.includes (message e) "Zone not found" then (Return false, t')
        else (Throw (DNSProviderError
                       ("Failed to verify domain ownership: " ++ message e)
                       500 (Some "cloudflare")), t')
  | (OutOfFuel, _) => False
  end.
Proof.
  unfold Cloudflare.verifyDomainOwnership.
  assert (forall t', Cloudflare.getZoneId api domain t <> (OutOfFuel, t')) as Hsettles.
  { intros t'. unfold Cloudflare.getZoneId, try_catch, bind, Cloudflare.http, throw, ret.
    destruct (Cf.zones_by_name api t _) as [response|e]; simpl; [|done].
    destruct (Cf.success response); simpl; [|done].
    destruct (Cf.result response); simpl; [|done].
    by destruct (Cf.zones_page api _ 50). }
  unfold try_catch, bind, ret, throw.
  destruct (Cloudflare.getZoneId api domain t) as [[zone|e|] t'] eqn:Hlookup.
  - reflexivity.
  - by destruct (Js.includes (message e) "Zone not found").
  - by apply (Hsettles t').
Qed.

Lemma getZoneId_no_zone (api : Cf.Api) domain t response :
  Cf.zones_by_name api t (Cloudflare.extractRootDomain domain) = Answer response ->
  Cf.success response = true ->
  Cf.result response = [] ->
  exists t',
    Cloudflare.getZoneId api domain t
    = (Throw (DNSProviderError
                ("Failed to get zone ID for " ++ domain ++ ": " ++
                 ("Zone not found for domain: " ++
                  Cloudflare.extractRootDomain domain ++
                  ". Make sure the domain is added to your Cloudflare account."))
                500 (Some "cloudflare")), t').
Proof.
  intros Hanswer Hsuccess Hempty.
  unfold Cloudflare.getZoneId, try_catch, bind, Cloudflare.http, throw, ret.
  rewrite Hanswer. cbn [settle]. rewrite Hsuccess, Hempty. cbn [negb].
  destruct (Cf.zones_page api _ 50); cbn [settle]; eexists; reflexivity.
Qed.

(** A lookup that is answered with no zone is a zone-not-found failure. *)
Lemma cloudflare_verify_no_zone (api : Cf.Api) domain t response :
  Cf.zones_by_name api t (Cloudflare.extractRootDomain domain) = Answer response ->
  Cf.success response = true ->
  Cf.result response = [] ->
  exists t', Cloudflare.verifyDomainOwnership api domain t = (Return false, t').
Proof.
  intros Hanswer Hsuccess Hempty.
  destruct (getZoneId_no_zone api domain t response Hanswer Hsuccess Hempty)
    as [t' Hlookup].
  pose proof (cloudflare_verify_by_lookup api domain t) as Hspec.
  rewrite Hlookup in Hspec. cbn [message DNSProviderError] in Hspec.
  rewrite (includes_app_r "Failed to get zone ID for ") in Hspec; [by eauto|].
  apply includes_app_r. apply includes_app_r. by apply includes_app_l.
Qed.

(** A lookup request that fails for another reason is raised. *)
Lemma cloudflare_verify_request_fails (api : Cf.Api) domain t e :
  Cf.zones_by_name api t (Cloudflare.extractRootDomain domain) = Failed e ->
  Js.includes ("Failed to get zone ID for " ++ domain ++ ": " ++ message e)
              "Zone not found" = false ->
  exists e' t',
    Cloudflare.verifyDomainOwnership api domain t = (Throw e', t') /\
    statusCode e' = Some 500.
Proof.
  intros Hfailed Hclass.
  pose proof (cloudflare_verify_by_lookup api domain t) as Hspec.
  unfold Cloudflare.getZoneId in Hspec.
  unfold try_catch at 1, bind at 1, Cloudflare.http at 1 in Hspec.
  rewrite Hfailed in Hspec. cbn [settle] in Hspec.
  unfold throw in Hspec. cbn [message DNSProviderError] in Hspec.
  rewrite Hclass in Hspec. eauto.
Qed.

(** DigitalOcean: the domain-detail request decides. *)
Lemma digitalocean_verify_by_request (api : DigitalOcean.Api) domain t :
  let t' := DigitalOcean.GetDomain domain :: t in
  match DigitalOcean.get_domain api t domain with
  | Answer _ => DigitalOcean.verifyDomainOwnership api domain t = (Return true, t')
  | Failed e =>
      DigitalOcean.verifyDomainOwnership api domain t
      = if bool_decide (response_status e = Some 404) then (Return false, t')
        else (Throw (DNSProviderError
                       ("Failed to verify domain ownership: " ++ do_error_text e)
                       (status_or_500 e) (Some "digitalocean")), t')
  end.
Proof.
  unfold DigitalOcean.verifyDomainOwnership, try_catch, bind, DigitalOcean.http, ret, throw.
  destruct (DigitalOcean.get_domain api t domain) as [[]|e]; simpl; [done|].
  by case_bool_decide.
Qed.

(** The adaptive provider: every failed discovery reads as "not owned",
    and the only error a discovery raises is its own 404. *)
Lemma adaptive_verify_by_discovery
      (api : Cf.Api) (options : Adaptive.Options) (env : Adaptive.Env) fuel domain st :
  match Adaptive.discoverZoneId api options env fuel domain st with
  | (Return _, st') =>
      Adaptive.verifyDomainOwnership api options env fuel domain st = (Return true, st')
  | (Throw e, st') =>
      Adaptive.verifyDomainOwnership api options env fuel domain st = (Return false, st') /\
      statusCode e = Some 404
  | (OutOfFuel, st') =>
      Adaptive.verifyDomainOwnership api options env fuel domain st = (OutOfFuel, st')
  end.
Proof.
  unfold Adaptive.verifyDomainOwnership, try_catch, bind, ret.
  pose proof (discoverZoneId_post api options env fuel domain st) as [_ Herror].
  destruct (Adaptive.discoverZoneId api options env fuel domain st) as [[zone|e|] st'];
    simpl in *; [done| |done].
  split; [done|]. by rewrite Herror.
Qed.

End OwnershipFacts.

(** C6 (as amended).  The basic Cloudflare provider returns true when its
    zone lookup returns a zone, false when the lookup fails with a message
    containing "Zone not found" (as it does when the lookup is answered
    with no zone), and raises a 500 error for any other lookup failure.
    The DigitalOcean provider returns true when the domain-detail request
    is answered, false when it fails with status 404, and raises otherwise.
    The adaptive provider returns true when discovery returns a zone and
    false for every failed discovery; it never raises, and it does return
    (two levels of discovery suffice) whenever the service lists its
    accounts with non-empty ids. *)
Theorem C6_verifyDomainOwnership :
  (forall (api : Cf.Api) domain t,
     match Cloudflare.getZoneId api domain t with
     | (Return _, t') =>
         Cloudflare.verifyDomainOwnership api domain t = (Return true, t')
     | (Throw e, t') =>
         Cloudflare.verifyDomainOwnership api domain t
         = if Js.includes (message e) "Zone not found" then (Return false, t')
           else (Throw (DNSProviderError
                          ("Failed to verify domain ownership: " ++ message e)
                          500 (Some "cloudflare")), t')
     | (OutOfFuel, _) => False
     end) /\
  (forall (api : Cf.Api) domain t response,
     Cf.zones_by_name api t (Cloudflare.extractRootDomain domain) = Answer response ->
     Cf.success response = true ->
     Cf.result response = [] ->
     exists t', Cloudflare.verifyDomainOwnership api domain t = (Return false, t')) /\
  (forall (api : DigitalOcean.Api) domain t,
     let t' := DigitalOcean.GetDomain domain :: t in
     match DigitalOcean.get_domain api t domain with
     | Answer _ => DigitalOcean.verifyDomainOwnership api domain t = (Return true, t')
     | Failed e =>
         DigitalOcean.verifyDomainOwnership api domain t
         = if bool_decide (response_status e = Some 404) then (Return false, t')
           else (Throw (DNSProviderError
                          ("Failed to verify domain ownership: " ++ do_error_text e)
                          (status_or_500 e) (Some "digitalocean")), t')
     end) /\
  (forall (api : Cf.Api) options env fuel domain st,
     match Adaptive.discoverZoneId api options env fuel domain st with
     | (Return _, st') =>
         Adaptive.verifyDomainOwnership api options env fuel domain st = (Return true, st')
     | (Throw e, st') =>
         Adaptive.verifyDomainOwnership api options env fuel domain st = (Return false, st') /\
         statusCode e = Some 404
     | (OutOfFuel, st') =>
         Adaptive.verifyDomainOwnership api options env fuel domain st = (OutOfFuel, st')
     end) /\
  (forall (api : Cf.Api) options env fuel domain st,
     Adaptive.accounts_named api ->
     exists owned st',
       Adaptive.verifyDomainOwnership api options env (S (S fuel)) domain st
       = (Return owned, st')).
Proof.
  split; [exact cloudflare_verify_by_lookup|].
  split; [exact cloudflare_verify_no_zone|].
  split; [exact digitalocean_verify_by_request|].
  split; [exact adaptive_verify_by_discovery|].
  intros api options env fuel domain st Hnamed.
  pose proof (adaptive_verify_by_discovery api options env (S (S fuel)) domain st) as Hspec.
  pose proof (discoverZoneId_settles api options env fuel domain st Hnamed) as Hsettles.
  destruct (Adaptive.discoverZoneId api options env (S (S fuel)) domain st)
    as [[zone|e|] st']; [by eauto | destruct Hspec; by eauto | done].
Qed.

(** C6 as stated fails for the adaptive provider: with a token that every
    endpoint answers with 403 (a permission failure), discovery settles and
    verifyDomainOwnership returns false instead of raising. *)
Lemma C6_counterexample :
  let run := Adaptive.verifyDomainOwnership Scenario.api_forbidden Scenario.no_options
               Scenario.no_env 1 "example.com"
               (Adaptive.new Scenario.no_options Scenario.no_env) in
  fst run = Return false /\
  Adaptive.trace (snd run)
  = [Cf.EvRequest Cf.GetTokenVerify; Cf.EvRequest (Cf.GetZonesPage 100);
     Cf.EvRequest (Cf.GetZonesByName "example.com")] /\
  ~ (exists e, fst run = Throw e).
Proof.
  cbv zeta. split; [reflexivity|]. split; [reflexivity|].
  intros [e He]. vm_compute in He. discriminate He.
Qed.

(** ** The "ALL" filter of listRecords (C9) *)

Lemma cloudflare_listRecords_ALL (api : Cf.Api) domain :
  Cloudflare.listRecords api domain (Some "ALL") = Cloudflare.listRecords api domain None.
Proof. reflexivity. Qed.

Lemma digitalocean_listRecords_ALL (api : DigitalOcean.Api) domain :
  DigitalOcean.listRecords api domain (Some "ALL") = DigitalOcean.listRecords api domain None.
Proof. reflexivity. Qed.

(** Whenever the adaptive provider finds the zone, it sends the filter it
    was given, the sentinel included. *)
Lemma adaptive_listRecords_sends_type
    (api : Cf.Api) (options : Adaptive.Options) (env : Adaptive.Env)
    fuel domain type st zone st1 :
  Adaptive.discoverZoneId api options env fuel domain st = (Return zone, st1) ->
  Js.truthy type = true ->
  head (Adaptive.trace (snd (Adaptive.listRecords api options env fuel domain type st)))
  = Some (Cf.EvRequest (Cf.GetRecords zone 100 type)).
Proof.
  intros Hzone Htype.
  unfold Adaptive.listRecords, try_catch, bind. rewrite Hzone, Htype.
  unfold Adaptive.http, throw, ret.
  destruct (Cf.get_records api _ zone 100 type) as [response|e]; simpl; [|done].
  by destruct (Cf.success response).
Qed.

(** C9 (what the code does instead).  The basic Cloudflare provider and
    the DigitalOcean provider treat the filter "ALL" as no filter.  The
    adaptive provider does not: for example.com it sends
    GET /zones/zone-1/dns_records with type=ALL, and so its call with
    "ALL" differs from its call without a filter. *)
Theorem C9_adaptive_listRecords_sends_ALL :
  let list type :=
    Adaptive.listRecords Scenario.api_example Scenario.no_options Scenario.no_env
      1 "example.com" type (Adaptive.new Scenario.no_options Scenario.no_env) in
  head (Adaptive.trace (snd (list (Some "ALL"))))
  = Some (Cf.EvRequest (Cf.GetRecords "zone-1" 100 (Some "ALL"))) /\
  head (Adaptive.trace (snd (list None)))
  = Some (Cf.EvRequest (Cf.GetRecords "zone-1" 100 None)) /\
  list (Some "ALL") <> list None /\
  (forall (api : Cf.Api) domain,
     Cloudflare.listRecords api domain (Some "ALL") = Cloudflare.listRecords api domain None) /\
  (forall (api : DigitalOcean.Api) domain,
     DigitalOcean.listRecords api domain (Some "ALL")
     = DigitalOcean.listRecords api domain None).
Proof.
  cbv zeta. split; [reflexivity|]. split; [reflexivity|]. split.
  - intros Heq. apply (f_equal (fun r => head (Adaptive.trace (snd r)))) in Heq.
    vm_compute in Heq. discriminate Heq.
  - split; [exact cloudflare_listRecords_ALL | exact digitalocean_listRecords_ALL].
Qed.

(** ** The root name in the DigitalOcean provider (C10) *)

Section RootNameFacts.
Import DigitalOcean.
Variable api : Api.

Lemma createRecord_result domain record t result t' :
  createRecord api domain record t = (Return result, t') ->
  exists doRecord,
    post_record api t domain (createBody record) = Answer doRecord /\
    result = toResult doRecord /\
    t' = PostRecord domain (createBody record) :: t.
Proof.
  unfold createRecord, wrap, try_catch, bind, http, ret, throw.
  destruct (post_record api t domain (createBody record)) as [doRecord|e]; simpl;
    [|done].
  intros [= <- <-]. eauto.
Qed.

Lemma updateRecord_result domain recordId record t result t' :
  updateRecord api domain recordId record t = (Return result, t') ->
  exists doRecord,
    put_record api t domain recordId (updateBody record) = Answer doRecord /\
    result = toResult doRecord /\
    t' = PutRecord domain recordId (updateBody record) :: t.
Proof.
  unfold updateRecord, wrap, try_catch, bind, http, ret, throw.
  destruct (put_record api t domain recordId (updateBody record)) as [doRecord|e]; simpl;
    [|done].
  intros [= <- <-]. eauto.
Qed.

Lemma listRecords_result domain type t results t' :
  listRecords api domain type t = (Return results, t') ->
  let type_param :=
    if Js.truthy type && negb (bool_decide (type = Some "ALL")) then type else None in
  exists doRecords,
    get_records api t domain 200 type_param = Answer doRecords /\
    results = map toResult doRecords /\
    t' = GetRecords domain 200 type_param :: t.
Proof.
  unfold listRecords, wrap, try_catch, bind, http, ret, throw. cbv zeta.
  destruct (get_records api t domain 200 _) as [doRecords|e]; simpl; [|done].
  intros [= <- <-]. eauto.
Qed.

Lemma listRecords_answered domain type t doRecords :
  let type_param :=
    if Js.truthy type && negb (bool_decide (type = Some "ALL")) then type else None in
  get_records api t domain 200 type_param = Answer doRecords ->
  listRecords api domain type t
  = (Return (map toResult doRecords), GetRecords domain 200 type_param :: t).
Proof.
  intros type_param Hanswer.
  unfold listRecords, wrap, try_catch, bind, http, ret, throw. cbv zeta.
  fold type_param. by rewrite Hanswer.
Qed.

Lemma toResult_root doRecord :
  do_name doRecord = None \/ do_name doRecord = Some EmptyString ->
  res_name (toResult doRecord) = "@".
Proof. by intros [H | H]; unfold toResult; simpl; rewrite H. Qed.

End RootNameFacts.

(** C10.  The DigitalOcean provider sends the root name "@" as the empty
    string, on create and on update; every result of create, update and
    list is built by one mapping from the record, or the records, the
    service answered with, and that mapping turns an empty or missing
    provider name into "@".  A listing returns exactly the mapped records of
    the service's answer, in order, so every listed record the service names
    with the empty string or not at all is returned named "@".  And when the
    service answers a create with the name it was sent, a record created
    with name "@" comes back named "@". *)
Theorem C10_root_name_round_trip (api : DigitalOcean.Api) :
  (forall record,
     rec_name record = "@" ->
     DigitalOcean.body_name (DigitalOcean.createBody record) = EmptyString) /\
  (forall updates,
     upd_name updates = Some "@" ->
     DigitalOcean.put_name (DigitalOcean.updateBody updates) = Some EmptyString) /\
  (forall doRecord,
     DigitalOcean.do_name doRecord = None \/
     DigitalOcean.do_name doRecord = Some EmptyString ->
     res_name (DigitalOcean.toResult doRecord) = "@") /\
  (forall domain record t result t',
     DigitalOcean.createRecord api domain record t = (Return result, t') ->
     exists doRecord,
       DigitalOcean.post_record api t domain (DigitalOcean.createBody record)
       = Answer doRecord /\
       result = DigitalOcean.toResult doRecord) /\
  (forall domain recordId updates t result t',
     DigitalOcean.updateRecord api domain recordId updates t = (Return result, t') ->
     exists doRecord,
       DigitalOcean.put_record api t domain recordId (DigitalOcean.updateBody updates)
       = Answer doRecord /\
       result = DigitalOcean.toResult doRecord) /\
  (forall domain type t,
     let type_param :=
       if Js.truthy type && negb (bool_decide (type = Some "ALL")) then type else None in
     (forall results t',
        DigitalOcean.listRecords api domain type t = (Return results, t') ->
        exists doRecords,
          DigitalOcean.get_records api t domain 200 type_param = Answer doRecords /\
          results = map DigitalOcean.toResult doRecords /\
          t' = DigitalOcean.GetRecords domain 200 type_param :: t /\
          forall doRecord,
            In doRecord doRecords ->
            DigitalOcean.do_name doRecord = None \/
            DigitalOcean.do_name doRecord = Some EmptyString ->
            In (DigitalOcean.toResult doRecord) results /\
            res_name (DigitalOcean.toResult doRecord) = "@") /\
     (forall doRecords,
        DigitalOcean.get_records api t domain 200 type_param = Answer doRecords ->
        DigitalOcean.listRecords api domain type t
        = (Return (map DigitalOcean.toResult doRecords),
           DigitalOcean.GetRecords domain 200 type_param :: t))) /\
  (forall domain record t result t',
     rec_name record = "@" ->
     (forall body doRecord,
        DigitalOcean.post_record api t domain body = Answer doRecord ->
        DigitalOcean.do_name doRecord = Some (DigitalOcean.body_name body)) ->
     DigitalOcean.createRecord api domain record t = (Return result, t') ->
     res_name result = "@").
Proof.
  split; [|split; [|split; [|split; [|split; [|split]]]]].
  - intros record Hname. unfold DigitalOcean.createBody, DigitalOcean.toProviderName.
    simpl. by rewrite Hname.
  - intros updates Hname. unfold DigitalOcean.updateBody. simpl. by rewrite Hname.
  - apply toResult_root.
  - intros domain record t result t' Hrun.
    destruct (createRecord_result api _ _ _ _ _ Hrun) as (r & ? & ? & _). eauto.
  - intros domain recordId updates t result t' Hrun.
    destruct (updateRecord_result api _ _ _ _ _ _ Hrun) as (r & ? & ? & _). eauto.
  - intros domain type t type_param. split.
    + intros results t' Hrun.
      destruct (listRecords_result api _ _ _ _ _ Hrun) as (rs & Hanswer & -> & ->).
      exists rs. split; [exact Hanswer|]. split; [reflexivity|]. split; [reflexivity|].
      intros doRecord Hin Hname. split; [by apply in_map | by apply toResult_root].
    + intros doRecords Hanswer. by apply listRecords_answered.
  - intros domain record t result t' Hname Hecho Hrun.
    destruct (createRecord_result api _ _ _ _ _ Hrun) as (r & Hpost & -> & _).
    apply toResult_root. right. rewrite (Hecho _ _ Hpost).
    unfold DigitalOcean.createBody, DigitalOcean.toProviderName. simpl. by rewrite Hname.
Qed.

(** ** The theorems at concrete inputs *)

Lemma C2_mutations_need_existing_domain_witness :
  let getDNSProvider : string -> string -> M DigitalOcean.Trace (DNSProvider DigitalOcean.Trace) :=
    fun _ _ => ret (DigitalOcean.as_provider Scenario.do_missing) in
  let st := {| Service.world := []; Service.calls := [] |} in
  let st' := Service.after_listing st "example.com" None
               [DigitalOcean.GetRecords "example.com" 200 None] in
  exists e1,
    statusCode e1 = Some 404 /\
    Service.createRecord _ getDNSProvider "example.com" "A" "www" "203.0.113.5"
      "digitalocean" "jwt" {| Service.opt_ttl := None; Service.opt_priority := None |} st
    = (Throw e1, st').
Proof.
  intros getDNSProvider st st'.
  edestruct (C2_mutations_need_existing_domain _ getDNSProvider
               "example.com" "digitalocean" "jwt" st
               (DigitalOcean.as_provider Scenario.do_missing) []
               [DigitalOcean.GetRecords "example.com" 200 None]
               (DNSProviderError
                  "Failed to list DNS records: Request failed with status code 404"
                  404 (Some "digitalocean"))
               "A" "www" "203.0.113.5" "rec-1"
               {| Service.opt_ttl := None; Service.opt_priority := None |}
               {| upd_name := None; upd_data := None; upd_ttl := None; upd_priority := None |})
    as (_ & Hmissing & _).
  - reflexivity.
  - reflexivity.
  - destruct (Hmissing eq_refl) as (e1 & _ & _ & Hcode & _ & _ & Hcreate & _).
    exists e1. split; [exact Hcode | exact Hcreate].
Defined.

Lemma C4_listRecords_missing_domain_witness :
  let getDNSProvider : string -> string -> M DigitalOcean.Trace (DNSProvider DigitalOcean.Trace) :=
    fun _ _ => ret (DigitalOcean.as_provider Scenario.do_missing) in
  let st := {| Service.world := []; Service.calls := [] |} in
  Service.listRecords _ getDNSProvider "example.com" "digitalocean" "jwt" (Some "A") st
  = (Return [],
     Service.after_listing st "example.com" (Some "A")
       [DigitalOcean.GetRecords "example.com" 200 (Some "A")]).
Proof.
  intros getDNSProvider st.
  edestruct (C4_listRecords_missing_domain _ getDNSProvider
               "example.com" "digitalocean" "jwt" (Some "A") st
               (DigitalOcean.as_provider Scenario.do_missing) []
               [DigitalOcean.GetRecords "example.com" 200 (Some "A")]
               (DNSProviderError
                  "Failed to list DNS records: Request failed with status code 404"
                  404 (Some "digitalocean")))
    as (Hmissing & _).
  - reflexivity.
  - reflexivity.
  - exact (Hmissing eq_refl).
Defined.

Lemma C3_propagation_quorum_witness :
  Cloudflare.checkPropagation Scenario.doh_two_of_three "example.com" "A" "203.0.113.5" tt
  = (Return true, tt).
Proof.
  destruct (C3_propagation_quorum Scenario.doh_two_of_three unit
              "example.com" "A" "203.0.113.5" tt)
    as (propagated & Hrun & _ & Htwo & _).
  rewrite Hrun.
  rewrite (Htwo (Error "timeout of 5000ms exceeded") eq_refl eq_refl eq_refl).
  reflexivity.
Defined.

Lemma C7_presupplied_zone_id_witness :
  (Adaptive.discoverZoneId Scenario.api_forbidden (Scenario.with_zone "zone-9")
     Scenario.no_env 1 "www.example.com"
     (Adaptive.new (Scenario.with_zone "zone-9") Scenario.no_env)
   = (Return "zone-9",
      Adaptive.set_zoneCache
        (<["example.com" := {| Adaptive.zoneId := "zone-9";
                               Adaptive.method := "provided_unverified" |}]> ∅)
        (Adaptive.record_event (Cf.EvRequest (Cf.GetZone "zone-9"))
           (Adaptive.new (Scenario.with_zone "zone-9") Scenario.no_env)))) /\
  fst (Adaptive.discoverZoneId Scenario.api_no_zone (Scenario.with_zone "zone-9")
         Scenario.no_env 1 "www.example.com"
         (Adaptive.new (Scenario.with_zone "zone-9") Scenario.no_env))
  = Throw (Adaptive.zone_not_found "example.com" 0).
Proof.
  split.
  - apply (C7_presupplied_zone_id Scenario.api_forbidden (Scenario.with_zone "zone-9")
             Scenario.no_env 0 "www.example.com" "zone-9"
             (Adaptive.new (Scenario.with_zone "zone-9") Scenario.no_env)
             (Scenario.http_error 403)); try reflexivity; discriminate.
  - destruct (C7_presupplied_zone_id Scenario.api_no_zone (Scenario.with_zone "zone-9")
                Scenario.no_env 0 "www.example.com" "zone-9"
                (Adaptive.new (Scenario.with_zone "zone-9") Scenario.no_env)
                (Scenario.http_error 404)) as [Hfall _];
      [reflexivity | reflexivity | discriminate | reflexivity |].
    destruct (Hfall eq_refl) as [_ Hrun]. rewrite Hrun. reflexivity.
Defined.

Lemma C8_zone_resolution_cached_witness :
  let first := Adaptive.discoverZoneId Scenario.api_example Scenario.no_options
                 Scenario.no_env 1 "www.example.com"
                 (Adaptive.new Scenario.no_options Scenario.no_env) in
  fst first = Return "zone-1" /\
  Adaptive.discoverZoneId Scenario.api_example Scenario.no_options Scenario.no_env
    1 "api.example.com" (snd first)
  = (Return "zone-1", snd first) /\
  Adaptive.trace (snd first) = [Cf.EvRequest (Cf.GetZonesByName "example.com")].
Proof.
  intros first. split; [reflexivity|]. split; [|reflexivity].
  apply (C8_zone_resolution_cached Scenario.api_example Scenario.no_options Scenario.no_env
           1 0 "www.example.com" "api.example.com" "zone-1"
           (Adaptive.new Scenario.no_options Scenario.no_env) (snd first));
    reflexivity.
Defined.

Lemma C6_verifyDomainOwnership_witness :
  (exists t', Cloudflare.verifyDomainOwnership Scenario.api_no_zone "www.example.com" []
              = (Return false, t')) /\
  (exists owned st',
     Adaptive.verifyDomainOwnership Scenario.api_forbidden Scenario.no_options
       Scenario.no_env 2 "www.example.com"
       (Adaptive.new Scenario.no_options Scenario.no_env)
     = (Return owned, st')).
Proof.
  split.
  - apply (proj1 (proj2 C6_verifyDomainOwnership) Scenario.api_no_zone "www.example.com" []
             {| Cf.success := true; Cf.result := []; Cf.errors := [] |});
      reflexivity.
  - apply (proj2 (proj2 (proj2 (proj2 C6_verifyDomainOwnership)))).
    intros t response account rest Huser. discriminate Huser.
Defined.

Lemma C10_root_name_round_trip_witness :
  exists result t',
    DigitalOcean.createRecord Scenario.do_echo "example.com" Scenario.root_record []
    = (Return result, t') /\
    res_name result = "@" /\
    t' = [DigitalOcean.PostRecord "example.com"
            {| DigitalOcean.body_type := "A"; DigitalOcean.body_name := EmptyString;
               DigitalOcean.body_data := "203.0.113.5"; DigitalOcean.body_ttl := 300;
               DigitalOcean.body_priority := None |}].
Proof.
  destruct (DigitalOcean.createRecord Scenario.do_echo "example.com" Scenario.root_record [])
    as [c t'] eqn:Hrun.
  vm_compute in Hrun. injection Hrun as <- <-.
  eexists _, _. split; [reflexivity|]. split; [|reflexivity].
  apply (proj2 (proj2 (proj2 (proj2 (proj2 (proj2 (C10_root_name_round_trip Scenario.do_echo))))))
           "example.com" Scenario.root_record []
           _ [DigitalOcean.PostRecord "example.com" (DigitalOcean.createBody Scenario.root_record)]).
  - reflexivity.
  - intros body doRecord [= <-]. reflexivity.
  - reflexivity.
Defined.

(** * Further properties of the code *)

(** ** Labels and root domains *)

Lemma append_nil_r (s : string) : (s ++ "")%string = s.
Proof.
  induction s as [|c s IH]; [reflexivity|].
  rewrite append_cons. by f_equal.
Qed.

Lemma split_nonempty sep s : Js.split sep s <> [].
Proof.
  destruct s as [|c s]; simpl; [done|].
  destruct (Ascii.eqb c sep); [done|]. by destruct (Js.split sep s).
Qed.

Lemma join_cons sep p q rest :
  Js.join sep (p :: q :: rest) = (p ++ sep ++ Js.join sep (q :: rest))%string.
Proof. reflexivity. Qed.

(** [s.split('.').join('.') === s] *)
Lemma join_split s : Js.join "." (Js.split "." s) = s.
Proof.
  induction s as [|c s IH]; [reflexivity|].
  cbn [Js.split]. destruct (Ascii.eqb c ".") eqn:Hc.
  - apply Ascii.eqb_eq in Hc as ->.
    destruct (Js.split "." s) as [|h t] eqn:Hs; [by apply split_nonempty in Hs|].
    rewrite join_cons, IH. reflexivity.
  - destruct (Js.split "." s) as [|h t] eqn:Hs; [by apply split_nonempty in Hs|].
    destruct t as [|q t].
    + simpl in *. by rewrite IH.
    + rewrite join_cons in *. rewrite append_cons. by rewrite IH.
Qed.

Lemma join_drop k parts :
  exists pre, Js.join "." parts = (pre ++ Js.join "." (drop k parts))%string.
Proof.
  revert parts. induction k as [|k IH]; intros parts; [by exists EmptyString|].
  destruct parts as [|p rest]; [by exists EmptyString|].
  cbn [drop]. destruct (IH rest) as [pre Hpre].
  destruct rest as [|q rest].
  - exists p. rewrite drop_nil. simpl. by rewrite append_nil_r.
  - exists (p ++ "." ++ pre)%string.
    rewrite join_cons, Hpre.
    rewrite <- (append_assoc p ("." ++ pre)). by f_equal.
Qed.

Lemma endsWith_join_slice domain k :
  Js.endsWith domain (Js.join "." (Js.slice_last k (RootDomain.labels domain))) = true.
Proof.
  unfold Js.slice_last, RootDomain.labels.
  destruct (join_drop (length (Js.split "." domain) - k) (Js.split "." domain))
    as [pre Hpre].
  rewrite join_split in Hpre. rewrite Hpre at 1. apply endsWith_app.
Qed.

Lemma split_labels_dotfree s : Forall dotfree_label (Js.split "." s).
Proof.
  induction s as [|c s IH]; [by repeat constructor|].
  cbn [Js.split]. destruct (Ascii.eqb c ".") eqn:Hc.
  - constructor; [reflexivity | exact IH].
  - destruct (Js.split "." s) as [|h t] eqn:Hs; [by apply split_nonempty in Hs|].
    inversion IH as [|? ? Hh Ht]; subst. constructor; [|exact Ht].
    unfold dotfree_label in *. cbn [Js.split]. by rewrite Hc, Hh.
Qed.

Lemma split_app_dot l rest :
  dotfree_label l -> Js.split "." (l ++ "." ++ rest) = l :: Js.split "." rest.
Proof.
  unfold dotfree_label. induction l as [|c l IH]; intros Hl; [reflexivity|].
  rewrite append_cons. cbn [Js.split] in *.
  destruct (Ascii.eqb c ".") eqn:Hc.
  - exfalso. destruct (Js.split "." l) eqn:Hs; [by apply split_nonempty in Hs|].
    discriminate Hl.
  - destruct (Js.split "." l) as [|h t] eqn:Hs; [by apply split_nonempty in Hs|].
    injection Hl as -> ->. rewrite IH by reflexivity. reflexivity.
Qed.

Lemma split_join parts :
  parts <> [] -> Forall dotfree_label parts -> Js.split "." (Js.join "." parts) = parts.
Proof.
  induction parts as [|p rest IH]; intros Hne Hfree; [done|].
  inversion Hfree as [|? ? Hp Hrest]; subst.
  destruct rest as [|q rest]; [exact Hp|].
  rewrite join_cons, split_app_dot by exact Hp.
  f_equal. by apply IH.
Qed.

Lemma labels_join_slice domain k :
  (0 < k)%nat ->
  RootDomain.labels (Js.join "." (Js.slice_last k (RootDomain.labels domain)))
  = Js.slice_last k (RootDomain.labels domain).
Proof.
  intros Hk. unfold RootDomain.labels at 1. apply split_join.
  - unfold Js.slice_last, RootDomain.labels. intros Hnil.
    apply (f_equal length) in Hnil. rewrite length_drop in Hnil. simpl in Hnil.
    pose proof (split_nonempty "." domain) as Hne.
    destruct (Js.split "." domain); [done|]. simpl in Hnil. lia.
  - unfold Js.slice_last. apply Forall_drop, split_labels_dotfree.
Qed.

Lemma length_slice_last {A} k (parts : list A) :
  length (Js.slice_last k parts) = Nat.min k (length parts).
Proof. unfold Js.slice_last. rewrite length_drop. lia. Qed.

Lemma slice_last_all {A} k (parts : list A) :
  (length parts <= k)%nat -> Js.slice_last k parts = parts.
Proof.
  intros H. unfold Js.slice_last.
  replace (length parts - k)%nat with 0%nat by lia. reflexivity.
Qed.

(** X1.  In both Cloudflare providers the extracted root domain is a
    suffix of the domain it was extracted from. *)
Theorem root_domain_is_suffix (domain : string) :
  Js.endsWith domain (Adaptive.extractRootDomain domain) = true /\
  Js.endsWith domain (Cloudflare.extractRootDomain domain) = true.
Proof.
  unfold Adaptive.extractRootDomain, Cloudflare.extractRootDomain.
  destruct (length (RootDomain.labels domain) <=? 2)%nat;
    [split; apply endsWith_refl|].
  split; [|apply endsWith_join_slice].
  destruct (existsb _ _); apply endsWith_join_slice.
Qed.

(** X2.  Root-domain extraction is idempotent in both Cloudflare
    providers, and its result has at most three labels in the adaptive
    provider and at most two in the basic one: the root domain of a root
    domain is that root domain, so the cache key of a root is itself. *)
Theorem root_domain_idempotent (domain : string) :
  Adaptive.extractRootDomain (Adaptive.extractRootDomain domain)
  = Adaptive.extractRootDomain domain /\
  Cloudflare.extractRootDomain (Cloudflare.extractRootDomain domain)
  = Cloudflare.extractRootDomain domain /\
  (length (RootDomain.labels (Adaptive.extractRootDomain domain)) <= 3)%nat /\
  (length (RootDomain.labels (Cloudflare.extractRootDomain domain)) <= 2)%nat.
Proof.
  assert (forall d, (length (RootDomain.labels d) <= 2)%nat ->
                    Adaptive.extractRootDomain d = d) as Hshort.
  { intros d Hd. by apply extract_identity. }
  assert (forall d, (length (RootDomain.labels d) <= 2)%nat ->
                    Cloudflare.extractRootDomain d = d) as Hshort'.
  { intros d Hd. by apply extract_identity. }
  pose proof (labels_join_slice domain 2 ltac:(lia)) as H2.
  pose proof (labels_join_slice domain 3 ltac:(lia)) as H3.
  pose proof (length_slice_last 2 (RootDomain.labels domain)) as L2.
  pose proof (length_slice_last 3 (RootDomain.labels domain)) as L3.
  destruct (Nat.leb_spec (length (RootDomain.labels domain)) 2) as [Hle | Hgt].
  - rewrite (Hshort domain Hle), (Hshort' domain Hle).
    rewrite (Hshort domain Hle), (Hshort' domain Hle). repeat split; lia.
  - assert (Cloudflare.extractRootDomain domain
            = Js.join "." (Js.slice_last 2 (RootDomain.labels domain))) as Hb
      by (by apply extract_basic_two).
    assert (length (RootDomain.labels
              (Js.join "." (Js.slice_last 2 (RootDomain.labels domain)))) <= 2)%nat
      as Hl2 by (rewrite H2, L2; lia).
    unfold Adaptive.extractRootDomain at 2 3 4.
    apply Nat.leb_gt in Hgt as Hgt'. rewrite Hgt'.
    destruct (existsb _ Adaptive.specialTlds) eqn:Hspecial.
    + split; [|split; [|split]].
      * unfold Adaptive.extractRootDomain. rewrite H3.
        assert ((length (Js.slice_last 3 (RootDomain.labels domain)) <=? 2)%nat = false)
          as -> by (apply Nat.leb_gt; rewrite L3; lia).
        rewrite slice_last_all by (rewrite L3; lia).
        by rewrite Hspecial.
      * rewrite Hb. by apply Hshort'.
      * rewrite H3, L3. lia.
      * by rewrite Hb.
    + split; [|split; [|split]].
      * by apply Hshort.
      * rewrite Hb. by apply Hshort'.
      * lia.
      * by rewrite Hb.
Qed.

(** ** What a zone discovery touches *)

Section DiscoveryFrame.
Import Cf Adaptive AdaptiveSpec.
Variable api : Api.
Variable options : Options.
Variable env : Env.

Lemma strategy1_frame rootDomain st :
  strategy_frame rootDomain 1 st (strategy1 api options env rootDomain st).
Proof.
  unfold strategy1, strategy_frame.
  destruct (Js.truthy _); [|simpl; repeat split; lia].
  unfold try_catch, bind, http, cacheZoneId, modify, ret.
  destruct (zone_detail api (trace st) _) as [response|error]; simpl.
  - destruct (success response); simpl; repeat split; eauto; lia.
  - case_bool_decide; simpl; repeat split; eauto; lia.
Qed.

Lemma strategy2_frame rootDomain st :
  strategy_frame rootDomain 1 st (strategy2 api rootDomain st).
Proof.
  unfold strategy2, strategy_frame, try_catch, bind, http, cacheZoneId, modify, ret.
  destruct (zones_by_name api (trace st) _) as [response|error]; simpl;
    [|repeat split; lia].
  destruct (success response); simpl; [|repeat split; lia].
  destruct (result response) as [|zone zones]; simpl; repeat split; eauto; lia.
Qed.

Lemma strategy3_frame domain rootDomain st :
  strategy_frame rootDomain 1 st (strategy3 api domain rootDomain st).
Proof.
  unfold strategy3, strategy_frame, try_catch, bind, http, cacheZoneId, modify, ret, get.
  destruct (zones_page api (trace st) _) as [response|error]; simpl;
    [|repeat split; lia].
  destruct (success response); simpl; [|repeat split; lia].
  destruct (find _ (result response)) as [zone|]; simpl.
  - destruct (_ && _); simpl; repeat split; eauto; lia.
  - destruct (negb _); simpl; [|repeat split; lia].
    destruct (find _ (result response)) as [zone|]; simpl; [|repeat split; lia].
    destruct (_ && _); simpl; repeat split; eauto; lia.
Qed.

Lemma strategy4_frame rootDomain st :
  strategy_frame rootDomain (if Js.truthy (accountId st) then 1 else 0) st
    (strategy4 api rootDomain st).
Proof.
  unfold strategy4, strategy_frame, try_catch, bind, http, cacheZoneId, modify, ret, get.
  destruct (Js.truthy (accountId st)); simpl; [|repeat split; lia].
  destruct (account_zones api (trace st) _ _) as [response|error]; simpl;
    [|repeat split; lia].
  destruct (success response); simpl; [|repeat split; lia].
  destruct (result response) as [|zone zones]; simpl; repeat split; eauto; lia.
Qed.

Lemma strategy5_frame st :
  let r := strategy5 api st in
  zoneCache (snd r) = zoneCache st /\
  (length (trace (snd r))
   <= length (trace st) + (if Js.truthy (accountId st) then 0 else 2))%nat /\
  cache_clears (trace (snd r)) = cache_clears (trace st).
Proof.
  unfold strategy5, try_catch, bind, http, modify, ret, get. simpl.
  destruct (Js.truthy (accountId st)); simpl; [repeat split; lia|].
  destruct (token_verify api (trace st)) as [verify|error]; simpl; [|repeat split; lia].
  destruct (success verify); simpl; [|repeat split; lia].
  destruct (user api _) as [userResponse|error]; simpl; [|repeat split; lia].
  destruct (success userResponse); simpl; [|repeat split; lia].
  destruct (result userResponse) as [[|account accounts]|]; simpl; repeat split; lia.
Qed.

Lemma later_strategies_frame again domain st :
  (forall st1, discover_frame domain st1 (again st1)) ->
  discover_frame domain st
    (later_strategies api again domain (extractRootDomain domain) st).
Proof.
  intros Hagain. unfold later_strategies, discover_frame.
  set (root := extractRootDomain domain).
  unfold bind, get, throw, ret.
  pose proof (strategy2_post api root st) as [_ P2].
  pose proof (strategy2_frame root st) as (C2 & _ & K2).
  destruct (strategy2 api root st) as [[[zone|]| |] st2]; simpl in *; try done;
    [split; [right; exact C2 | exact K2]|].
  pose proof (strategy3_post api domain root st2) as [_ P3].
  pose proof (strategy3_frame domain root st2) as (C3 & _ & K3).
  destruct (strategy3 api domain root st2) as [[[zone|]| |] st3]; simpl in *; try done.
  { split; [right|congruence]. destruct C3 as [how C3]. exists how. congruence. }
  pose proof (strategy4_post api root st3) as [_ P4].
  pose proof (strategy4_frame root st3) as (C4 & _ & K4).
  destruct (strategy4 api root st3) as [[[zone|]| |] st4]; simpl in *; try done.
  { split; [right|congruence]. destruct C4 as [how C4]. exists how. congruence. }
  pose proof (strategy5_frame st4) as (C5 & _ & K5).
  destruct (strategy5_post api st4) as (retry & st5 & Hrun & _).
  rewrite Hrun in *. simpl in *.
  destruct retry; simpl.
  - destruct (Hagain st5) as [Ca Ka]. fold root in Ca.
    destruct (again st5) as [[zone|e|] st6]; simpl in *.
    + split; [|congruence]. destruct Ca as [Ca | [how Ca]]; [left|right; exists how];
        congruence.
    + split; congruence.
    + split; congruence.
  - split; congruence.
Qed.

Lemma discoverZoneId_frame fuel domain st :
  discover_frame domain st (discoverZoneId api options env fuel domain st).
Proof.
  revert st. induction fuel as [|fuel IH]; intros st; [by split|].
  cbn [discoverZoneId]. unfold discover_frame.
  set (root := extractRootDomain domain).
  unfold bind, get, ret.
  destruct (zoneCache_get (zoneCache st) root) as [zone|] eqn:Hhit;
    [simpl; by split; [left|]|].
  pose proof (strategy1_post api options env root st) as [_ P1].
  pose proof (strategy1_frame root st) as (C1 & _ & K1).
  destruct (strategy1 api options env root st) as [[[zone|]| |] st1]; simpl in *;
    try done; [split; [right; exact C1 | exact K1]|].
  pose proof (later_strategies_frame (discoverZoneId api options env fuel domain)
                domain st1 IH) as [Cl Kl].
  fold root in Cl, Kl |- *.
  destruct (later_strategies _ _ _ _ st1) as [[zone|e|] st2]; simpl in *.
  - split; [|congruence]. destruct Cl as [Cl | [how Cl]]; [left|right; exists how];
      congruence.
  - split; congruence.
  - split; congruence.
Qed.

(** *** How many requests a discovery issues *)

Lemma later_strategies_requests_known again domain rootDomain st :
  Js.truthy (accountId st) = true ->
  (length (trace (snd (later_strategies api again domain rootDomain st)))
   <= length (trace st) + 3)%nat.
Proof.
  intros Hknown. unfold later_strategies, bind, get, throw, ret.
  pose proof (strategy2_post api rootDomain st) as [_ P2].
  pose proof (strategy2_frame rootDomain st) as (_ & L2 & _).
  pose proof (strategy2_account api rootDomain st) as A2.
  destruct (strategy2 api rootDomain st) as [[[zone|]| |] st2]; simpl in *; try done;
    [lia|].
  pose proof (strategy3_post api domain rootDomain st2) as [_ P3].
  pose proof (strategy3_frame domain rootDomain st2) as (_ & L3 & _).
  pose proof (strategy3_account api domain rootDomain st2) as A3.
  destruct (strategy3 api domain rootDomain st2) as [[[zone|]| |] st3]; simpl in *;
    try done; [lia|].
  pose proof (strategy4_post api rootDomain st3) as [_ P4].
  pose proof (strategy4_frame rootDomain st3) as (_ & L4 & _).
  pose proof (strategy4_account api rootDomain st3) as A4.
  destruct (strategy4 api rootDomain st3) as [[[zone|]| |] st4]; simpl in *; try done.
  all: assert (Js.truthy (accountId st3) = true) as K3
         by (rewrite A3, A2; [done | by rewrite A2]).
  all: rewrite K3 in L4.
  - lia.
  - rewrite strategy5_known by (by rewrite A4). simpl. lia.
Qed.

Lemma later_strategies_requests again domain rootDomain st bound :
  accounts_named api ->
  (forall st1, Js.truthy (accountId st1) = true ->
     (length (trace (snd (again st1))) <= length (trace st1) + bound)%nat) ->
  (length (trace (snd (later_strategies api again domain rootDomain st)))
   <= length (trace st) + 4 + bound)%nat.
Proof.
  intros Hnamed Hagain. unfold later_strategies, bind, get, throw, ret.
  pose proof (strategy2_post api rootDomain st) as [_ P2].
  pose proof (strategy2_frame rootDomain st) as (_ & L2 & _).
  destruct (strategy2 api rootDomain st) as [[[zone|]| |] st2]; simpl in *; try done;
    [lia|].
  pose proof (strategy3_post api domain rootDomain st2) as [_ P3].
  pose proof (strategy3_frame domain rootDomain st2) as (_ & L3 & _).
  destruct (strategy3 api domain rootDomain st2) as [[[zone|]| |] st3]; simpl in *;
    try done; [lia|].
  pose proof (strategy4_post api rootDomain st3) as [_ P4].
  pose proof (strategy4_frame rootDomain st3) as (_ & L4 & _).
  pose proof (strategy4_account api rootDomain st3) as A4.
  destruct (strategy4 api rootDomain st3) as [[[zone|]| |] st4]; simpl in *; try done.
  { destruct (Js.truthy (accountId st3)); lia. }
  pose proof (strategy5_frame st4) as (_ & L5 & _).
  destruct (strategy5_post api st4) as (retry & st5 & Hrun & _).
  rewrite Hrun in *. simpl in *. rewrite A4 in L5.
  destruct retry; simpl.
  - pose proof (Hagain st5 (strategy5_discovers api st4 st5 Hnamed Hrun)) as La.
    destruct (Js.truthy (accountId st3)); lia.
  - destruct (Js.truthy (accountId st3)); lia.
Qed.

Lemma discoverZoneId_requests_known fuel domain st :
  Js.truthy (accountId st) = true ->
  (length (trace (snd (discoverZoneId api options env fuel domain st)))
   <= length (trace st) + 4)%nat.
Proof.
  intros Hknown. destruct fuel as [|fuel]; [simpl; lia|].
  cbn [discoverZoneId]. unfold bind, get, ret.
  destruct (zoneCache_get _ _); [simpl; lia|].
  pose proof (strategy1_post api options env (extractRootDomain domain) st) as [_ P1].
  pose proof (strategy1_frame (extractRootDomain domain) st) as (_ & L1 & _).
  pose proof (strategy1_account api options env (extractRootDomain domain) st) as A1.
  destruct (strategy1 api options env _ st) as [[[zone|]| |] st1]; simpl in *;
    try done; [lia|].
  pose proof (later_strategies_requests_known
                (discoverZoneId api options env fuel domain) domain
                (extractRootDomain domain) st1 ltac:(by rewrite A1)).
  lia.
Qed.

Lemma discoverZoneId_requests fuel domain st :
  accounts_named api ->
  (length (trace (snd (discoverZoneId api options env fuel domain st)))
   <= length (trace st) + 9)%nat.
Proof.
  intros Hnamed. destruct fuel as [|fuel]; [simpl; lia|].
  cbn [discoverZoneId]. unfold bind, get, ret.
  destruct (zoneCache_get _ _); [simpl; lia|].
  pose proof (strategy1_post api options env (extractRootDomain domain) st) as [_ P1].
  pose proof (strategy1_frame (extractRootDomain domain) st) as (_ & L1 & _).
  destruct (strategy1 api options env _ st) as [[[zone|]| |] st1]; simpl in *;
    try done; [lia|].
  pose proof (later_strategies_requests
                (discoverZoneId api options env fuel domain) domain
                (extractRootDomain domain) st1 4 Hnamed
                (fun st2 H => discoverZoneId_requests_known fuel domain st2 H)).
  lia.
Qed.

End DiscoveryFrame.

(** X3.  A failed zone discovery raises the provider's 404 zone-not-found
    error for the root domain and nothing else; it leaves the zone cache and
    the retry counter exactly as they were and clears no cache. *)
Theorem failed_discovery_changes_nothing
    (api : Cf.Api) (options : Adaptive.Options) (env : Adaptive.Env)
    (fuel : nat) (domain : string) (st st' : Adaptive.State) (e : JsError) :
  Adaptive.discoverZoneId api options env fuel domain st = (Throw e, st') ->
  e = Adaptive.zone_not_found (Adaptive.extractRootDomain domain)
        (Adaptive.discoveryAttempts st) /\
  statusCode e = Some 404 /\
  provider e = Some "cloudflare" /\
  Adaptive.zoneCache st' = Adaptive.zoneCache st /\
  Adaptive.discoveryAttempts st' = Adaptive.discoveryAttempts st /\
  Cf.cache_clears (Adaptive.trace st') = Cf.cache_clears (Adaptive.trace st).
Proof.
  intros Hrun.
  pose proof (discoverZoneId_post api options env fuel domain st) as [Hattempts Herror].
  pose proof (discoverZoneId_frame api options env fuel domain st) as [Hcache Hclears].
  rewrite Hrun in *. simpl in *. subst e. by repeat split.
Qed.

Lemma failed_discovery_changes_nothing_witness :
  exists st',
    Adaptive.discoverZoneId Scenario.api_no_zone Scenario.no_options Scenario.no_env
      1 "www.example.com" (Adaptive.new Scenario.no_options Scenario.no_env)
    = (Throw (Adaptive.zone_not_found "example.com" 0), st') /\
    Adaptive.zoneCache st' = ∅.
Proof.
  eexists. split; [reflexivity|].
  apply (failed_discovery_changes_nothing Scenario.api_no_zone Scenario.no_options
           Scenario.no_env 1 "www.example.com"
           (Adaptive.new Scenario.no_options Scenario.no_env) _
           (Adaptive.zone_not_found "example.com" 0)).
  reflexivity.
Defined.

(** X4.  A successful zone discovery leaves the returned zone id in the
    cache under the root domain and changes no other cache entry. *)
Theorem discovery_caches_only_the_root
    (api : Cf.Api) (options : Adaptive.Options) (env : Adaptive.Env)
    (fuel : nat) (domain zone : string) (st st' : Adaptive.State) :
  Adaptive.discoverZoneId api options env fuel domain st = (Return zone, st') ->
  Adaptive.zoneCache_get (Adaptive.zoneCache st') (Adaptive.extractRootDomain domain)
  = Some zone /\
  (forall key, key <> Adaptive.extractRootDomain domain ->
     Adaptive.zoneCache st' !! key = Adaptive.zoneCache st !! key) /\
  Cf.cache_clears (Adaptive.trace st') = Cf.cache_clears (Adaptive.trace st).
Proof.
  intros Hrun.
  pose proof (discoverZoneId_post api options env fuel domain st) as [_ Hcached].
  pose proof (discoverZoneId_frame api options env fuel domain st) as [Hcache Hclears].
  rewrite Hrun in *. simpl in *. split; [exact Hcached|]. split; [|exact Hclears].
  intros key Hkey. destruct Hcache as [-> | [how ->]]; [done|].
  by rewrite lookup_insert_ne.
Qed.

Lemma discovery_caches_only_the_root_witness :
  let st := Adaptive.set_zoneCache
              (<["example.org" := {| Adaptive.zoneId := "zone-7";
                                     Adaptive.method := "direct_lookup" |}]> ∅)
              (Adaptive.new Scenario.no_options Scenario.no_env) in
  let run := Adaptive.discoverZoneId Scenario.api_example Scenario.no_options
               Scenario.no_env 1 "www.example.com" st in
  fst run = Return "zone-1" /\
  Adaptive.zoneCache_get (Adaptive.zoneCache (snd run)) "example.com" = Some "zone-1" /\
  Adaptive.zoneCache_get (Adaptive.zoneCache (snd run)) "example.org" = Some "zone-7".
Proof.
  intros st run.
  destruct (discovery_caches_only_the_root Scenario.api_example Scenario.no_options
              Scenario.no_env 1 "www.example.com" "zone-1" st (snd run))
    as (Hroot & Hother & _); [reflexivity|].
  split; [reflexivity|]. split; [exact Hroot|].
  unfold Adaptive.zoneCache_get. rewrite (Hother "example.org"); [reflexivity|].
  vm_compute. discriminate.
Defined.

(** X5.  When the service lists its accounts with non-empty ids, a zone
    discovery settles within two levels of its self-recursion and issues at
    most nine requests. *)
Theorem discovery_settles_within_nine_requests
    (api : Cf.Api) (options : Adaptive.Options) (env : Adaptive.Env)
    (fuel : nat) (domain : string) (st : Adaptive.State) :
  Adaptive.accounts_named api ->
  let run := Adaptive.discoverZoneId api options env (S (S fuel)) domain st in
  fst run <> OutOfFuel /\
  (length (Adaptive.trace (snd run)) <= length (Adaptive.trace st) + 9)%nat.
Proof.
  intros Hnamed run. split.
  - by apply discoverZoneId_settles.
  - by apply discoverZoneId_requests.
Qed.

Lemma discovery_settles_within_nine_requests_witness :
  let run := Adaptive.discoverZoneId Cases.api_account_only Scenario.no_options
               Scenario.no_env 2 "www.example.com"
               (Adaptive.new Scenario.no_options Scenario.no_env) in
  fst run = Return "zone-1" /\
  length (Adaptive.trace (snd run)) = 7%nat /\
  (length (Adaptive.trace (snd run)) <= 0 + 9)%nat.
Proof.
  intros run. split; [reflexivity|]. split; [reflexivity|].
  apply (discovery_settles_within_nine_requests Cases.api_account_only
           Scenario.no_options Scenario.no_env 0 "www.example.com"
           (Adaptive.new Scenario.no_options Scenario.no_env)).
  intros t response account rest [= <-] [= <- _]. discriminate.
Defined.

(** *** An account without an id *)

Section UnnamedAccount.
Import Cf Adaptive AdaptiveSpec.
Variable api : Api.
Variable options : Options.
Variable env : Env.
Hypothesis no_zone : no_zone_listed api.
Hypothesis unnamed : unnamed_account api.
Hypothesis no_supplied_zone :
  Js.truthy (Js.or_else (opt_zoneId options) (CLOUDFLARE_ZONE_ID env)) = false.

Lemma strategy2_lists_nothing rootDomain st :
  strategy2 api rootDomain st
  = (Return None, record_event (EvRequest (GetZonesByName rootDomain)) st).
Proof.
  unfold strategy2, try_catch, bind, http, ret.
  destruct (no_zone (trace st)) as (Hname & _ & _). specialize (Hname rootDomain).
  destruct (zones_by_name api (trace st) rootDomain) as [response|e]; simpl in *;
    [|done].
  destruct Hname as [-> | Hempty]; [done|].
  destruct (success response); [|done]. by rewrite Hempty.
Qed.

Lemma strategy3_lists_nothing domain rootDomain st :
  strategy3 api domain rootDomain st
  = (Return None, record_event (EvRequest (GetZonesPage 100)) st).
Proof.
  unfold strategy3, try_catch, bind, http, ret.
  destruct (no_zone (trace st)) as (_ & Hpage & _). specialize (Hpage 100).
  destruct (zones_page api (trace st) 100) as [response|e]; simpl in *; [|done].
  destruct Hpage as [-> | Hempty]; [done|].
  destruct (success response); [|done]. rewrite Hempty. simpl.
  by destruct (negb _).
Qed.

Lemma strategy5_unnamed st :
  Js.truthy (accountId st) = false ->
  exists st', strategy5 api st = (Return true, st') /\
              Js.truthy (accountId st') = false /\
              zoneCache st' = zoneCache st.
Proof.
  intros Hunknown. unfold strategy5, try_catch, bind, http, modify, ret, get.
  rewrite Hunknown. simpl.
  destruct (unnamed (trace st)) as [(verified & -> & Hverified) _]. simpl.
  rewrite Hverified.
  destruct (unnamed (trace (record_event (EvRequest GetTokenVerify) st)))
    as [_ (response & account & rest & -> & Hsuccess & Haccounts & Hid)].
  simpl. rewrite Hsuccess, Haccounts. simpl.
  eexists. split; [reflexivity|]. simpl. by rewrite Hid.
Qed.

Lemma discoverZoneId_never_settles fuel domain st :
  Js.truthy (accountId st) = false ->
  zoneCache_get (zoneCache st) (extractRootDomain domain) = None ->
  fst (discoverZoneId api options env fuel domain st) = OutOfFuel.
Proof.
  revert st. induction fuel as [|fuel IH]; intros st Hunknown Hmiss; [reflexivity|].
  cbn [discoverZoneId]. unfold bind at 1, get. rewrite Hmiss.
  unfold bind at 1, strategy1. rewrite no_supplied_zone. unfold ret at 1.
  unfold later_strategies, bind at 1. rewrite strategy2_lists_nothing.
  unfold bind at 1. rewrite strategy3_lists_nothing.
  unfold bind at 1, strategy4, bind at 1, get. simpl. rewrite Hunknown.
  unfold ret at 1, bind at 1.
  destruct (strategy5_unnamed
              (record_event (EvRequest (GetZonesPage 100))
                 (record_event (EvRequest (GetZonesByName (extractRootDomain domain))) st))
              Hunknown) as (st5 & -> & Hunknown5 & Hcache5).
  apply IH; [exact Hunknown5|]. by rewrite Hcache5.
Qed.

End UnnamedAccount.

(** X6.  When no zone is listed anywhere, no zone id was supplied, the
    provider holds no account id (none configured and none discovered so
    far), and the first account the service lists has an empty id, a zone
    discovery that misses the cache never settles: the empty id counts as no
    account, so the provider still holds none and the discovery starts
    itself over at every level. *)
Theorem discovery_loops_on_an_unnamed_account
    (api : Cf.Api) (options : Adaptive.Options) (env : Adaptive.Env)
    (fuel : nat) (domain : string) (st : Adaptive.State) :
  AdaptiveSpec.no_zone_listed api ->
  AdaptiveSpec.unnamed_account api ->
  Js.truthy (Js.or_else (Adaptive.opt_zoneId options) (Adaptive.CLOUDFLARE_ZONE_ID env))
  = false ->
  Js.truthy (Adaptive.accountId st) = false ->
  Adaptive.zoneCache_get (Adaptive.zoneCache st) (Adaptive.extractRootDomain domain) = None ->
  fst (Adaptive.discoverZoneId api options env fuel domain st) = OutOfFuel.
Proof. intros. by apply discoverZoneId_never_settles. Qed.

Lemma discovery_loops_on_an_unnamed_account_witness :
  fst (Adaptive.discoverZoneId Cases.api_unnamed_account Scenario.no_options
         Scenario.no_env 50 "www.example.com"
         (Adaptive.new Scenario.no_options Scenario.no_env))
  = OutOfFuel.
Proof.
  apply discovery_loops_on_an_unnamed_account; try reflexivity.
  - intros t. repeat split; intros; right; reflexivity.
  - intros t. split; [by eexists|]. by eexists _, _, _.
Defined.

(** ** The adaptive provider's record operations *)

Lemma prefix_refl s : String.prefix s s = true.
Proof.
  induction s as [|c s IH]; [reflexivity|].
  simpl. by destruct (ascii_dec c c).
Qed.

Lemma includes_refl s : Js.includes s s = true.
Proof. destruct s; [reflexivity|]. cbn [Js.includes]. by rewrite prefix_refl. Qed.

(** X7.  The record name the adaptive provider sends on create always
    contains the domain: the root name "@" becomes the domain itself, a name
    that already contains the domain is sent as it is, and any other name is
    prefixed to the domain with a dot. *)
Theorem fullName_contains_domain (domain : string) (record : DNSRecord) :
  Js.includes (Adaptive.fullName domain record) domain = true /\
  Js.includes (Cf.body_name (Adaptive.createBody domain record)) domain = true /\
  (rec_name record = "@" -> Adaptive.fullName domain record = domain) /\
  (rec_name record <> "@" -> Js.includes (rec_name record) domain = true ->
     Adaptive.fullName domain record = rec_name record) /\
  (rec_name record <> "@" -> Js.includes (rec_name record) domain = false ->
     Adaptive.fullName domain record = (rec_name record ++ "." ++ domain)%string).
Proof.
  assert (Js.includes (Adaptive.fullName domain record) domain = true) as Hincl.
  { unfold Adaptive.fullName.
    destruct (String.eqb (rec_name record) "@"); [apply includes_refl|].
    destruct (Js.includes (rec_name record) domain) eqn:Hin; [exact Hin|].
    apply includes_app_r, includes_app_r, includes_refl. }
  split; [exact Hincl|]. split; [exact Hincl|]. split; [|split].
  - intros Hroot. unfold Adaptive.fullName. by rewrite Hroot.
  - intros Hname Hin. unfold Adaptive.fullName.
    apply String.eqb_neq in Hname. by rewrite Hname, Hin.
  - intros Hname Hout. unfold Adaptive.fullName.
    apply String.eqb_neq in Hname. by rewrite Hname, Hout.
Qed.

Lemma fullName_contains_domain_witness :
  Adaptive.fullName "example.com" Scenario.root_record = "example.com" /\
  Adaptive.fullName "example.com" Cases.api_record = "api.example.com" /\
  Adaptive.fullName "example.com" Scenario.www_record = "www.example.com".
Proof.
  split; [|split].
  - apply (fullName_contains_domain "example.com" Scenario.root_record). reflexivity.
  - apply (proj1 (proj2 (proj2 (proj2
             (fullName_contains_domain "example.com" Cases.api_record)))));
      [discriminate | reflexivity].
  - apply (proj2 (proj2 (proj2 (proj2
             (fullName_contains_domain "example.com" Scenario.www_record)))));
      [discriminate | reflexivity].
Defined.

Section CreateRecordFacts.
Import Cf Adaptive AdaptiveSpec.
Variable api : Api.
Variable options : Options.
Variable env : Env.

(** One round of [createRecord], case by case. *)
Lemma createRecord_round fuel discovery domain record st :
  createRecord api options env (S fuel) discovery domain record st
  = match discoverZoneId api options env discovery domain (set_discoveryAttempts 0 st) with
    | (OutOfFuel, st1) => (OutOfFuel, st1)
    | (Throw e, st1) => caught api options env fuel discovery domain record e st1
    | (Return zone, st1) =>
        let body := createBody domain record in
        let st2 := record_event (EvRequest (PostRecord zone body)) st1 in
        match post_record api (trace st1) zone body with
        | Failed e => caught api options env fuel discovery domain record e st2
        | Answer response =>
            if success response
            then (Return (toResult true (result response)), st2)
            else caught api options env fuel discovery domain record
                   (Error (Js.or_default (first_error (errors response))
                                         "Failed to create DNS record")) st2
        end
    end.
Proof.
  pose proof (discoverZoneId_post api options env discovery domain
                (set_discoveryAttempts 0 st)) as [Hattempts _].
  cbn [createRecord]. unfold try_catch at 1. unfold bind at 1 2, modify at 1.
  destruct (discoverZoneId api options env discovery domain (set_discoveryAttempts 0 st))
    as [[zone|e|] st1]; simpl in Hattempts.
  - unfold bind at 1, http at 1.
    destruct (post_record api (trace st1) zone (createBody domain record))
      as [response|e]; cbn [settle].
    + destruct (success response); cbn [negb]; [reflexivity|].
      unfold throw at 1, caught, bind at 1, get. cbn [discoveryAttempts record_event].
      rewrite Hattempts. cbn [Nat.ltb Nat.leb andb].
      destruct (Js.includes _ "zone"); cbn [andb]; [|reflexivity].
      unfold bind, modify. simpl. rewrite Hattempts. reflexivity.
    + unfold caught, bind at 1, get. cbn [discoveryAttempts record_event].
      rewrite Hattempts. cbn [Nat.ltb Nat.leb].
      destruct (Js.includes _ "zone"); cbn [andb]; [|reflexivity].
      unfold bind, modify. simpl. rewrite Hattempts. reflexivity.
  - unfold caught, bind at 1, get. rewrite Hattempts. cbn [Nat.ltb Nat.leb].
    destruct (Js.includes _ "zone"); cbn [andb]; [|reflexivity].
    unfold bind, modify. simpl. rewrite Hattempts. reflexivity.
  - reflexivity.
Qed.

Lemma createRecord_raises fuel discovery domain record st e st' :
  createRecord api options env fuel discovery domain record st = (Throw e, st') ->
  exists zone st1 cause,
    zoneCache_get (zoneCache st1) (extractRootDomain domain) = Some zone /\
    st' = record_event (EvRequest (PostRecord zone (createBody domain record))) st1 /\
    (post_record api (trace st1) zone (createBody domain record) = Failed cause \/
     exists response,
       post_record api (trace st1) zone (createBody domain record) = Answer response /\
       success response = false /\
       cause = Error (Js.or_default (first_error (errors response))
                                    "Failed to create DNS record")) /\
    Js.includes (message cause) "zone" = false /\
    e = DNSProviderError ("Failed to create DNS record: " ++ cf_error_text cause)
                         (status_or_500 cause) (Some "cloudflare") /\
    discoveryAttempts st' = 0%nat.
Proof.
  revert st. induction fuel as [|fuel IH]; intros st; [discriminate|].
  rewrite createRecord_round.
  pose proof (discoverZoneId_post api options env discovery domain
                (set_discoveryAttempts 0 st)) as [Hattempts Hpost].
  destruct (discoverZoneId api options env discovery domain (set_discoveryAttempts 0 st))
    as [[zone|cause|] st1]; simpl in Hattempts, Hpost; [| |discriminate].
  - cbv zeta.
    destruct (post_record api (trace st1) zone (createBody domain record))
      as [response|cause] eqn:Hanswer.
    + destruct (success response) eqn:Hsuccess; [discriminate|].
      unfold caught.
      destruct (Js.includes (message (Error _)) "zone") eqn:Hzone; [apply IH|].
      intros [= <- <-]. eexists zone, st1, _.
      split; [exact Hpost|]. split; [reflexivity|].
      split; [right; by exists response|]. by repeat split.
    + unfold caught.
      destruct (Js.includes (message cause) "zone") eqn:Hzone; [apply IH|].
      intros [= <- <-]. exists zone, st1, cause.
      split; [exact Hpost|]. split; [reflexivity|].
      split; [by left|]. by repeat split.
  - subst cause. unfold caught. rewrite zone_not_found_mentions_zone. apply IH.
Qed.

Lemma createRecord_returns fuel discovery domain record st created st' :
  createRecord api options env fuel discovery domain record st = (Return created, st') ->
  exists zone response st1,
    post_record api (trace st1) zone (createBody domain record) = Answer response /\
    success response = true /\
    created = toResult true (result response) /\
    st' = record_event (EvRequest (PostRecord zone (createBody domain record))) st1 /\
    zoneCache_get (zoneCache st1) (extractRootDomain domain) = Some zone.
Proof.
  revert st. induction fuel as [|fuel IH]; intros st; [discriminate|].
  rewrite createRecord_round.
  pose proof (discoverZoneId_post api options env discovery domain
                (set_discoveryAttempts 0 st)) as [_ Hcached].
  assert (forall cause st1,
            caught api options env fuel discovery domain record cause st1 = (Return created, st') ->
            exists zone response st2,
              post_record api (trace st2) zone (createBody domain record) = Answer response /\
              success response = true /\
              created = toResult true (result response) /\
              st' = record_event (EvRequest (PostRecord zone (createBody domain record))) st2 /\
              zoneCache_get (zoneCache st2) (extractRootDomain domain) = Some zone)
    as Hcaught.
  { intros cause st1. unfold caught.
    destruct (Js.includes (message cause) "zone"); [apply IH | discriminate]. }
  destruct (discoverZoneId api options env discovery domain (set_discoveryAttempts 0 st))
    as [[zone|cause|] st1]; simpl in Hcached; [|by apply Hcaught|discriminate].
  cbv zeta.
  destruct (post_record api (trace st1) zone (createBody domain record))
    as [response|cause] eqn:Hpost; [|by apply Hcaught].
  destruct (success response) eqn:Hsuccess; [|by apply Hcaught].
  intros [= <- <-]. by exists zone, response, st1.
Qed.

End CreateRecordFacts.

(** X8.  When the adaptive createRecord gives up, the zone had been
    found: the last request was the POST of the record to the zone cached for
    the root domain, and that POST failed or was answered without success.
    The error raised is a DNSProviderError of the Cloudflare provider built
    from that failure: the message is "Failed to create DNS record: "
    followed by the failure's text, the status is the failure's upstream
    status or 500.  The failure's message does not contain "zone"; in
    particular a failed zone discovery is never what the caller sees. *)
Theorem adaptive_createRecord_gives_up_only_on_other_errors
    (api : Cf.Api) (options : Adaptive.Options) (env : Adaptive.Env)
    (fuel discovery : nat) (domain : string) (record : DNSRecord)
    (st st' : Adaptive.State) (e : JsError) :
  Adaptive.createRecord api options env fuel discovery domain record st = (Throw e, st') ->
  let body := Adaptive.createBody domain record in
  exists zone st1 cause,
    Adaptive.zoneCache_get (Adaptive.zoneCache st1) (Adaptive.extractRootDomain domain)
    = Some zone /\
    st' = Adaptive.record_event (Cf.EvRequest (Cf.PostRecord zone body)) st1 /\
    (Cf.post_record api (Adaptive.trace st1) zone body = Failed cause \/
     exists response,
       Cf.post_record api (Adaptive.trace st1) zone body = Answer response /\
       Cf.success response = false /\
       cause = Error (Js.or_default (first_error (Cf.errors response))
                                    "Failed to create DNS record")) /\
    Js.includes (message cause) "zone" = false /\
    e = DNSProviderError ("Failed to create DNS record: " ++ cf_error_text cause)
                         (status_or_500 cause) (Some "cloudflare") /\
    (forall rootDomain attempts, cause <> Adaptive.zone_not_found rootDomain attempts) /\
    Adaptive.discoveryAttempts st' = 0%nat.
Proof.
  intros Hrun body.
  destruct (createRecord_raises api options env _ _ _ _ _ _ _ Hrun)
    as (zone & st1 & cause & Hcached & Hstate & Hcause & Hzone & He & Hzero).
  exists zone, st1, cause. repeat split; try done.
  intros rootDomain attempts ->.
  by rewrite zone_not_found_mentions_zone in Hzone.
Qed.

Lemma adaptive_createRecord_gives_up_only_on_other_errors_witness :
  exists st',
    Adaptive.createRecord Cases.api_rejects_record Scenario.no_options Scenario.no_env
      3 2 "example.com" Scenario.www_record
      (Adaptive.new Scenario.no_options Scenario.no_env)
    = (Throw (DNSProviderError "Failed to create DNS record: Invalid IP address"
                               400 (Some "cloudflare")), st') /\
    Adaptive.discoveryAttempts st' = 0%nat.
Proof.
  eexists. split; [reflexivity|].
  edestruct (adaptive_createRecord_gives_up_only_on_other_errors
               Cases.api_rejects_record Scenario.no_options Scenario.no_env
               3 2 "example.com" Scenario.www_record
               (Adaptive.new Scenario.no_options Scenario.no_env))
    as (zone & st1 & cause & _ & _ & _ & _ & _ & _ & Hzero); [reflexivity|exact Hzero].
Defined.

(** X9.  When the adaptive createRecord returns, its last request was the
    POST of the record's body to the zone cached for the root domain, the
    service answered it with success, and the result is that answer's record;
    a zone discovery for the domain right afterwards is answered from the
    cache with no request. *)
Theorem adaptive_createRecord_returns_the_posted_record
    (api : Cf.Api) (options : Adaptive.Options) (env : Adaptive.Env)
    (fuel discovery again : nat) (domain : string) (record : DNSRecord)
    (st st' : Adaptive.State) (created : DNSRecordResult) :
  Adaptive.createRecord api options env fuel discovery domain record st
  = (Return created, st') ->
  exists zone response st1,
    Cf.post_record api (Adaptive.trace st1) zone (Adaptive.createBody domain record)
    = Answer response /\
    Cf.success response = true /\
    created = Cf.toResult true (Cf.result response) /\
    Adaptive.trace st'
    = Cf.EvRequest (Cf.PostRecord zone (Adaptive.createBody domain record))
      :: Adaptive.trace st1 /\
    Adaptive.discoverZoneId api options env (S again) domain st' = (Return zone, st').
Proof.
  intros Hrun.
  destruct (createRecord_returns api options env _ _ _ _ _ _ _ Hrun)
    as (zone & response & st1 & Hpost & Hsuccess & Hcreated & -> & Hcached).
  exists zone, response, st1. repeat split; try done.
  by apply discoverZoneId_hit.
Qed.

Lemma adaptive_createRecord_returns_the_posted_record_witness :
  exists created st',
    Adaptive.createRecord Scenario.api_example Scenario.no_options Scenario.no_env
      1 1 "example.com" Scenario.www_record
      (Adaptive.new Scenario.no_options Scenario.no_env)
    = (Return created, st') /\
    res_name created = "www.example.com" /\
    exists zone,
      Adaptive.discoverZoneId Scenario.api_example Scenario.no_options Scenario.no_env
        1 "example.com" st' = (Return zone, st').
Proof.
  eexists _, _. split; [reflexivity|]. split; [reflexivity|].
  edestruct (adaptive_createRecord_returns_the_posted_record
               Scenario.api_example Scenario.no_options Scenario.no_env 1 1 0
               "example.com" Scenario.www_record
               (Adaptive.new Scenario.no_options Scenario.no_env))
    as (zone & response & st1 & _ & _ & _ & _ & Hhit); [reflexivity|].
  exists zone. exact Hhit.
Defined.

(** X10.  In the adaptive provider listRecords, updateRecord and
    deleteRecord do not retry: a failed zone discovery is raised at once, as
    a DNSProviderError of the Cloudflare provider with status 500 (the 404
    of the discovery error is not carried over) whose message embeds the
    discovery message; no write request is sent and the cache is left as the
    discovery left it. *)
Theorem adaptive_operations_report_failed_discovery_as_500
    (api : Cf.Api) (wapi : CfWrite.Api) (options : Adaptive.Options) (env : Adaptive.Env)
    (fuel : nat) (domain recordId : string) (type : option string)
    (updates : PartialRecord) (st st1 : Adaptive.State) (writes : list CfWrite.Write)
    (e : JsError) :
  Adaptive.discoverZoneId api options env fuel domain st = (Throw e, st1) ->
  let failure what :=
    DNSProviderError (what ++ message e) 500 (Some "cloudflare") in
  statusCode e = Some 404 /\
  Adaptive.listRecords api options env fuel domain type st
  = (Throw (failure "Failed to list DNS records: "), st1) /\
  AdaptiveOps.updateRecord api wapi options env fuel domain recordId updates (st, writes)
  = (Throw (failure "Failed to update DNS record: "), (st1, writes)) /\
  AdaptiveOps.deleteRecord api wapi options env fuel domain recordId (st, writes)
  = (Throw (failure "Failed to delete DNS record: "), (st1, writes)) /\
  Adaptive.zoneCache st1 = Adaptive.zoneCache st.
Proof.
  intros Hrun failure.
  pose proof (discoverZoneId_post api options env fuel domain st) as [_ He].
  pose proof (discoverZoneId_frame api options env fuel domain st) as [Hcache _].
  rewrite Hrun in He, Hcache. simpl in He, Hcache.
  split; [by rewrite He|].
  assert (cf_error_text e = message e /\ status_or_500 e = 500) as [Htext Hstatus]
    by (by rewrite He).
  repeat split.
  - unfold Adaptive.listRecords, try_catch, bind, throw. rewrite Hrun.
    unfold failure. by rewrite Htext, Hstatus.
  - unfold AdaptiveOps.updateRecord, try_catch, bind, throw, CfWrite.on_fst.
    simpl. rewrite Hrun. unfold failure. by rewrite Htext, Hstatus.
  - unfold AdaptiveOps.deleteRecord, try_catch, bind, throw, CfWrite.on_fst.
    simpl. rewrite Hrun. unfold failure. by rewrite Htext, Hstatus.
  - exact Hcache.
Qed.

Lemma adaptive_operations_report_failed_discovery_as_500_witness :
  exists e st1,
    Adaptive.listRecords Scenario.api_no_zone Scenario.no_options Scenario.no_env
      1 "www.example.com" None (Adaptive.new Scenario.no_options Scenario.no_env)
    = (Throw e, st1) /\
    statusCode e = Some 500.
Proof.
  edestruct (fun st1 e =>
               adaptive_operations_report_failed_discovery_as_500
                 Scenario.api_no_zone Cases.writes_refused Scenario.no_options
                 Scenario.no_env 1 "www.example.com" "rec-1" None
                 {| upd_name := None; upd_data := None; upd_ttl := None;
                    upd_priority := None |}
                 (Adaptive.new Scenario.no_options Scenario.no_env) st1 [] e)
    as (_ & Hlist & _); [reflexivity|].
  eexists _, _. split; [exact Hlist | reflexivity].
Defined.

(** ** Deployment setup *)

Section DeploymentFacts.
Import Cf Adaptive AdaptiveOps.
Variable api : Api.
Variable options : Options.
Variable env : Env.




End DeploymentFacts.


Lemma setupDeploymentDNS_accounts_for_every_creation_example :
  let opts := Some {| AdaptiveOps.includeWWW := Some true;
                      AdaptiveOps.includeMail := None;
                      AdaptiveOps.customSubdomains := Some ["api"] |} in
  fst (AdaptiveOps.setupDeploymentDNS Cases.api_rejects_record Scenario.no_options
         Scenario.no_env 2 1 "example.com" "300.1.1.1" opts
         (Adaptive.new Scenario.no_options Scenario.no_env))
  = Return
      ([], "Created 0 DNS records for example.com pointing to 300.1.1.1. Errors: Root A record: Failed to create DNS record: Invalid IP address, WWW record: Failed to create DNS record: Invalid IP address, api record: Failed to create DNS record: Invalid IP address").
Proof. reflexivity. Qed.

(** ** The basic Cloudflare provider *)

(** X12.  The basic Cloudflare provider's getZoneId is decided by the
    answer to its name lookup for the root domain, and always settles.  When
    the lookup lists zones it returns the id of the first one, after that
    one request.  In every other case it raises a DNSProviderError of the
    Cloudflare provider whose message is "Failed to get zone ID for
    <domain>: " followed by the reason: a failed lookup gives its message and
    its upstream status (500 when there is none), after one request; a
    lookup answered without success gives its first error text with status
    500, after one request; a lookup that lists no zone gives "Zone not found
    for domain: <root>. ..." with status 500, after two requests, the second
    being a zone listing whose answer is only logged. *)
Theorem cloudflare_getZoneId_outcome (api : Cf.Api) (domain : string) (t : Cf.Trace) :
  let root := Cloudflare.extractRootDomain domain in
  let asked := Cf.EvRequest (Cf.GetZonesByName root) :: t in
  let failure text code :=
    DNSProviderError ("Failed to get zone ID for " ++ domain ++ ": " ++ text) code
                     (Some "cloudflare") in
  (forall response first rest,
     Cf.zones_by_name api t root = Answer response ->
     Cf.success response = true ->
     Cf.result response = first :: rest ->
     Cloudflare.getZoneId api domain t = (Return (Cf.zone_id first), asked)) /\
  (forall cause,
     Cf.zones_by_name api t root = Failed cause ->
     Cloudflare.getZoneId api domain t
     = (Throw (failure (message cause)
                 (match response_status cause with
                  | Some code => if code =? 0 then 500 else code
                  | None => 500
                  end)), asked)) /\
  (forall response,
     Cf.zones_by_name api t root = Answer response ->
     Cf.success response = false ->
     Cloudflare.getZoneId api domain t
     = (Throw (failure (Js.or_default (first_error (Cf.errors response))
                                      "Unknown Cloudflare API error") 500), asked)) /\
  (forall response,
     Cf.zones_by_name api t root = Answer response ->
     Cf.success response = true ->
     Cf.result response = [] ->
     Cloudflare.getZoneId api domain t
     = (Throw (failure ("Zone not found for domain: " ++ root ++
                        ". Make sure the domain is added to your Cloudflare account.")
                       500),
        Cf.EvRequest (Cf.GetZonesPage 50) :: asked)) /\
  (forall zone t',
     Cloudflare.getZoneId api domain t = (Return zone, t') ->
     exists response first rest,
       Cf.zones_by_name api t root = Answer response /\
       Cf.success response = true /\
       Cf.result response = first :: rest /\
       zone = Cf.zone_id first /\
       t' = asked) /\
  fst (Cloudflare.getZoneId api domain t) <> OutOfFuel.
Proof.
  cbv zeta.
  unfold Cloudflare.getZoneId, try_catch, bind, Cloudflare.http, throw, ret.
  destruct (Cf.zones_by_name api t _) as [response|cause] eqn:Hlookup; simpl.
  2: { split; [done|]. split; [by intros ? [= <-]|]. by repeat split. }
  destruct (Cf.success response) eqn:Hsuccess; simpl.
  2: { split; [by intros ? ? ? [= <-] Hs; rewrite Hsuccess in Hs|].
       split; [done|]. split; [by intros ? [= <-] _|].
       split; [by intros ? [= <-] Hs; rewrite Hsuccess in Hs|]. by split. }
  destruct (Cf.result response) as [|first rest] eqn:Hresult; simpl.
  - destruct (Cf.zones_page api _ 50) as [listing|e]; simpl.
    + split; [by intros ? ? ? [= <-] _ Hr; rewrite Hresult in Hr|].
      split; [done|]. split; [by intros ? [= <-] Hs; rewrite Hsuccess in Hs|].
      split; [done|]. by split.
    + split; [by intros ? ? ? [= <-] _ Hr; rewrite Hresult in Hr|].
      split; [done|]. split; [by intros ? [= <-] Hs; rewrite Hsuccess in Hs|].
      split; [done|]. by split.
  - split.
    { intros response' first' rest' [= <-] _ Hr. rewrite Hresult in Hr.
      by injection Hr as <- <-. }
    split; [done|]. split; [by intros ? [= <-] Hs; rewrite Hsuccess in Hs|].
    split; [by intros ? [= <-] _ Hr; rewrite Hresult in Hr|].
    split; [|done].
    intros zone t' [= <- <-]. by exists response, first, rest.
Qed.

Lemma cloudflare_getZoneId_outcome_witness :
  Cloudflare.getZoneId Scenario.api_example "www.example.com" []
  = (Return (Cf.zone_id Scenario.example_zone),
     [Cf.EvRequest (Cf.GetZonesByName "example.com")]).
Proof.
  eapply (proj1 (cloudflare_getZoneId_outcome Scenario.api_example "www.example.com" []));
    reflexivity.
Defined.

(** X13.  In the basic Cloudflare provider the upstream status of a failed
    zone lookup survives in getZoneId's own error but not in the operations
    built on it: createRecord, updateRecord, deleteRecord, listRecords and
    getZoneInfo all report status 500 for it, whatever the lookup's status
    was, and send no further request. *)
Theorem cloudflare_operations_lose_the_lookup_status
    (api : Cf.Api) (wapi : CfWrite.Api) (domain recordId : string)
    (record : DNSRecord) (updates : PartialRecord) (type : option string)
    (t : Cf.Trace) (writes : list CfWrite.Write) (cause : JsError) :
  Cf.zones_by_name api t (Cloudflare.extractRootDomain domain) = Failed cause ->
  let lookup := ("Failed to get zone ID for " ++ domain ++ ": " ++ message cause)%string in
  let t' := Cf.EvRequest (Cf.GetZonesByName (Cloudflare.extractRootDomain domain)) :: t in
  let failure what := DNSProviderError (what ++ lookup) 500 (Some "cloudflare") in
  Cloudflare.getZoneId api domain t
  = (Throw (DNSProviderError lookup (status_or_500 cause) (Some "cloudflare")), t') /\
  CloudflareOps.createRecord api domain record t
  = (Throw (failure "Failed to create DNS record: "), t') /\
  CloudflareOps.updateRecord api wapi domain recordId updates (t, writes)
  = (Throw (failure "Failed to update DNS record: "), (t', writes)) /\
  CloudflareOps.deleteRecord api wapi domain recordId (t, writes)
  = (Throw (failure "Failed to delete DNS record: "), (t', writes)) /\
  Cloudflare.listRecords api domain type t
  = (Throw (failure "Failed to list DNS records: "), t') /\
  CloudflareOps.getZoneInfo api domain t
  = (Throw (failure "Failed to get zone info: "), t').
Proof.
  intros Hfailed lookup t' failure.
  assert (Cloudflare.getZoneId api domain t
          = (Throw (DNSProviderError lookup (status_or_500 cause) (Some "cloudflare")), t'))
    as Hzone.
  { unfold Cloudflare.getZoneId, try_catch, bind, Cloudflare.http, throw.
    by rewrite Hfailed. }
  split; [exact Hzone|].
  repeat split.
  - unfold CloudflareOps.createRecord, try_catch, bind, throw. by rewrite Hzone.
  - unfold CloudflareOps.updateRecord, try_catch, bind, throw, CfWrite.on_fst.
    simpl. by rewrite Hzone.
  - unfold CloudflareOps.deleteRecord, try_catch, bind, throw, CfWrite.on_fst.
    simpl. by rewrite Hzone.
  - unfold Cloudflare.listRecords, try_catch, bind, throw. by rewrite Hzone.
  - unfold CloudflareOps.getZoneInfo, try_catch, bind, throw. by rewrite Hzone.
Qed.

Lemma cloudflare_operations_lose_the_lookup_status_witness :
  fst (Cloudflare.getZoneId Scenario.api_forbidden "www.example.com" [])
  = Throw (DNSProviderError
             "Failed to get zone ID for www.example.com: Request failed with status code 403"
             403 (Some "cloudflare")) /\
  fst (Cloudflare.listRecords Scenario.api_forbidden "www.example.com" None [])
  = Throw (DNSProviderError
             "Failed to list DNS records: Failed to get zone ID for www.example.com: Request failed with status code 403"
             500 (Some "cloudflare")).
Proof.
  destruct (cloudflare_operations_lose_the_lookup_status
              Scenario.api_forbidden Cases.writes_refused "www.example.com" "rec-1"
              Scenario.www_record
              {| upd_name := None; upd_data := None; upd_ttl := None; upd_priority := None |}
              None [] [] (Scenario.http_error 403) eq_refl)
    as (Hzone & _ & _ & _ & Hlist & _).
  rewrite Hzone, Hlist. split; reflexivity.
Defined.

(** ** Resolver queries *)

Lemma queryDNSServer_fulfilled
    (doh : Cloudflare.Doh) (domain recordType server value : string) :
  Cloudflare.queryDNSServer doh domain recordType server = Return value ->
  exists data answers answer,
    doh domain recordType server = Answer data /\
    Cloudflare.doh_Status data = Some 0 /\
    Cloudflare.doh_Answer data = Some answers /\
    find (fun a => bool_decide (Some (Cloudflare.ans_type a)
                                = Cloudflare.getRecordTypeNumber recordType)) answers
    = Some answer /\
    Cloudflare.ans_data answer = value.
Proof.
  unfold Cloudflare.queryDNSServer.
  destruct (doh domain recordType server) as [data|e]; [|discriminate].
  destruct (bool_decide (Cloudflare.doh_Status data = Some 0)) eqn:Hstatus;
    [|discriminate].
  apply bool_decide_eq_true in Hstatus.
  destruct (Cloudflare.doh_Answer data) as [answers|] eqn:Hanswers; [|discriminate].
  simpl. destruct (0 <? length answers)%nat; [|discriminate].
  destruct (find _ answers) as [answer|] eqn:Hfind; [|discriminate].
  intros [= <-]. by exists data, answers, answer.
Qed.

(** X14.  A resolver query of the Cloudflare provider that is fulfilled
    returns the data of the first answer whose type is the numeric code of
    the requested record type, from a response with status 0; in every
    other case the query is rejected. *)
Theorem queryDNSServer_returns_first_answer_of_type
    (doh : Cloudflare.Doh) (domain recordType server value : string) :
  Cloudflare.queryDNSServer doh domain recordType server = Return value <->
  exists data answers answer,
    doh domain recordType server = Answer data /\
    Cloudflare.doh_Status data = Some 0 /\
    Cloudflare.doh_Answer data = Some answers /\
    find (fun a => bool_decide (Some (Cloudflare.ans_type a)
                                = Cloudflare.getRecordTypeNumber recordType)) answers
    = Some answer /\
    Cloudflare.ans_data answer = value.
Proof.
  split; [apply queryDNSServer_fulfilled|].
  unfold Cloudflare.queryDNSServer.
  - intros (data & answers & answer & -> & Hstatus & Hanswers & Hfind & <-).
    rewrite Hanswers. simpl. rewrite bool_decide_eq_true_2 by done. simpl.
    destruct answers as [|first rest]; [discriminate|]. simpl.
    simpl in Hfind. by rewrite Hfind.
Qed.

Lemma queryDNSServer_returns_first_answer_of_type_witness :
  Cloudflare.queryDNSServer Cases.doh_constant "example.com" "A" "8.8.8.8"
  = Return "203.0.113.5".
Proof.
  apply (proj2 (queryDNSServer_returns_first_answer_of_type Cases.doh_constant
                  "example.com" "A" "8.8.8.8" "203.0.113.5")).
  eexists _, _, _. repeat split; reflexivity.
Defined.

Lemma matching_queries_uniform (doh : Cloudflare.Doh) domain recordType expected :
  (forall server server', doh domain recordType server = doh domain recordType server') ->
  Cloudflare.matching_queries doh domain recordType expected
  = match Cloudflare.queryDNSServer doh domain recordType "8.8.8.8" with
    | Return value => if bool_decide (value = expected) then 3%nat else 0%nat
    | _ => 0%nat
    end.
Proof.
  intros Hsame.
  assert (forall server, Cloudflare.queryDNSServer doh domain recordType server
                         = Cloudflare.queryDNSServer doh domain recordType "8.8.8.8") as Hq.
  { intros server. unfold Cloudflare.queryDNSServer.
    by rewrite (Hsame server "8.8.8.8"). }
  unfold Cloudflare.matching_queries, Cloudflare.dnsServers. cbn [List.filter].
  rewrite (Hq "1.1.1.1"), (Hq "208.67.222.222").
  destruct (Cloudflare.queryDNSServer doh domain recordType "8.8.8.8") as [value| |];
    [|reflexivity|reflexivity].
  by destruct (bool_decide (value = expected)).
Qed.

(** X15.  The three resolver queries of a propagation check carry the same
    name and type and no server, so a resolver that answers the same request
    the same way decides the check alone: the check is true exactly when
    that one answer is the expected value, and all three queries agree. *)
Theorem propagation_quorum_is_unanimous_for_a_uniform_resolver
    (doh : Cloudflare.Doh) (S : Type) (domain recordType expected : string) (s : S) :
  (forall server server', doh domain recordType server = doh domain recordType server') ->
  (Cloudflare.matching_queries doh domain recordType expected = 0%nat \/
   Cloudflare.matching_queries doh domain recordType expected = 3%nat) /\
  Cloudflare.checkPropagation doh domain recordType expected s
  = (Return (match Cloudflare.queryDNSServer doh domain recordType "8.8.8.8" with
             | Return value => bool_decide (value = expected)
             | _ => false
             end), s).
Proof.
  intros Hsame. rewrite checkPropagation_count.
  rewrite (matching_queries_uniform doh domain recordType expected Hsame).
  destruct (Cloudflare.queryDNSServer doh domain recordType "8.8.8.8") as [value| |];
    [|split; [by left|reflexivity]|split; [by left|reflexivity]].
  destruct (bool_decide (value = expected));
    [split; [by right|reflexivity] | split; [by left|reflexivity]].
Qed.

Lemma propagation_quorum_is_unanimous_for_a_uniform_resolver_witness :
  Cloudflare.checkPropagation Cases.doh_constant "example.com" "A" "203.0.113.5" tt
  = (Return true, tt) /\
  Cloudflare.checkPropagation Cases.doh_constant "example.com" "A" "203.0.113.6" tt
  = (Return false, tt).
Proof.
  split.
  - apply (propagation_quorum_is_unanimous_for_a_uniform_resolver Cases.doh_constant unit
             "example.com" "A" "203.0.113.5" tt). reflexivity.
  - apply (propagation_quorum_is_unanimous_for_a_uniform_resolver Cases.doh_constant unit
             "example.com" "A" "203.0.113.6" tt). reflexivity.
Defined.

(** ** The DigitalOcean provider *)

Section DigitalOceanFacts.
Import DigitalOcean DigitalOceanSpec.
Variable api : Api.

Lemma wrap_one_request {A B} what req (endpoint : Trace -> HttpResult A) (f : A -> B) t :
  one_request what req (endpoint t) f t
    (wrap what (x <- http req endpoint ;; ret (f x))%js t).
Proof.
  unfold one_request, wrap, try_catch, bind, http, ret, throw.
  destruct (endpoint t) as [payload|cause]; simpl; [done|].
  unfold do_error_text, status_or_500, response_status, Js.num_or.
  by destruct (response cause).
Qed.

Lemma wrap_one_request_plain {A} what req (endpoint : Trace -> HttpResult A) t :
  one_request what req (endpoint t) (fun payload => payload) t
    (wrap what (http req endpoint) t).
Proof.
  unfold one_request, wrap, try_catch, http, throw.
  destruct (endpoint t) as [payload|cause]; simpl; [done|].
  unfold do_error_text, status_or_500, response_status, Js.num_or.
  by destruct (response cause).
Qed.

End DigitalOceanFacts.

(** X16.  Every record operation of the DigitalOcean provider sends
    exactly one request and settles as the service's answer to that request
    decides.  An answer is returned: the record, or the records, mapped to
    results for create, update and list.  A failure is raised as a
    DNSProviderError of the DigitalOcean provider whose message is the
    operation's prefix followed by the failure's text (the message of the
    response body when there is one, the error's own message otherwise) and
    whose status is the failure's upstream status, or 500 when there is none
    or it is 0; so the status is never 0, and a 404 answer to a delete is
    raised as a 404 error. *)
Theorem digitalocean_operations_send_one_request
    (api : DigitalOcean.Api) (domain recordId : string) (record : DNSRecord)
    (updates : PartialRecord) (type : option string) (t : DigitalOcean.Trace) :
  let type_param :=
    if Js.truthy type && negb (bool_decide (type = Some "ALL")) then type else None in
  DigitalOceanSpec.one_request "Failed to create DNS record: "
    (DigitalOcean.PostRecord domain (DigitalOcean.createBody record))
    (DigitalOcean.post_record api t domain (DigitalOcean.createBody record))
    DigitalOcean.toResult t
    (DigitalOcean.createRecord api domain record t) /\
  DigitalOceanSpec.one_request "Failed to update DNS record: "
    (DigitalOcean.PutRecord domain recordId (DigitalOcean.updateBody updates))
    (DigitalOcean.put_record api t domain recordId (DigitalOcean.updateBody updates))
    DigitalOcean.toResult t
    (DigitalOcean.updateRecord api domain recordId updates t) /\
  DigitalOceanSpec.one_request "Failed to delete DNS record: "
    (DigitalOcean.DeleteRecord domain recordId)
    (DigitalOcean.delete_record api t domain recordId)
    (fun done : unit => done) t
    (DigitalOcean.deleteRecord api domain recordId t) /\
  DigitalOceanSpec.one_request "Failed to list DNS records: "
    (DigitalOcean.GetRecords domain 200 type_param)
    (DigitalOcean.get_records api t domain 200 type_param)
    (map DigitalOcean.toResult) t
    (DigitalOcean.listRecords api domain type t) /\
  DigitalOceanSpec.one_request "Failed to get domain info: "
    (DigitalOcean.GetDomain domain)
    (DigitalOcean.get_domain api t domain)
    (fun info : unit => info) t
    (DigitalOceanOps.getDomainInfo api domain t) /\
  (forall e t',
     (DigitalOcean.createRecord api domain record t = (Throw e, t') \/
      DigitalOcean.updateRecord api domain recordId updates t = (Throw e, t') \/
      DigitalOcean.deleteRecord api domain recordId t = (Throw e, t') \/
      DigitalOcean.listRecords api domain type t = (Throw e, t') \/
      DigitalOceanOps.getDomainInfo api domain t = (Throw e, t')) ->
     exists code, statusCode e = Some code /\ code <> 0 /\
                  provider e = Some "digitalocean") /\
  (forall cause,
     DigitalOcean.delete_record api t domain recordId = Failed cause ->
     response_status cause = Some 404 ->
     exists e, DigitalOcean.deleteRecord api domain recordId t
               = (Throw e, DigitalOcean.DeleteRecord domain recordId :: t) /\
               statusCode e = Some 404).
Proof.
  intros type_param.
  pose proof (wrap_one_request "Failed to create DNS record: "
                (DigitalOcean.PostRecord domain (DigitalOcean.createBody record))
                (fun t => DigitalOcean.post_record api t domain
                            (DigitalOcean.createBody record))
                DigitalOcean.toResult t) as Hcreate.
  pose proof (wrap_one_request "Failed to update DNS record: "
                (DigitalOcean.PutRecord domain recordId (DigitalOcean.updateBody updates))
                (fun t => DigitalOcean.put_record api t domain recordId
                            (DigitalOcean.updateBody updates))
                DigitalOcean.toResult t) as Hupdate.
  pose proof (wrap_one_request_plain "Failed to delete DNS record: "
                (DigitalOcean.DeleteRecord domain recordId)
                (fun t => DigitalOcean.delete_record api t domain recordId) t) as Hdelete.
  pose proof (wrap_one_request "Failed to list DNS records: "
                (DigitalOcean.GetRecords domain 200 type_param)
                (fun t => DigitalOcean.get_records api t domain 200 type_param)
                (map DigitalOcean.toResult) t) as Hlist.
  pose proof (wrap_one_request_plain "Failed to get domain info: "
                (DigitalOcean.GetDomain domain)
                (fun t => DigitalOcean.get_domain api t domain) t) as Hinfo.
  assert (forall A B what req (answer : HttpResult A) (f : A -> B) r e t',
            DigitalOceanSpec.one_request what req answer f t r ->
            r = (Throw e, t') ->
            exists code, statusCode e = Some code /\ code <> 0 /\
                         provider e = Some "digitalocean") as Hraised.
  { intros A B what req answer f r e t' Hone Hr.
    unfold DigitalOceanSpec.one_request in Hone. rewrite Hr in Hone.
    destruct answer as [payload|cause]; [discriminate|].
    injection Hone as -> _. eexists. split; [reflexivity|]. split; [|reflexivity].
    destruct (response cause) as [body|]; [|done].
    destruct (status body =? 0) eqn:Hzero; [done|]. by apply Z.eqb_neq. }
  split; [exact Hcreate|]. split; [exact Hupdate|]. split; [exact Hdelete|].
  split; [exact Hlist|]. split; [exact Hinfo|]. split.
  - intros e t' [Hr|[Hr|[Hr|[Hr|Hr]]]].
    + exact (Hraised _ _ _ _ _ _ _ _ _ Hcreate Hr).
    + exact (Hraised _ _ _ _ _ _ _ _ _ Hupdate Hr).
    + exact (Hraised _ _ _ _ _ _ _ _ _ Hdelete Hr).
    + exact (Hraised _ _ _ _ _ _ _ _ _ Hlist Hr).
    + exact (Hraised _ _ _ _ _ _ _ _ _ Hinfo Hr).
  - intros cause Hfailed Hstatus.
    unfold DigitalOcean.deleteRecord, DigitalOcean.wrap, try_catch, DigitalOcean.http, throw.
    rewrite Hfailed. simpl. eexists. split; [reflexivity|].
    simpl. unfold status_or_500. by rewrite Hstatus.
Qed.

Lemma digitalocean_operations_send_one_request_witness :
  exists e,
    DigitalOcean.deleteRecord Scenario.do_missing "example.com" "42" []
    = (Throw e, [DigitalOcean.DeleteRecord "example.com" "42"]) /\
    statusCode e = Some 404.
Proof.
  apply (proj2 (proj2 (proj2 (proj2 (proj2 (proj2
           (digitalocean_operations_send_one_request Scenario.do_missing
              "example.com" "42" Scenario.www_record
              {| upd_name := None; upd_data := None; upd_ttl := None; upd_priority := None |}
              None []))))))
           (Scenario.http_error 404)); reflexivity.
Defined.

Lemma matchingAnswers_nonempty (recordType expected : string)
    (answers : list Cloudflare.DohAnswer) :
  (0 <? length (DigitalOceanOps.matchingAnswers recordType expected answers))%nat = true <->
  exists answer,
    In answer answers /\
    Some (Cloudflare.ans_type answer) = DigitalOceanOps.getRecordTypeNumber recordType /\
    Cloudflare.ans_data answer = expected.
Proof.
  unfold DigitalOceanOps.matchingAnswers. rewrite Nat.ltb_lt. split.
  - intros Hlen.
    destruct (List.filter _ answers) as [|answer rest] eqn:Hfilter; [simpl in Hlen; lia|].
    assert (In answer (List.filter
              (fun a => bool_decide (Some (Cloudflare.ans_type a)
                                     = DigitalOceanOps.getRecordTypeNumber recordType)
                        && String.eqb (Cloudflare.ans_data a) expected) answers))
      as Hin by (rewrite Hfilter; by left).
    apply filter_In in Hin as [Hin Hok]. apply andb_true_iff in Hok as [Htype Hdata].
    exists answer. split; [exact Hin|]. split.
    + by apply bool_decide_eq_true in Htype.
    + by apply String.eqb_eq.
  - intros (answer & Hin & Htype & Hdata).
    assert (In answer (List.filter
              (fun a => bool_decide (Some (Cloudflare.ans_type a)
                                     = DigitalOceanOps.getRecordTypeNumber recordType)
                        && String.eqb (Cloudflare.ans_data a) expected) answers))
      as Hkept.
    { apply filter_In. split; [exact Hin|]. apply andb_true_iff. split.
      - by apply bool_decide_eq_true.
      - by apply String.eqb_eq. }
    destruct (List.filter _ answers); [done | simpl; lia].
Qed.

(** X17.  The DigitalOcean provider's propagation check never raises.  It
    is true exactly when the resolver answered with status 0 and some answer
    has both the numeric code of the requested type and the expected value;
    a failed request, another status, or no such answer give false. *)
Theorem digitalocean_checkPropagation_any_matching_answer
    (doh : DigitalOceanOps.Doh) (S : Type) (domain recordType expected : string) (s : S) :
  exists propagated : bool,
    DigitalOceanOps.checkPropagation doh domain recordType expected s
    = (Return propagated, s) /\
    (propagated = true <->
     exists data answers answer,
       doh domain recordType = Answer data /\
       Cloudflare.doh_Status data = Some 0 /\
       Cloudflare.doh_Answer data = Some answers /\
       In answer answers /\
       Some (Cloudflare.ans_type answer) = DigitalOceanOps.getRecordTypeNumber recordType /\
       Cloudflare.ans_data answer = expected).
Proof.
  unfold DigitalOceanOps.checkPropagation, try_catch, bind, ret.
  destruct (doh domain recordType) as [data|e] eqn:Hdoh; simpl.
  2: { exists false. split; [reflexivity|]. split; [discriminate|].
       by intros (? & ? & ? & [=] & _). }
  destruct (bool_decide (Cloudflare.doh_Status data = Some 0)) eqn:Hstatus; simpl.
  2: { exists false. split; [reflexivity|]. split; [discriminate|].
       intros (? & ? & ? & [= <-] & Hzero & _).
       apply bool_decide_eq_false in Hstatus. done. }
  apply bool_decide_eq_true in Hstatus.
  destruct (Cloudflare.doh_Answer data) as [answers|] eqn:Hanswers; simpl.
  2: { exists false. split; [reflexivity|]. split; [discriminate|].
       intros (? & ? & ? & [= <-] & _ & Ha & _). by rewrite Hanswers in Ha. }
  pose proof (matchingAnswers_nonempty recordType expected answers) as Hmatch.
  destruct (0 <? length answers)%nat eqn:Hsome; simpl.
  - eexists. split; [reflexivity|]. rewrite Hmatch. split.
    + intros (answer & ? & ? & ?). by exists data, answers, answer.
    + intros (data' & answers' & answer & [= <-] & _ & Ha & ? & ? & ?).
      rewrite Hanswers in Ha. injection Ha as <-. by exists answer.
  - exists false. split; [reflexivity|]. split; [discriminate|].
    intros (data' & answers' & answer & [= <-] & _ & Ha & Hin & _).
    rewrite Hanswers in Ha. injection Ha as <-.
    apply Nat.ltb_ge in Hsome. destruct answers; [done | simpl in Hsome; lia].
Qed.

(** X18.  On the same resolver response the two propagation checks can
    differ: whenever the Cloudflare provider's query yields the expected
    value, the DigitalOcean provider's check is true; but DigitalOcean
    accepts the expected value in any answer of the type, while a Cloudflare
    query only reads the first one, so a second A answer is propagated for
    the one and not for the other. *)
Theorem digitalocean_check_accepts_what_cloudflare_query_returns
    (doh : DigitalOceanOps.Doh) (S : Type) (domain recordType server expected : string)
    (s : S) :
  (Cloudflare.queryDNSServer (fun name type _ => doh name type) domain recordType server
   = Return expected ->
   DigitalOceanOps.checkPropagation doh domain recordType expected s = (Return true, s)) /\
  DigitalOceanOps.checkPropagation Cases.doh_single "example.com" "A" "203.0.113.6" s
  = (Return true, s) /\
  Cloudflare.checkPropagation (fun name type _ => Cases.doh_single name type)
    "example.com" "A" "203.0.113.6" s
  = (Return false, s).
Proof.
  split; [|split; reflexivity].
  intros Hquery.
  apply queryDNSServer_fulfilled in Hquery
    as (data & answers & answer & Hdoh & Hstatus & Hanswers & Hfind & Hdata).
  apply find_some in Hfind as [Hin Htype]. apply bool_decide_eq_true in Htype.
  unfold DigitalOceanOps.checkPropagation, try_catch, bind, ret.
  rewrite Hdoh. simpl. rewrite Hanswers, bool_decide_eq_true_2 by done. simpl.
  assert ((0 <? length answers)%nat = true) as ->
    by (destruct answers; [done | reflexivity]).
  simpl. f_equal. f_equal. apply matchingAnswers_nonempty. by exists answer.
Qed.

Lemma digitalocean_check_accepts_what_cloudflare_query_returns_witness :
  DigitalOceanOps.checkPropagation Cases.doh_single "example.com" "A" "203.0.113.5" tt
  = (Return true, tt).
Proof.
  apply (proj1 (digitalocean_check_accepts_what_cloudflare_query_returns
                  Cases.doh_single unit "example.com" "A" "8.8.8.8" "203.0.113.5" tt)).
  reflexivity.
Defined.

(** ** The façade on an existing domain *)

Lemma num_or_nonzero (n : option Z) (d : Z) : d <> 0 -> Js.num_or n d <> 0.
Proof.
  intros Hd. unfold Js.num_or. destruct n as [v|]; [|done].
  destruct (v =? 0) eqn:Hv; [done|]. by apply Z.eqb_neq.
Qed.

Lemma num_or_some (v d : Z) : v <> 0 -> Js.num_or (Some v) d = v.
Proof. intros Hv. unfold Js.num_or. by apply Z.eqb_neq in Hv as ->. Qed.

Section FacadeMore.
Import Service ServiceOps.
Variable W : Type.
Variable getDNSProvider : string -> string -> M W (DNSProvider W).
Variable checkPropagationOf :
  DNSProvider W -> option (string -> string -> string -> M W bool).

(** A guarded mutation whose check passes goes on with the mutation. *)
Lemma guarded_present {A} domain provider jwt st hint (k : M (State W) A) st' :
  validateDomain W getDNSProvider domain provider jwt st = (Return true, st') ->
  try_catch
    (domainExists <- validateDomain W getDNSProvider domain provider jwt ;;
     if negb domainExists then throw (domain_missing domain provider hint) else k)%js
    (fun error => throw error) st
  = k st'.
Proof.
  intros Hv. unfold try_catch, bind. rewrite Hv. simpl.
  by destruct (k st') as [[| |] ?].
Qed.

(** Fetching the provider and invoking one of its methods. *)
Lemma invoke_with_provider {A} (c : Call) (op : DNSProvider W -> M W A)
      provider jwt (st : State W) p w1 :
  getDNSProvider provider jwt (world st) = (Return p, w1) ->
  (dnsProvider <- lift W (getDNSProvider provider jwt) ;;
   invoke W c (op dnsProvider))%js st
  = (fst (op p w1), {| world := snd (op p w1); calls := c :: calls st |}).
Proof.
  intros Hp. unfold bind, lift, invoke. rewrite Hp. simpl. unfold lift. simpl.
  by destruct (op p w1).
Qed.

(** The façade's listing, whatever the provider's listing does. *)
Lemma listRecords_outcome domain provider jwt type (st : State W) p w1 :
  getDNSProvider provider jwt (world st) = (Return p, w1) ->
  listRecords W getDNSProvider domain provider jwt type st
  = (match fst (provider_listRecords p domain type w1) with
     | Throw e => if not_found e then Return [] else Throw e
     | other => other
     end,
     after_listing st domain type (snd (provider_listRecords p domain type w1))).
Proof.
  intros Hp.
  unfold listRecords, try_catch, bind, lift, invoke, after_listing. simpl.
  rewrite Hp. simpl. unfold lift. simpl.
  destruct (provider_listRecords p domain type w1) as [[records|e|] w2]; simpl;
    try reflexivity.
  by destruct (not_found e).
Qed.

End FacadeMore.

(** X19.  On a domain whose listing succeeds, each of the façade's
    createRecord, updateRecord and deleteRecord makes exactly two provider
    calls, the listing and then the mutation, fetching the provider object
    before each; the outcome of the operation is the outcome of the
    provider's mutation, raised errors included.  The record handed to the
    provider never has ttl 0: a missing or zero ttl option becomes 300. *)
Theorem facade_mutations_follow_one_listing
    (W : Type) (getDNSProvider : string -> string -> M W (DNSProvider W))
    (domain provider jwt : string) (st : Service.State W)
    (p p' : DNSProvider W) (w1 w2 w3 : W) (records : list DNSRecordResult)
    (recordType name content recordId : string)
    (options : Service.CreateOptions) (updates : PartialRecord) :
  getDNSProvider provider jwt (Service.world st) = (Return p, w1) ->
  provider_listRecords p domain None w1 = (Return records, w2) ->
  getDNSProvider provider jwt w2 = (Return p', w3) ->
  let record := {| rec_type := recordType; rec_name := name; rec_data := content;
                   rec_ttl := Js.num_or (Service.opt_ttl options) 300;
                   rec_priority := Service.opt_priority options |} in
  let log call := call :: Service.CallList domain None :: Service.calls st in
  rec_ttl record <> 0 /\
  Service.createRecord W getDNSProvider domain recordType name content provider jwt
    options st
  = (fst (provider_createRecord p' domain record w3),
     {| Service.world := snd (provider_createRecord p' domain record w3);
        Service.calls := log (Service.CallCreate domain record) |}) /\
  Service.updateRecord W getDNSProvider domain recordId provider jwt updates st
  = (fst (provider_updateRecord p' domain recordId updates w3),
     {| Service.world := snd (provider_updateRecord p' domain recordId updates w3);
        Service.calls := log (Service.CallUpdate domain recordId updates) |}) /\
  Service.deleteRecord W getDNSProvider domain recordId provider jwt st
  = (fst (provider_deleteRecord p' domain recordId w3),
     {| Service.world := snd (provider_deleteRecord p' domain recordId w3);
        Service.calls := log (Service.CallDelete domain recordId) |}).
Proof.
  intros Hp Hl Hp' record log.
  pose proof (validateDomain_listing_succeeds W getDNSProvider _ _ _ _ _ _ _ _ Hp Hl) as Hv.
  split; [by apply num_or_nonzero|].
  split; [|split].
  - unfold Service.createRecord.
    rewrite (guarded_present W getDNSProvider _ _ _ _ _ _ _ Hv).
    by rewrite (invoke_with_provider W getDNSProvider _
                  (fun dnsProvider => provider_createRecord dnsProvider domain record)
                  _ _ (Service.after_listing st domain None w2) p' w3 Hp').
  - unfold Service.updateRecord.
    rewrite (guarded_present W getDNSProvider _ _ _ _ _ _ _ Hv).
    by rewrite (invoke_with_provider W getDNSProvider _
                  (fun dnsProvider => provider_updateRecord dnsProvider domain recordId updates)
                  _ _ (Service.after_listing st domain None w2) p' w3 Hp').
  - unfold Service.deleteRecord.
    rewrite (guarded_present W getDNSProvider _ _ _ _ _ _ _ Hv).
    by rewrite (invoke_with_provider W getDNSProvider _
                  (fun dnsProvider => provider_deleteRecord dnsProvider domain recordId)
                  _ _ (Service.after_listing st domain None w2) p' w3 Hp').
Qed.

Lemma facade_mutations_follow_one_listing_witness :
  let st := {| Service.world := []; Service.calls := [] |} in
  exists created,
    Service.createRecord _ (Cases.provided (DigitalOcean.as_provider Scenario.do_echo))
      "example.com" "A" "www" "203.0.113.5" "digitalocean" "jwt"
      {| Service.opt_ttl := Some 0; Service.opt_priority := None |} st
    = (Return created,
       {| Service.world :=
            [DigitalOcean.PostRecord "example.com"
               {| DigitalOcean.body_type := "A"; DigitalOcean.body_name := "www";
                  DigitalOcean.body_data := "203.0.113.5"; DigitalOcean.body_ttl := 300;
                  DigitalOcean.body_priority := None |};
             DigitalOcean.GetRecords "example.com" 200 None];
          Service.calls :=
            [Service.CallCreate "example.com" Scenario.www_record;
             Service.CallList "example.com" None] |}) /\
    res_ttl created = 300.
Proof.
  intros st.
  edestruct (facade_mutations_follow_one_listing _
               (Cases.provided (DigitalOcean.as_provider Scenario.do_echo))
               "example.com" "digitalocean" "jwt" st
               (DigitalOcean.as_provider Scenario.do_echo)
               (DigitalOcean.as_provider Scenario.do_echo)
               [] [DigitalOcean.GetRecords "example.com" 200 None]
               [DigitalOcean.GetRecords "example.com" 200 None] []
               "A" "www" "203.0.113.5" "rec-1"
               {| Service.opt_ttl := Some 0; Service.opt_priority := None |}
               Cases.no_updates)
    as (_ & Hcreate & _); [reflexivity..|].
  eexists. split; [exact Hcreate | reflexivity].
Defined.

(** X20.  Creating a record through the façade with the DigitalOcean
    provider, on a domain whose listing is answered, sends exactly a GET for
    the records and then one POST.  The POST carries the caller's type and
    content, the name with "@" turned into the empty string, and as ttl the
    caller's ttl or 300: the provider's own default of 1800 never applies
    behind the façade.  The outcome is the created record, or the
    provider's error for a refused POST. *)
Theorem facade_create_over_digitalocean
    (api : DigitalOcean.Api) (domain recordType name content provider jwt : string)
    (options : Service.CreateOptions) (st : Service.State DigitalOcean.Trace)
    (records : list DigitalOcean.DoRecord) :
  DigitalOcean.get_records api (Service.world st) domain 200 None = Answer records ->
  let body := {| DigitalOcean.body_type := recordType;
                 DigitalOcean.body_name := DigitalOcean.toProviderName name;
                 DigitalOcean.body_data := content;
                 DigitalOcean.body_ttl := Js.num_or (Service.opt_ttl options) 300;
                 DigitalOcean.body_priority :=
                   Js.num_or_undefined (Service.opt_priority options) |} in
  let listed := DigitalOcean.GetRecords domain 200 None :: Service.world st in
  DigitalOcean.body_ttl body <> 0 /\
  exists record,
    Service.createRecord _ (Cases.provided (DigitalOcean.as_provider api))
      domain recordType name content provider jwt options st
    = (match DigitalOcean.post_record api listed domain body with
       | Answer created => Return (DigitalOcean.toResult created)
       | Failed cause =>
           Throw (DNSProviderError ("Failed to create DNS record: " ++ do_error_text cause)
                                   (status_or_500 cause) (Some "digitalocean"))
       end,
       {| Service.world := DigitalOcean.PostRecord domain body :: listed;
          Service.calls := Service.CallCreate domain record
                           :: Service.CallList domain None :: Service.calls st |}).
Proof.
  intros Hlisted body listed.
  split; [by apply num_or_nonzero|].
  destruct (createRecord_after_validation _
              (Cases.provided (DigitalOcean.as_provider api))
              domain recordType name content provider jwt options st
              (DigitalOcean.as_provider api) (Service.world st)
              (map DigitalOcean.toResult records) listed
              (DigitalOcean.as_provider api) listed)
    as (c & w4 & Hpost & Hcreate); [reflexivity| |reflexivity|].
  { simpl. unfold DigitalOcean.listRecords, DigitalOcean.wrap, try_catch, bind,
      DigitalOcean.http, ret. simpl. by rewrite Hlisted. }
  eexists. rewrite Hcreate. clear Hcreate.
  unfold DigitalOcean.as_provider in Hpost. cbn [provider_createRecord] in Hpost.
  unfold DigitalOcean.createRecord, DigitalOcean.createBody in Hpost.
  cbn [rec_type rec_name rec_data rec_ttl rec_priority] in Hpost.
  rewrite num_or_some in Hpost by (by apply num_or_nonzero).
  fold body in Hpost.
  unfold DigitalOcean.wrap, try_catch, bind, DigitalOcean.http, ret, throw in Hpost.
  destruct (DigitalOcean.post_record api listed domain body) as [created|cause];
    simpl in Hpost; by injection Hpost as <- <-.
Qed.

Lemma facade_create_over_digitalocean_witness :
  exists record created,
    Service.createRecord _ (Cases.provided (DigitalOcean.as_provider Scenario.do_echo))
      "example.com" "A" "@" "203.0.113.5" "digitalocean" "jwt"
      Cases.no_create_options {| Service.world := []; Service.calls := [] |}
    = (Return created,
       {| Service.world :=
            [DigitalOcean.PostRecord "example.com"
               {| DigitalOcean.body_type := "A"; DigitalOcean.body_name := EmptyString;
                  DigitalOcean.body_data := "203.0.113.5"; DigitalOcean.body_ttl := 300;
                  DigitalOcean.body_priority := None |};
             DigitalOcean.GetRecords "example.com" 200 None];
          Service.calls := [Service.CallCreate "example.com" record;
                            Service.CallList "example.com" None] |}) /\
    res_name created = "@".
Proof.
  edestruct (facade_create_over_digitalocean Scenario.do_echo
               "example.com" "A" "@" "203.0.113.5" "digitalocean" "jwt"
               Cases.no_create_options {| Service.world := []; Service.calls := [] |} [])
    as (_ & record & Hcreate); [reflexivity|].
  eexists record, _. split; [exact Hcreate | reflexivity].
Defined.

(** ** SSL configuration and propagation through the façade *)

(** X21.  configureSSL refuses without creating anything.  With a method
    other than "dns" it raises a 400 error and contacts no provider at all;
    with "dns" and a provider whose listing fails it ends after that one
    listing call, with the façade's 404 error for a missing domain when the
    failure is of the not-found class and with the listing error itself
    otherwise. *)
Theorem configureSSL_refusals
    (W : Type) (getDNSProvider : string -> string -> M W (DNSProvider W))
    (now : Z) (suffix domain provider jwt method : string) (st : Service.State W) :
  (method <> "dns" ->
   ServiceOps.configureSSL W getDNSProvider now suffix domain provider jwt method st
   = (Throw (DNSProviderError "Only DNS validation is currently supported" 400 None), st)) /\
  (forall p w1 e w2,
     getDNSProvider provider jwt (Service.world st) = (Return p, w1) ->
     provider_listRecords p domain None w1 = (Throw e, w2) ->
     ServiceOps.configureSSL W getDNSProvider now suffix domain provider jwt "dns" st
     = (Throw (if Service.not_found e
               then Service.domain_missing domain provider
                      "Please create the domain before configuring SSL."
               else e),
        Service.after_listing st domain None w2)).
Proof.
  split.
  - intros Hmethod. apply String.eqb_neq in Hmethod.
    unfold ServiceOps.configureSSL, try_catch, bind, ret, throw.
    by rewrite Hmethod.
  - intros p w1 e w2 Hp Hl.
    pose proof (validateDomain_listing_fails W getDNSProvider _ _ _ _ _ _ _ _ Hp Hl) as Hv.
    unfold ServiceOps.configureSSL, try_catch, bind, ret, throw.
    cbn [String.eqb Ascii.eqb Bool.eqb]. rewrite Hv.
    by destruct (Service.not_found e).
Qed.

Lemma configureSSL_refusals_witness :
  let st := {| Service.world := []; Service.calls := [] |} in
  ServiceOps.configureSSL _ (Cases.provided (DigitalOcean.as_provider Scenario.do_missing))
    1700000000000 "k3x9q2ab" "example.com" "digitalocean" "jwt" "http" st
  = (Throw (DNSProviderError "Only DNS validation is currently supported" 400 None), st) /\
  ServiceOps.configureSSL _ (Cases.provided (DigitalOcean.as_provider Scenario.do_missing))
    1700000000000 "k3x9q2ab" "example.com" "digitalocean" "jwt" "dns" st
  = (Throw (Service.domain_missing "example.com" "digitalocean"
              "Please create the domain before configuring SSL."),
     Service.after_listing st "example.com" None
       [DigitalOcean.GetRecords "example.com" 200 None]).
Proof.
  intros st.
  destruct (configureSSL_refusals _
              (Cases.provided (DigitalOcean.as_provider Scenario.do_missing))
              1700000000000 "k3x9q2ab" "example.com" "digitalocean" "jwt" "http" st)
    as [Hmethod Hmissing].
  split; [apply Hmethod; discriminate|].
  apply (Hmissing (DigitalOcean.as_provider Scenario.do_missing) []
           (DNSProviderError
              "Failed to list DNS records: Request failed with status code 404"
              404 (Some "digitalocean"))
           [DigitalOcean.GetRecords "example.com" 200 None]); reflexivity.
Defined.

(** X22.  A successful DNS-method configureSSL lists the domain's records
    twice before it creates anything: once for its own existence check and
    once more for the check inside createRecord.  It then creates a single
    TXT record named "_acme-challenge" with ttl 60 whose content is the
    validation token, and returns success with exactly the record the
    provider returned. *)
Theorem configureSSL_validates_twice
    (W : Type) (getDNSProvider : string -> string -> M W (DNSProvider W))
    (now : Z) (suffix domain provider jwt : string) (st : Service.State W)
    (p1 p2 p3 : DNSProvider W) (w1 w2 w3 w4 w5 w6 : W)
    (records1 records2 : list DNSRecordResult) (created : DNSRecordResult) :
  getDNSProvider provider jwt (Service.world st) = (Return p1, w1) ->
  provider_listRecords p1 domain None w1 = (Return records1, w2) ->
  getDNSProvider provider jwt w2 = (Return p2, w3) ->
  provider_listRecords p2 domain None w3 = (Return records2, w4) ->
  getDNSProvider provider jwt w4 = (Return p3, w5) ->
  let record := {| rec_type := "TXT"; rec_name := "_acme-challenge";
                   rec_data := ServiceOps.validationToken now suffix;
                   rec_ttl := 60; rec_priority := None |} in
  provider_createRecord p3 domain record w5 = (Return created, w6) ->
  ServiceOps.configureSSL W getDNSProvider now suffix domain provider jwt "dns" st
  = (Return {| ServiceOps.ssl_success := true;
               ServiceOps.validationRecords := Some [created] |},
     {| Service.world := w6;
        Service.calls := Service.CallCreate domain record
                         :: Service.CallList domain None
                         :: Service.CallList domain None :: Service.calls st |}).
Proof.
  intros Hp1 Hl1 Hp2 Hl2 Hp3 record Hcreate.
  pose proof (validateDomain_listing_succeeds W getDNSProvider _ _ _ _ _ _ _ _ Hp1 Hl1)
    as Hv.
  destruct (createRecord_after_validation W getDNSProvider
              domain "TXT" "_acme-challenge" (ServiceOps.validationToken now suffix)
              provider jwt {| Service.opt_ttl := Some 60; Service.opt_priority := None |}
              (Service.after_listing st domain None w2) p2 w3 records2 w4 p3 w5
              Hp2 Hl2 Hp3)
    as (c & w' & Hc & Hrun).
  cbn [Js.num_or Service.opt_ttl Service.opt_priority Z.eqb] in Hc, Hrun.
  fold record in Hc, Hrun. rewrite Hcreate in Hc. injection Hc as <- <-.
  unfold ServiceOps.configureSSL, try_catch, bind, ret, throw.
  cbn [String.eqb Ascii.eqb Bool.eqb negb]. rewrite Hv. cbn [negb].
  by rewrite Hrun.
Qed.

Lemma configureSSL_validates_twice_witness :
  exists created,
    ServiceOps.configureSSL _ (Cases.provided (DigitalOcean.as_provider Scenario.do_echo))
      1700000000000 "k3x9q2ab" "example.com" "digitalocean" "jwt" "dns"
      {| Service.world := []; Service.calls := [] |}
    = (Return {| ServiceOps.ssl_success := true;
                 ServiceOps.validationRecords := Some [created] |},
       {| Service.world :=
            [DigitalOcean.PostRecord "example.com"
               {| DigitalOcean.body_type := "TXT";
                  DigitalOcean.body_name := "_acme-challenge";
                  DigitalOcean.body_data := "controlvector-ssl-1700000000000-k3x9q2ab";
                  DigitalOcean.body_ttl := 60;
                  DigitalOcean.body_priority := None |};
             DigitalOcean.GetRecords "example.com" 200 None;
             DigitalOcean.GetRecords "example.com" 200 None];
          Service.calls :=
            [Service.CallCreate "example.com"
               {| rec_type := "TXT"; rec_name := "_acme-challenge";
                  rec_data := "controlvector-ssl-1700000000000-k3x9q2ab";
                  rec_ttl := 60; rec_priority := None |};
             Service.CallList "example.com" None;
             Service.CallList "example.com" None] |}) /\
    res_data created = "controlvector-ssl-1700000000000-k3x9q2ab".
Proof.
  eexists. split.
  - apply (configureSSL_validates_twice _
             (Cases.provided (DigitalOcean.as_provider Scenario.do_echo))
             1700000000000 "k3x9q2ab" "example.com" "digitalocean" "jwt"
             {| Service.world := []; Service.calls := [] |}
             (DigitalOcean.as_provider Scenario.do_echo)
             (DigitalOcean.as_provider Scenario.do_echo)
             (DigitalOcean.as_provider Scenario.do_echo)
             [] [DigitalOcean.GetRecords "example.com" 200 None]
             [DigitalOcean.GetRecords "example.com" 200 None]
             [DigitalOcean.GetRecords "example.com" 200 None;
              DigitalOcean.GetRecords "example.com" 200 None]
             [DigitalOcean.GetRecords "example.com" 200 None;
              DigitalOcean.GetRecords "example.com" 200 None]
             _ [] []); reflexivity.
  - reflexivity.
Defined.

(** X23.  verifyPropagation never raises: whatever fails on the way (the
    provider cannot be obtained, its propagation check or its listing
    raises) comes back as a result with propagated = false and the details
    "Propagation check failed: " followed by the error's message.  When the
    provider object has a checkPropagation method the result is that
    method's verdict, and the records are not listed; otherwise the records
    of the requested type are listed and the result is true exactly when
    one of them carries the expected value. *)
Theorem verifyPropagation_never_raises
    (W : Type) (getDNSProvider : string -> string -> M W (DNSProvider W))
    (checkPropagationOf : DNSProvider W -> option (string -> string -> string -> M W bool))
    (domain recordType expected provider jwt : string) (st : Service.State W) :
  let run := ServiceOps.verifyPropagation W getDNSProvider checkPropagationOf
               domain recordType expected provider jwt st in
  let failed e := {| ServiceOps.propagated := false;
                     ServiceOps.details := "Propagation check failed: " ++ message e |} in
  (forall e st', run <> (Throw e, st')) /\
  (forall e w1,
     getDNSProvider provider jwt (Service.world st) = (Throw e, w1) ->
     run = (Return (failed e), {| Service.world := w1; Service.calls := Service.calls st |})) /\
  (forall p w1 check,
     getDNSProvider provider jwt (Service.world st) = (Return p, w1) ->
     checkPropagationOf p = Some check ->
     snd run = {| Service.world := snd (check domain recordType expected w1);
                  Service.calls := Service.calls st |} /\
     match fst (check domain recordType expected w1) with
     | Return verdict => exists text, fst run = Return {| ServiceOps.propagated := verdict;
                                                          ServiceOps.details := text |}
     | Throw e => fst run = Return (failed e)
     | OutOfFuel => fst run = OutOfFuel
     end) /\
  (forall p w1,
     getDNSProvider provider jwt (Service.world st) = (Return p, w1) ->
     checkPropagationOf p = None ->
     snd run = Service.after_listing st domain (Some recordType)
                 (snd (provider_listRecords p domain (Some recordType) w1)) /\
     match fst (provider_listRecords p domain (Some recordType) w1) with
     | Return records =>
         exists text,
           fst run = Return {| ServiceOps.propagated :=
                                 existsb (fun r => String.eqb (res_data r) expected) records;
                               ServiceOps.details := text |}
     | Throw e => fst run = Return (failed e)
     | OutOfFuel => fst run = OutOfFuel
     end).
Proof.
  intros run failed. subst run.
  unfold ServiceOps.verifyPropagation, try_catch, bind, Service.lift, Service.invoke, ret.
  destruct (getDNSProvider provider jwt (Service.world st)) as [[p|e|] w1] eqn:Hp; simpl.
  2: { split; [done|]. split; [by intros ? ? [= <- <-]|]. split; by intros. }
  2: { split; [done|]. split; [by intros|]. split; by intros. }
  unfold Service.lift. simpl.
  destruct (checkPropagationOf p) as [check|] eqn:Hcheck.
  - destruct (check domain recordType expected w1) as [[verdict|e|] w2] eqn:Hrun; simpl;
      rewrite ?Hrun; simpl.
    + split; [done|]. split; [by intros|]. split; [|by intros ? ? [= <- <-]; rewrite Hcheck].
      intros p' w1' check' [= <- <-] Hcheck'.
      rewrite Hcheck in Hcheck'. injection Hcheck' as <-. rewrite Hrun. simpl.
      split; [reflexivity|]. by eexists.
    + split; [done|]. split; [by intros|]. split; [|by intros ? ? [= <- <-]; rewrite Hcheck].
      intros p' w1' check' [= <- <-] Hcheck'.
      rewrite Hcheck in Hcheck'. injection Hcheck' as <-. by rewrite Hrun.
    + split; [done|]. split; [by intros|]. split; [|by intros ? ? [= <- <-]; rewrite Hcheck].
      intros p' w1' check' [= <- <-] Hcheck'.
      rewrite Hcheck in Hcheck'. injection Hcheck' as <-. by rewrite Hrun.
  - destruct (provider_listRecords p domain (Some recordType) w1)
      as [[records|e|] w2] eqn:Hlist; simpl; rewrite ?Hlist; simpl.
    + assert (forall records : list DNSRecordResult,
                existsb (fun r => String.eqb (res_data r) expected) records
                = match find (fun r => String.eqb (res_data r) expected) records with
                  | Some _ => true
                  | None => false
                  end) as Hfind.
      { intros rs. induction rs as [|r rs IH]; [done|]. simpl.
        by destruct (String.eqb (res_data r) expected). }
      split; [by destruct (find _ records)|]. split; [by intros|].
      split; [by intros ? ? ? [= <- <-]; rewrite Hcheck|].
      intros p' w1' [= <- <-] _. rewrite Hlist. simpl. rewrite Hfind.
      destruct (find _ records); simpl; (split; [reflexivity|by eexists]).
    + split; [done|]. split; [by intros|].
      split; [by intros ? ? ? [= <- <-]; rewrite Hcheck|].
      intros p' w1' [= <- <-] _. by rewrite Hlist.
    + split; [done|]. split; [by intros|].
      split; [by intros ? ? ? [= <- <-]; rewrite Hcheck|].
      intros p' w1' [= <- <-] _. by rewrite Hlist.
Qed.

Lemma verifyPropagation_never_raises_witness :
  let st := {| Service.world := []; Service.calls := [] |} in
  ServiceOps.verifyPropagation _
    (Cases.provided (DigitalOcean.as_provider Scenario.do_missing))
    Cases.no_checkPropagation "example.com" "A" "203.0.113.5" "digitalocean" "jwt" st
  = (Return {| ServiceOps.propagated := false;
               ServiceOps.details :=
                 "Propagation check failed: Failed to list DNS records: Request failed with status code 404" |},
     Service.after_listing st "example.com" (Some "A")
       [DigitalOcean.GetRecords "example.com" 200 (Some "A")]).
Proof.
  intros st.
  destruct (verifyPropagation_never_raises _
              (Cases.provided (DigitalOcean.as_provider Scenario.do_missing))
              Cases.no_checkPropagation "example.com" "A" "203.0.113.5"
              "digitalocean" "jwt" st)
    as (_ & _ & _ & Hlisting).
  destruct (Hlisting (DigitalOcean.as_provider Scenario.do_missing) [])
    as [Hstate Hresult]; [reflexivity..|].
  apply injective_projections; [exact Hresult | exact Hstate].
Defined.

(** ** A missing domain, seen through the façade, provider by provider *)

Lemma adaptive_listRecords_failed_discovery
    (api : Cf.Api) (options : Adaptive.Options) (env : Adaptive.Env)
    (fuel : nat) (domain : string) (type : option string) (st st1 : Adaptive.State)
    (e : JsError) :
  Adaptive.discoverZoneId api options env fuel domain st = (Throw e, st1) ->
  Adaptive.listRecords api options env fuel domain type st
  = (Throw (DNSProviderError ("Failed to list DNS records: " ++ message e) 500
                             (Some "cloudflare")), st1).
Proof.
  intros Hrun.
  pose proof (discoverZoneId_post api options env fuel domain st) as [_ He].
  rewrite Hrun in He. simpl in He.
  unfold Adaptive.listRecords, try_catch, bind, throw. rewrite Hrun.
  by rewrite He.
Qed.

(** X24.  Through the façade, a domain DigitalOcean answers with 404 is
    reported as missing after a single GET: listRecords returns the empty
    list, and createRecord, updateRecord and deleteRecord raise the
    façade's 404 error without sending any POST, PUT or DELETE. *)
Theorem facade_over_digitalocean_missing_domain
    (api : DigitalOcean.Api) (domain provider jwt recordType name content recordId : string)
    (options : Service.CreateOptions) (updates : PartialRecord)
    (st : Service.State DigitalOcean.Trace) (cause : JsError) :
  DigitalOcean.get_records api (Service.world st) domain 200 None = Failed cause ->
  response_status cause = Some 404 ->
  let getDNSProvider := Cases.provided (DigitalOcean.as_provider api) in
  let st' := Service.after_listing st domain None
               (DigitalOcean.GetRecords domain 200 None :: Service.world st) in
  Service.listRecords _ getDNSProvider domain provider jwt None st = (Return [], st') /\
  Service.createRecord _ getDNSProvider domain recordType name content provider jwt
    options st
  = (Throw (Service.domain_missing domain provider "Please create the domain first."), st') /\
  Service.updateRecord _ getDNSProvider domain recordId provider jwt updates st
  = (Throw (Service.domain_missing domain provider
              "Cannot update records for non-existent domain."), st') /\
  Service.deleteRecord _ getDNSProvider domain recordId provider jwt st
  = (Throw (Service.domain_missing domain provider
              "Cannot delete records for non-existent domain."), st').
Proof.
  intros Hfailed Hstatus getDNSProvider st'.
  set (e := DNSProviderError ("Failed to list DNS records: " ++ do_error_text cause) 404
                             (Some "digitalocean")).
  assert (provider_listRecords (DigitalOcean.as_provider api) domain None (Service.world st)
          = (Throw e, DigitalOcean.GetRecords domain 200 None :: Service.world st)) as Hl.
  { simpl. unfold DigitalOcean.listRecords, DigitalOcean.wrap, try_catch, bind,
      DigitalOcean.http, throw. simpl. rewrite Hfailed. simpl.
    unfold status_or_500. by rewrite Hstatus. }
  assert (Service.validateDomain _ getDNSProvider domain provider jwt st
          = (Return false, st')) as Hv.
  { by rewrite (validateDomain_listing_fails _ getDNSProvider _ _ _ _
                  (DigitalOcean.as_provider api) (Service.world st) e _ eq_refl Hl). }
  split; [|split; [|split]].
  - rewrite (listRecords_outcome _ getDNSProvider _ _ _ _ _
               (DigitalOcean.as_provider api) (Service.world st) eq_refl).
    by rewrite Hl.
  - unfold Service.createRecord. by apply guarded_missing.
  - unfold Service.updateRecord. by apply guarded_missing.
  - unfold Service.deleteRecord. by apply guarded_missing.
Qed.

Lemma facade_over_digitalocean_missing_domain_witness :
  let st := {| Service.world := []; Service.calls := [] |} in
  Service.deleteRecord _ (Cases.provided (DigitalOcean.as_provider Scenario.do_missing))
    "example.com" "42" "digitalocean" "jwt" st
  = (Throw (Service.domain_missing "example.com" "digitalocean"
              "Cannot delete records for non-existent domain."),
     Service.after_listing st "example.com" None
       [DigitalOcean.GetRecords "example.com" 200 None]).
Proof.
  intros st.
  apply (facade_over_digitalocean_missing_domain Scenario.do_missing
           "example.com" "digitalocean" "jwt" "A" "www" "203.0.113.5" "42"
           Cases.no_create_options Cases.no_updates st (Scenario.http_error 404));
    reflexivity.
Defined.

(** X25.  Through the façade, a zone the basic Cloudflare provider's name
    lookup does not list is reported as a missing domain, although the
    provider's own error has status 500: the façade recognises it by the
    words "not found" in the message.  listRecords returns the empty list
    for any type filter, the three mutations raise the façade's 404 error,
    and no write request is sent. *)
Theorem facade_over_cloudflare_missing_zone
    (api : Cf.Api) (wapi : CfWrite.Api)
    (domain provider jwt recordType name content recordId : string)
    (type : option string) (options : Service.CreateOptions) (updates : PartialRecord)
    (st : Service.State CloudflareOps.World) (response : Cf.Envelope (list Cf.CloudflareZone)) :
  Cf.zones_by_name api (fst (Service.world st)) (Cloudflare.extractRootDomain domain)
  = Answer response ->
  Cf.success response = true ->
  Cf.result response = [] ->
  let getDNSProvider := Cases.provided (CloudflareOps.as_provider api wapi) in
  exists (e : JsError) (t' : Cf.Trace),
    provider_listRecords (CloudflareOps.as_provider api wapi) domain type (Service.world st)
    = (Throw e, (t', snd (Service.world st))) /\
    statusCode e = Some 500 /\
    Service.listRecords _ getDNSProvider domain provider jwt type st
    = (Return [], Service.after_listing st domain type (t', snd (Service.world st))) /\
    let st' := Service.after_listing st domain None (t', snd (Service.world st)) in
    Service.createRecord _ getDNSProvider domain recordType name content provider jwt
      options st
    = (Throw (Service.domain_missing domain provider "Please create the domain first."),
       st') /\
    Service.updateRecord _ getDNSProvider domain recordId provider jwt updates st
    = (Throw (Service.domain_missing domain provider
                "Cannot update records for non-existent domain."), st') /\
    Service.deleteRecord _ getDNSProvider domain recordId provider jwt st
    = (Throw (Service.domain_missing domain provider
                "Cannot delete records for non-existent domain."), st').
Proof.
  intros Hanswer Hsuccess Hempty getDNSProvider.
  destruct (getZoneId_no_zone api domain _ response Hanswer Hsuccess Hempty)
    as [t' Hlookup].
  set (lookup := ("Failed to get zone ID for " ++ domain ++ ": " ++
                  ("Zone not found for domain: " ++ Cloudflare.extractRootDomain domain ++
                   ". Make sure the domain is added to your Cloudflare account."))%string)
    in Hlookup.
  set (e := DNSProviderError ("Failed to list DNS records: " ++ lookup) 500
                             (Some "cloudflare")).
  assert (forall filter,
            provider_listRecords (CloudflareOps.as_provider api wapi) domain filter
              (Service.world st)
            = (Throw e, (t', snd (Service.world st)))) as Hl.
  { intros filter. simpl. unfold CfWrite.on_fst, Cloudflare.listRecords, try_catch, bind,
      throw. by rewrite Hlookup. }
  assert (Service.not_found e = true) as Hnf.
  { unfold Service.not_found. cbn [message e DNSProviderError].
    rewrite (includes_app_r "Failed to list DNS records: " lookup "not found");
      [by rewrite orb_true_r|].
    unfold lookup. do 3 apply includes_app_r. by apply includes_app_l. }
  assert (Service.validateDomain _ getDNSProvider domain provider jwt st
          = (Return false,
             Service.after_listing st domain None (t', snd (Service.world st)))) as Hv.
  { rewrite (validateDomain_listing_fails _ getDNSProvider _ _ _ _
               (CloudflareOps.as_provider api wapi) (Service.world st) e _ eq_refl (Hl None)).
    by rewrite Hnf. }
  exists e, t'. split; [apply Hl|]. split; [reflexivity|].
  split; [|split; [|split]].
  - rewrite (listRecords_outcome _ getDNSProvider _ _ _ _ _
               (CloudflareOps.as_provider api wapi) (Service.world st) eq_refl).
    rewrite Hl. cbn [fst snd]. by rewrite Hnf.
  - unfold Service.createRecord. by apply guarded_missing.
  - unfold Service.updateRecord. by apply guarded_missing.
  - unfold Service.deleteRecord. by apply guarded_missing.
Qed.

Lemma facade_over_cloudflare_missing_zone_witness :
  let st := {| Service.world := ([], []); Service.calls := [] |} in
  exists t',
    Service.listRecords _
      (Cases.provided (CloudflareOps.as_provider Scenario.api_no_zone Cases.writes_refused))
      "www.example.com" "cloudflare" "jwt" (Some "A") st
    = (Return [], Service.after_listing st "www.example.com" (Some "A") (t', [])).
Proof.
  intros st.
  edestruct (facade_over_cloudflare_missing_zone Scenario.api_no_zone Cases.writes_refused
               "www.example.com" "cloudflare" "jwt" "A" "www" "203.0.113.5" "rec-1"
               (Some "A") Cases.no_create_options Cases.no_updates st)
    as (e & t' & _ & _ & Hlist & _); [reflexivity..|].
  exists t'. exact Hlist.
Defined.

(** X26.  With the adaptive Cloudflare provider, the one the service
    builds for Cloudflare when the AI-assisted mode is off, a zone that
    discovery cannot find is not reported as a missing domain.  The provider's listing raises a status-500 error whose message
    repeats the discovery message; as long as that message holds neither
    "not found" nor "does not exist", the façade's listRecords raises this
    error instead of returning the empty list, and createRecord,
    updateRecord and deleteRecord raise it too, in place of the 404 error
    for a missing domain.  No write request is sent. *)
Theorem facade_over_adaptive_missing_zone
    (api : Cf.Api) (wapi : CfWrite.Api) (options : Adaptive.Options) (env : Adaptive.Env)
    (fuel discovery : nat)
    (domain provider jwt recordType name content recordId : string)
    (createOptions : Service.CreateOptions) (updates : PartialRecord)
    (st : Service.State AdaptiveOps.World) (st1 : Adaptive.State) (e : JsError) :
  Adaptive.discoverZoneId api options env discovery domain (fst (Service.world st))
  = (Throw e, st1) ->
  let failure := DNSProviderError ("Failed to list DNS records: " ++ message e) 500
                                  (Some "cloudflare") in
  Service.not_found failure = false ->
  let getDNSProvider :=
    Cases.provided (AdaptiveOps.as_provider api wapi options env fuel discovery) in
  let st' := Service.after_listing st domain None (st1, snd (Service.world st)) in
  message e = message (Adaptive.zone_not_found (Adaptive.extractRootDomain domain)
                         (Adaptive.discoveryAttempts (fst (Service.world st)))) /\
  Service.listRecords _ getDNSProvider domain provider jwt None st = (Throw failure, st') /\
  Service.createRecord _ getDNSProvider domain recordType name content provider jwt
    createOptions st
  = (Throw failure, st') /\
  Service.updateRecord _ getDNSProvider domain recordId provider jwt updates st
  = (Throw failure, st') /\
  Service.deleteRecord _ getDNSProvider domain recordId provider jwt st
  = (Throw failure, st').
Proof.
  intros Hrun failure Hnf getDNSProvider st'.
  pose proof (discoverZoneId_post api options env discovery domain (fst (Service.world st)))
    as [_ He].
  rewrite Hrun in He. simpl in He.
  split; [by rewrite He|].
  assert (provider_listRecords (AdaptiveOps.as_provider api wapi options env fuel discovery)
            domain None (Service.world st)
          = (Throw failure, (st1, snd (Service.world st)))) as Hl.
  { simpl. unfold CfWrite.on_fst.
    by rewrite (adaptive_listRecords_failed_discovery _ _ _ _ _ _ _ _ _ Hrun). }
  assert (Service.validateDomain _ getDNSProvider domain provider jwt st
          = (Throw failure, st')) as Hv.
  { rewrite (validateDomain_listing_fails _ getDNSProvider _ _ _ _
               (AdaptiveOps.as_provider api wapi options env fuel discovery)
               (Service.world st) failure _ eq_refl Hl).
    by rewrite Hnf. }
  split; [|split; [|split]].
  - rewrite (listRecords_outcome _ getDNSProvider _ _ _ _ _
               (AdaptiveOps.as_provider api wapi options env fuel discovery)
               (Service.world st) eq_refl).
    rewrite Hl. cbn [fst snd]. by rewrite Hnf.
  - unfold Service.createRecord. by apply guarded_error.
  - unfold Service.updateRecord. by apply guarded_error.
  - unfold Service.deleteRecord. by apply guarded_error.
Qed.

Lemma facade_over_adaptive_missing_zone_witness :
  let st := {| Service.world := (Adaptive.new Scenario.no_options Scenario.no_env, []);
               Service.calls := [] |} in
  exists e st',
    Service.listRecords _
      (Cases.provided (AdaptiveOps.as_provider Scenario.api_no_zone Cases.writes_refused
                         Scenario.no_options Scenario.no_env 1 1))
      "www.example.com" "cloudflare" "jwt" None st
    = (Throw e, st') /\
    statusCode e = Some 500 /\
    snd (Service.world st') = [].
Proof.
  intros st.
  edestruct (fun st1 =>
               facade_over_adaptive_missing_zone Scenario.api_no_zone Cases.writes_refused
                 Scenario.no_options Scenario.no_env 1 1
                 "www.example.com" "cloudflare" "jwt" "A" "www" "203.0.113.5" "rec-1"
                 Cases.no_create_options Cases.no_updates st st1
                 (Adaptive.zone_not_found "example.com" 0))
    as (_ & Hlist & _); [reflexivity|reflexivity|].
  eexists _, _. split; [exact Hlist|]. split; reflexivity.
Defined.

(** ** The adaptive provider on a cached zone *)

(** X27.  Once the zone of a domain's root is in the adaptive provider's
    cache, listRecords, updateRecord and deleteRecord send a single request
    each, addressed to the cached zone, and no lookup request at all; the
    cache and the retry counter stay as they are.  An answer flagged as
    successful is returned as the operation's result. *)
Theorem adaptive_operations_on_a_cached_zone
    (api : Cf.Api) (wapi : CfWrite.Api) (options : Adaptive.Options) (env : Adaptive.Env)
    (fuel : nat) (domain recordId zone : string) (type : option string)
    (updates : PartialRecord) (st : Adaptive.State) (writes : list CfWrite.Write) :
  Adaptive.zoneCache_get (Adaptive.zoneCache st) (Adaptive.extractRootDomain domain)
  = Some zone ->
  let type_param := if Js.truthy type then type else None in
  let body := CfWrite.updateData updates in
  let listing := Adaptive.listRecords api options env (S fuel) domain type st in
  let update := AdaptiveOps.updateRecord api wapi options env (S fuel) domain recordId
                  updates (st, writes) in
  let deletion := AdaptiveOps.deleteRecord api wapi options env (S fuel) domain recordId
                    (st, writes) in
  snd listing
  = Adaptive.record_event (Cf.EvRequest (Cf.GetRecords zone 100 type_param)) st /\
  snd update = (st, CfWrite.PatchRecord zone recordId body :: writes) /\
  snd deletion = (st, CfWrite.DeleteRecord zone recordId :: writes) /\
  (forall response,
     Cf.get_records api (Adaptive.trace st) zone 100 type_param = Answer response ->
     Cf.success response = true ->
     fst listing = Return (map (Cf.toResult true) (Cf.result response))) /\
  (forall response,
     CfWrite.patch_record wapi (Adaptive.trace st) writes zone recordId body
     = Answer response ->
     Cf.success response = true ->
     fst update = Return (Cf.toResult true (Cf.result response))) /\
  (forall response,
     CfWrite.delete_record wapi (Adaptive.trace st) writes zone recordId = Answer response ->
     Cf.success response = true ->
     fst deletion = Return tt).
Proof.
  intros Hhit type_param body listing update deletion.
  pose proof (discoverZoneId_hit api options env fuel domain st zone Hhit) as Hzone.
  subst listing update deletion type_param body.
  unfold Adaptive.listRecords, AdaptiveOps.updateRecord, AdaptiveOps.deleteRecord.
  unfold try_catch, bind, CfWrite.on_fst, AdaptiveOps.write, Adaptive.http, throw, ret.
  cbn [fst snd]. rewrite Hzone. cbn [fst snd].
  split; [|split; [|split; [|split; [|split]]]].
  - destruct (Cf.get_records api _ zone 100 _) as [response|cause]; simpl; [|done].
    by destruct (Cf.success response).
  - destruct (CfWrite.patch_record wapi _ writes zone recordId _) as [response|cause];
      simpl; [|done].
    by destruct (Cf.success response).
  - destruct (CfWrite.delete_record wapi _ writes zone recordId) as [response|cause];
      simpl; [|done].
    by destruct (Cf.success response).
  - intros response -> Hsuccess. simpl. by rewrite Hsuccess.
  - intros response -> Hsuccess. simpl. by rewrite Hsuccess.
  - intros response -> Hsuccess. simpl. by rewrite Hsuccess.
Qed.

Lemma adaptive_operations_on_a_cached_zone_witness :
  let st := snd (Adaptive.cacheZoneId "example.com" "zone-1" "direct_lookup"
                   (Adaptive.new Scenario.no_options Scenario.no_env)) in
  snd (AdaptiveOps.deleteRecord Scenario.api_no_zone Cases.writes_refused
         Scenario.no_options Scenario.no_env 1 "www.example.com" "rec-1" (st, []))
  = (st, [CfWrite.DeleteRecord "zone-1" "rec-1"]).
Proof.
  intros st.
  apply (adaptive_operations_on_a_cached_zone Scenario.api_no_zone Cases.writes_refused
           Scenario.no_options Scenario.no_env 0 "www.example.com" "rec-1" "zone-1"
           None Cases.no_updates st []).
  reflexivity.
Defined.
